(** * Buf Barista point of sale: order lifecycle, reporting and data import

    A shallow embedding of the logic of the React pages
    [src/pages/pos.tsx], [src/pages/orders.tsx] (and its earlier copy, which
    carries the order-id restart), [src/pages/reports.tsx] and the data
    import of the orders page.

    Conventions of the embedding.
    - A React component is a record of its [useState] cells plus the part of
      [localStorage] it touches; an event handler is a function from state to
      state.  Handlers read the cells of the current render and queue
      updates, so a handler is one atomic step.
    - Instants ([Date] values) are integers: milliseconds on the local time
      line, one calendar day being [msPerDay] of them.  A field the source
      keeps as a date string ([timestamp], [startTime]) holds the instant
      that [new Date(text)] gives back.
    - Finite JavaScript numbers are exact rationals ([Q]); the rounding of
      IEEE doubles is not modelled.  Division is modelled with its
      non-finite results ([JsNumber]), since the report code divides by
      values that can be zero.
    - The [total] of an [Order] is a number.  A [StoredOrder] adds the form
      in which the store holds it, a number or the text [toFixed(2)]
      returned, and [StoredReports] is the report code on such orders,
      where [+] on a text concatenates.
    - [window.confirm] and [new Date()] are inputs of the handler that calls
      them. *)

From Stdlib Require Import ZArith QArith Qround List Bool String Sorted Lia.
From Stdlib Require Import Permutation Ascii DecimalString Lqa.
From stdpp Require Import gmap strings sorting.
Import ListNotations.

(** ** JavaScript numbers *)

Inductive JsNumber : Type :=
| Finite (q : Q)
| PosInfinity
| NegInfinity
| NaN.

(** [a / b] on finite operands (a zero divisor being the positive zero
    that sums of non-negative amounts produce). *)
Definition js_div (a b : Q) : JsNumber :=
  if Qeq_bool b 0 then
    if Qeq_bool a 0 then NaN
    else if Qle_bool 0 a then PosInfinity else NegInfinity
  else Finite (a / b)%Q.

(** [x * k] for a finite positive constant [k]. *)
Definition js_scale (x : JsNumber) (k : Q) : JsNumber :=
  match x with
  | Finite q => Finite (q * k)%Q
  | other => other
  end.

(** [x || y] where [x] is a number or [undefined]: [undefined] and [0] are
    falsy. *)
Definition js_or (x : option Q) (y : Q) : Q :=
  match x with
  | Some v => if Qeq_bool v 0 then y else v
  | None => y
  end.

(** The number that [x.toFixed(2)] writes down: the nearest multiple of
    1/100, the larger one on a tie, computed on the magnitude. *)
Definition toFixed2_nonneg (x : Q) : Q := (Qfloor (x * 100 + (1 # 2))%Q # 100)%Q.

Definition toFixed2 (x : Q) : Q :=
  if Qle_bool 0 x then toFixed2_nonneg x else (- toFixed2_nonneg (- x))%Q.

(** [arr[i]] for a possibly negative index: [undefined] out of range. *)
Definition js_index {A : Type} (arr : list A) (i : Z) : option A :=
  if (i <? 0)%Z then None else nth_error arr (Z.to_nat i).

(** [Array.prototype.sort] with a comparator.  The sort is stable; a stable
    insertion sort returns the same array. *)
Section ArraySort.
Context {A : Type} (compareFn : A -> A -> Q).

Fixpoint sort_insert (x : A) (l : list A) : list A :=
  match l with
  | [] => [x]
  | y :: l' =>
      if Qle_bool (compareFn x y) 0 then x :: l else y :: sort_insert x l'
  end.

Definition Array_sort (l : list A) : list A := fold_right sort_insert [] l.
End ArraySort.

(** [arr.map((x, index) => f x index)]. *)
Fixpoint map_index_from {A B : Type} (f : A -> Z -> B) (i : Z) (l : list A)
  : list B :=
  match l with
  | [] => []
  | x :: l' => f x i :: map_index_from f (i + 1)%Z l'
  end.

Definition Array_map_index {A B : Type} (f : A -> Z -> B) (l : list A)
  : list B :=
  map_index_from f 0%Z l.

(** The array without its element at [index]:
    [arr.filter((_, i) => i !== index)], and [arr.splice(index, 1)] on a
    copy. *)
Fixpoint removeAt {A : Type} (index : nat) (l : list A) : list A :=
  match l, index with
  | [], _ => []
  | _ :: l', O => l'
  | x :: l', S k => x :: removeAt k l'
  end.

(** Mathematical sum of a list of rationals, used to state results. *)
Definition sumQ (l : list Q) : Q := fold_right Qplus 0%Q l.

(** [x || y] where [x] is an integer count or [undefined]. *)
Definition js_or_Z (x : option Z) (y : Z) : Z :=
  match x with
  | Some v => if (v =? 0)%Z then y else v
  | None => y
  end.


(** [Math.round]: the nearest integer, the larger one on a tie. *)
Definition Math_round (x : Q) : Z := Qfloor (x + (1 # 2))%Q.

(** [x % y] on finite numbers: what is left of [x] after taking out [y]
    a whole number of times, counted towards zero. *)
Definition Qtruncate (x : Q) : Z :=
  if Qle_bool 0 x then Qfloor x else Qceiling x.

Definition js_rem (x y : Q) : Q := (x - y * inject_Z (Qtruncate (x / y)))%Q.

(** [n.toString()] for an integer [n], and [s.padStart(2, '0')]. *)
Definition Z_toString (n : Z) : string := NilZero.string_of_int (Z.to_int n).

Definition padStart2 (s : string) : string :=
  match String.length s with
  | O => "00"
  | S O => "0" ++ s
  | _ => s
  end.

(** ** Numbers and texts

    The report code applies [+], [-], [/], [||] and [>] to the [total] of
    an order as the store holds it, which is a number or a text (the
    order-entry page stores the text [toFixed(2)] returns); on a text,
    [+] concatenates and the other operators convert the text to a number
    first. *)

Inductive JsValue : Type :=
| JsNum (n : JsNumber)
| JsText (text : string).

(** The text [x.toFixed(2)] returns: the cents of [toFixed2], written with
    a decimal point. *)
Definition toFixed2_nonneg_text (x : Q) : string :=
  let cents := Qfloor (x * 100 + (1 # 2))%Q in
  (Z_toString (cents / 100) ++ "."
   ++ padStart2 (Z_toString (cents mod 100)))%string.

Definition toFixed2_text (x : Q) : string :=
  if Qle_bool 0 x then toFixed2_nonneg_text x
  else ("-" ++ toFixed2_nonneg_text (- x))%string.

(** Arithmetic on numbers that may not be finite. *)
Definition num_neg (a : JsNumber) : JsNumber :=
  match a with
  | Finite x => Finite (- x)%Q
  | PosInfinity => NegInfinity
  | NegInfinity => PosInfinity
  | NaN => NaN
  end.

Definition num_add (a b : JsNumber) : JsNumber :=
  match a with
  | Finite x =>
      match b with
      | Finite y => Finite (x + y)%Q
      | other => other
      end
  | PosInfinity =>
      match b with
      | NegInfinity | NaN => NaN
      | _ => PosInfinity
      end
  | NegInfinity =>
      match b with
      | PosInfinity | NaN => NaN
      | _ => NegInfinity
      end
  | NaN => NaN
  end.

Definition num_sub (a b : JsNumber) : JsNumber := num_add a (num_neg b).

Definition num_div (a b : JsNumber) : JsNumber :=
  match a with
  | Finite x =>
      match b with
      | Finite y => js_div x y
      | NaN => NaN
      | _ => Finite 0
      end
  | NaN => NaN
  | infinite =>
      match b with
      | Finite y => if Qle_bool 0 y then infinite else num_neg infinite
      | _ => NaN
      end
  end.

(** [a > b] on numbers. *)
Definition num_gt (a b : JsNumber) : bool :=
  match a with
  | Finite x =>
      match b with
      | Finite y => negb (Qle_bool x y)
      | NegInfinity => true
      | _ => false
      end
  | PosInfinity =>
      match b with
      | PosInfinity | NaN => false
      | _ => true
      end
  | _ => false
  end.

(** [Number(text)] for texts made of decimal digits, dots and a leading
    sign, which is what concatenating amounts gives: the number the text
    writes, [NaN] when it writes none, 0 for the empty text.  (Exponents,
    other bases, 'Infinity' and surrounding blanks are not read.) *)
Definition digitValue (c : Ascii.ascii) : option Z :=
  let n := Z.of_nat (Ascii.nat_of_ascii c) in
  if ((48 <=? n) && (n <=? 57))%Z then Some (n - 48)%Z else None.

Fixpoint readDigits (s : string) (value : Z) (count : nat)
  : Z * nat * string :=
  match s with
  | EmptyString => (value, count, s)
  | String c rest =>
      match digitValue c with
      | Some d => readDigits rest (value * 10 + d)%Z (S count)
      | None => (value, count, s)
      end
  end.

Definition decimalValue (s : string) : JsNumber :=
  let '(whole, wholeDigits, rest) := readDigits s 0 0 in
  match rest with
  | EmptyString =>
      match wholeDigits with
      | O => NaN
      | S _ => Finite (inject_Z whole)
      end
  | String c rest' =>
      if Ascii.eqb c "."%char then
        let '(fraction, fractionDigits, rest'') := readDigits rest' 0 0 in
        match rest'', (wholeDigits + fractionDigits)%nat with
        | EmptyString, S _ =>
            Finite (inject_Z whole
                    + inject_Z fraction
                      / inject_Z (10 ^ Z.of_nat fractionDigits))%Q
        | _, _ => NaN
        end
      else NaN
  end.

Definition Number_ofText (s : string) : JsNumber :=
  match s with
  | EmptyString => Finite 0
  | String c rest =>
      if Ascii.eqb c "-"%char then num_neg (decimalValue rest)
      else if Ascii.eqb c "+"%char then decimalValue rest
      else decimalValue s
  end.

Definition ToNumber (v : JsValue) : JsNumber :=
  match v with
  | JsNum n => n
  | JsText text => Number_ofText text
  end.

(** Truthiness, as [||] reads it: 0, [NaN] and the empty text are
    falsy. *)
Definition js_truthy (v : JsValue) : bool :=
  match v with
  | JsNum (Finite q) => negb (Qeq_bool q 0)
  | JsNum NaN => false
  | JsNum _ => true
  | JsText text => negb (text =? "")%string
  end.

(** [x || y] where [x] is a value or [undefined]. *)
Definition js_or_value (x : option JsValue) (y : JsValue) : JsValue :=
  match x with
  | Some v => if js_truthy v then v else y
  | None => y
  end.

(** [v !== 0]: a text is never the number 0. *)
Definition js_not_zero (v : JsValue) : bool :=
  match v with
  | JsNum (Finite q) => negb (Qeq_bool q 0)
  | _ => true
  end.

(** [a > b]: two texts are compared as texts, character by character;
    otherwise both sides are compared as numbers. *)
Definition js_gt (a b : JsValue) : bool :=
  match a, b with
  | JsText s, JsText t => String.ltb t s
  | _, _ => num_gt (ToNumber a) (ToNumber b)
  end.

(** ** Data model *)

(** A line of an order or of the cart (pos.tsx: a menu item with [flavor]
    and [quantity]). *)
Record OrderItem : Type := mkOrderItem {
  item_id : Z;
  name : string;
  quantity : Z;
  price : Q;
  category : string;
  flavor : option string
}.

Record Order : Type := mkOrder {
  id : Z;
  customerName : string;
  status : string;
  timestamp : Z;
  items : list OrderItem;
  total : Q;
  isComplimentary : bool;
  queueTime : Q;
  preparationTime : option Q;
  customerEmail : option string;
  customerPhone : option string;
  leadInterest : option bool;
  startTime : option Z;
  notes : option string
}.

(** Object spreads [{ ...order, field: value }]. *)
Definition with_status (o : Order) (s : string) : Order :=
  mkOrder (id o) (customerName o) s (timestamp o) (items o) (total o)
    (isComplimentary o) (queueTime o) (preparationTime o) (customerEmail o)
    (customerPhone o) (leadInterest o) (startTime o) (notes o).

Definition with_preparationTime (o : Order) (p : Q) : Order :=
  mkOrder (id o) (customerName o) (status o) (timestamp o) (items o) (total o)
    (isComplimentary o) (queueTime o) (Some p) (customerEmail o)
    (customerPhone o) (leadInterest o) (startTime o) (notes o).

Definition with_id (o : Order) (i : Z) : Order :=
  mkOrder i (customerName o) (status o) (timestamp o) (items o) (total o)
    (isComplimentary o) (queueTime o) (preparationTime o) (customerEmail o)
    (customerPhone o) (leadInterest o) (startTime o) (notes o).

Definition with_leadInterest (o : Order) (b : bool) : Order :=
  mkOrder (id o) (customerName o) (status o) (timestamp o) (items o) (total o)
    (isComplimentary o) (queueTime o) (preparationTime o) (customerEmail o)
    (customerPhone o) (Some b) (startTime o) (notes o).

Definition with_notes (o : Order) (n : string) : Order :=
  mkOrder (id o) (customerName o) (status o) (timestamp o) (items o) (total o)
    (isComplimentary o) (queueTime o) (preparationTime o) (customerEmail o)
    (customerPhone o) (leadInterest o) (startTime o) (Some n).

Definition with_customerName (o : Order) (n : string) : Order :=
  mkOrder (id o) n (status o) (timestamp o) (items o) (total o)
    (isComplimentary o) (queueTime o) (preparationTime o) (customerEmail o)
    (customerPhone o) (leadInterest o) (startTime o) (notes o).

(** [{ ...selectedOrder, items: updatedItems, total: newTotal }]. *)
Definition with_items_total (o : Order) (its : list OrderItem) (t : Q) : Order :=
  mkOrder (id o) (customerName o) (status o) (timestamp o) its t
    (isComplimentary o) (queueTime o) (preparationTime o) (customerEmail o)
    (customerPhone o) (leadInterest o) (startTime o) (notes o).

(** [{ ...selectedOrder, items: editedItems, notes: orderNotes, total }]. *)
Definition with_items_notes_total (o : Order) (its : list OrderItem)
    (n : string) (t : Q) : Order :=
  mkOrder (id o) (customerName o) (status o) (timestamp o) its t
    (isComplimentary o) (queueTime o) (preparationTime o) (customerEmail o)
    (customerPhone o) (leadInterest o) (startTime o) (Some n).

(** [items.reduce((sum, item) => sum + item.price * item.quantity, 0)]. *)
Definition lineAmount (item : OrderItem) : Q :=
  (price item * inject_Z (quantity item))%Q.

Definition itemsTotal (its : list OrderItem) : Q :=
  fold_left (fun sum item => (sum + lineAmount item)%Q) its 0%Q.

(** The content of the [orders] slot of [localStorage]: the array whose JSON
    text the slot holds, [None] while the key is absent. *)
Definition OrdersSlot : Type := option (list Order).

(** [JSON.parse(localStorage.getItem('orders') || '[]')]. *)
Definition readOrders (slot : OrdersSlot) : list Order :=
  match slot with
  | Some l => l
  | None => []
  end.

(** How the store holds the [total] of an order.  The order-entry page
    writes the number 0 for a complimentary order and, for a paid one, the
    text [toFixed(2)] returned; the edit form of the orders page writes a
    number.  [typed] is the order with the number its total denotes. *)
Inductive TotalForm : Type := asNumber | asText.

Record StoredOrder : Type := mkStoredOrder {
  typed : Order;
  totalForm : TotalForm
}.

Definition storedTotal (o : StoredOrder) : JsValue :=
  match totalForm o with
  | asNumber => JsNum (Finite (total (typed o)))
  | asText => JsText (toFixed2_text (total (typed o)))
  end.

(** ** The order-entry page (src/pages/pos.tsx) *)

Module Pos.

(** The menu: [{ id, name, price, category }]. *)
Definition menuItem (i : Z) (n : string) (p : Q) (c : string) : OrderItem :=
  mkOrderItem i n 1 p c None.

Definition menuItems : list OrderItem :=
  [ menuItem 1 "Espresso" (5 # 2) "Coffee";
    menuItem 2 "Americano" 3 "Coffee";
    menuItem 3 "Latte" (7 # 2) "Coffee";
    menuItem 4 "Cappuccino" (7 # 2) "Coffee";
    menuItem 5 "Caramel Crunch Crusher" (9 # 2) "Specialty";
    menuItem 6 "Vanilla Dream Latte" (9 # 2) "Specialty";
    menuItem 7 "Hazelnut Heaven Cappuccino" (9 # 2) "Specialty";
    menuItem 8 "Green Tea" (5 # 2) "Tea";
    menuItem 9 "Black Tea" (5 # 2) "Tea";
    menuItem 10 "Chai Tea" 3 "Tea";
    menuItem 11 "Croissant" 2 "Pastries";
    menuItem 12 "Flat White" (7 # 2) "Coffee";
    menuItem 14 "Cortado" (7 # 2) "Coffee" ].

Record CustomerInfo : Type := mkCustomerInfo {
  firstName : string;
  lastInitial : string;
  organization : string
}.

(** The cells of [BufBaristaPOS] that building the cart and placing an
    order read or write, and the two [localStorage] slots it writes. *)
Record State : Type := mkState {
  cart : list OrderItem;
  customerInfo : CustomerInfo;
  orderNumber : Z;
  isComplimentaryMode : bool;
  queueStartTime : option Z;
  runningTotal : Q;
  isModalOpen : bool;
  isFlavorModalOpen : bool;
  selectedFlavor : string;
  selectedCoffeeItem : option OrderItem;
  notification : option string;
  ls_orders : OrdersSlot;
  ls_lastOrderNumber : option Z
}.

Definition setCart (v : list OrderItem) (st : State) : State :=
  mkState v (customerInfo st) (orderNumber st) (isComplimentaryMode st)
    (queueStartTime st) (runningTotal st) (isModalOpen st)
    (isFlavorModalOpen st) (selectedFlavor st) (selectedCoffeeItem st)
    (notification st) (ls_orders st) (ls_lastOrderNumber st).

Definition setCustomerInfo (v : CustomerInfo) (st : State) : State :=
  mkState (cart st) v (orderNumber st) (isComplimentaryMode st)
    (queueStartTime st) (runningTotal st) (isModalOpen st)
    (isFlavorModalOpen st) (selectedFlavor st) (selectedCoffeeItem st)
    (notification st) (ls_orders st) (ls_lastOrderNumber st).

Definition setIsComplimentaryMode (v : bool) (st : State) : State :=
  mkState (cart st) (customerInfo st) (orderNumber st) v
    (queueStartTime st) (runningTotal st) (isModalOpen st)
    (isFlavorModalOpen st) (selectedFlavor st) (selectedCoffeeItem st)
    (notification st) (ls_orders st) (ls_lastOrderNumber st).

Definition setRunningTotal (v : Q) (st : State) : State :=
  mkState (cart st) (customerInfo st) (orderNumber st) (isComplimentaryMode st)
    (queueStartTime st) v (isModalOpen st)
    (isFlavorModalOpen st) (selectedFlavor st) (selectedCoffeeItem st)
    (notification st) (ls_orders st) (ls_lastOrderNumber st).

Definition setIsModalOpen (v : bool) (st : State) : State :=
  mkState (cart st) (customerInfo st) (orderNumber st) (isComplimentaryMode st)
    (queueStartTime st) (runningTotal st) v
    (isFlavorModalOpen st) (selectedFlavor st) (selectedCoffeeItem st)
    (notification st) (ls_orders st) (ls_lastOrderNumber st).

Definition setIsFlavorModalOpen (v : bool) (st : State) : State :=
  mkState (cart st) (customerInfo st) (orderNumber st) (isComplimentaryMode st)
    (queueStartTime st) (runningTotal st) (isModalOpen st)
    v (selectedFlavor st) (selectedCoffeeItem st)
    (notification st) (ls_orders st) (ls_lastOrderNumber st).

Definition setSelectedFlavor (v : string) (st : State) : State :=
  mkState (cart st) (customerInfo st) (orderNumber st) (isComplimentaryMode st)
    (queueStartTime st) (runningTotal st) (isModalOpen st)
    (isFlavorModalOpen st) v (selectedCoffeeItem st)
    (notification st) (ls_orders st) (ls_lastOrderNumber st).

Definition setSelectedCoffeeItem (v : option OrderItem) (st : State) : State :=
  mkState (cart st) (customerInfo st) (orderNumber st) (isComplimentaryMode st)
    (queueStartTime st) (runningTotal st) (isModalOpen st)
    (isFlavorModalOpen st) (selectedFlavor st) v
    (notification st) (ls_orders st) (ls_lastOrderNumber st).

Definition showNotification (text : string) (st : State) : State :=
  mkState (cart st) (customerInfo st) (orderNumber st) (isComplimentaryMode st)
    (queueStartTime st) (runningTotal st) (isModalOpen st)
    (isFlavorModalOpen st) (selectedFlavor st) (selectedCoffeeItem st)
    (Some text) (ls_orders st) (ls_lastOrderNumber st).

(** The page as it mounts at instant [now] over the stored slots. *)
Definition mount (now : Z) (slot : OrdersSlot) (lastOrderNumber : option Z)
  : State :=
  mkState [] (mkCustomerInfo "" "" "")
    (match lastOrderNumber with Some n => n + 1 | None => 1 end)%Z
    true (Some now) 0 false false "" None None slot lastOrderNumber.

(** [{ ...item, flavor, quantity }]. *)
Definition cartLine (item : OrderItem) (f : option string) (q : Z) : OrderItem :=
  mkOrderItem (item_id item) (name item) q (price item) (category item) f.

Definition flavor_eqb (a b : option string) : bool :=
  match a, b with
  | None, None => true
  | Some x, Some y => (x =? y)%string
  | _, _ => false
  end.

(** [cartItem.id === id && cartItem.flavor === flavor]. *)
Definition sameLine (i : Z) (f : option string) (cartItem : OrderItem) : bool :=
  (item_id cartItem =? i)%Z && flavor_eqb (flavor cartItem) f.

(** The cart update shared by [addToCart] and [confirmFlavorSelection]:
    one more of an existing line, or a new line at the end. *)
Definition addLine (line : OrderItem) (prevCart : list OrderItem)
  : list OrderItem :=
  match find (sameLine (item_id line) (flavor line)) prevCart with
  | Some _ =>
      map (fun cartItem =>
             if sameLine (item_id line) (flavor line) cartItem
             then cartLine cartItem (flavor cartItem) (quantity cartItem + 1)
             else cartItem)
        prevCart
  | None => prevCart ++ [line]
  end.

(** [addToCart] on a tile of the menu grid. *)
Definition addToCart (item : OrderItem) (st : State) : State :=
  if (category item =? "Coffee")%string then
    setIsFlavorModalOpen true
      (setSelectedFlavor "" (setSelectedCoffeeItem (Some item) st))
  else
    showNotification ("Added " ++ name item ++ " to cart")
      (setRunningTotal (runningTotal st + price item)%Q
         (setCart (addLine (cartLine item None 1) (cart st)) st)).

Definition confirmFlavorSelection (st : State) : State :=
  match selectedCoffeeItem st with
  | Some coffee =>
      let flavoredCoffee :=
        cartLine coffee
          (if (selectedFlavor st =? "No Flavoring")%string
           then None else Some (selectedFlavor st))
          1 in
      setIsFlavorModalOpen false
        (showNotification
           ("Added " ++ name coffee ++
            (if negb (selectedFlavor st =? "No Flavoring")%string
             then " with " ++ selectedFlavor st else "") ++ " to cart")
           (setRunningTotal (runningTotal st + price coffee)%Q
              (setCart (addLine flavoredCoffee (cart st)) st)))
  | None => st
  end.

(** [removeFromCart] and [increaseQuantity], for an index of the cart (the
    buttons sit on the cart's own lines). *)
Definition removeFromCart (index : nat) (st : State) : State :=
  match nth_error (cart st) index with
  | Some item =>
      let newCart :=
        if (1 <? quantity item)%Z
        then <[index := cartLine item (flavor item) (quantity item - 1)]> (cart st)
        else removeAt index (cart st) in
      setRunningTotal (runningTotal st - price item)%Q (setCart newCart st)
  | None => st
  end.

Definition increaseQuantity (index : nat) (st : State) : State :=
  match nth_error (cart st) index with
  | Some item =>
      setRunningTotal (runningTotal st + price item)%Q
        (setCart
           (<[index := cartLine item (flavor item) (quantity item + 1)]> (cart st))
           st)
  | None => st
  end.

Definition toggleServiceMode (st : State) : State :=
  showNotification
    ("Switched to " ++
     (if isComplimentaryMode st then "Pop-up" else "Complimentary") ++ " mode")
    (setIsComplimentaryMode (negb (isComplimentaryMode st)) st).

Definition handlePlaceOrder (st : State) : State :=
  match cart st with
  | [] => st
  | _ :: _ => setIsModalOpen true st
  end.

(** [calculateTotal]: 0 in complimentary mode, else the sum of
    [price * quantity] written with two decimals.  The source keeps the
    decimal text [toFixed] returns; the model keeps the number it
    denotes, and [placedOrder] below the form in which it is stored. *)
Definition calculateTotal (st : State) : Q :=
  if isComplimentaryMode st then 0%Q else toFixed2 (itemsTotal (cart st)).

(** The order object [confirmOrder] builds at instant [now].  Its
    [timestamp] is [orderStartTime.toLocaleString()], the local date and
    time to the second; the other pages read it back with [new Date] as
    the instant at which that second starts. *)
Definition newOrder (now : Z) (st : State) : Order :=
  {| id := orderNumber st;
     customerName :=
       firstName (customerInfo st) ++ " " ++ lastInitial (customerInfo st) ++ ".";
     status := "Pending";
     timestamp := (now / 1000 * 1000)%Z;
     items := cart st;
     total := calculateTotal st;
     isComplimentary := isComplimentaryMode st;
     queueTime :=
       match queueStartTime st with
       | Some q => (inject_Z (now - q) / 1000)%Q
       | None => 0%Q
       end;
     preparationTime := None;
     customerEmail := None;
     customerPhone := None;
     leadInterest := None;
     startTime := Some now;
     notes := None |}.

(** [confirmOrder], with [now] the value of [new Date()] (the source
    reads the clock a second time for the next queue start; the model
    uses the same instant). *)
Definition confirmOrder (now : Z) (st : State) : State :=
  if (firstName (customerInfo st) =? "")%string
     || (lastInitial (customerInfo st) =? "")%string
  then st
  else
    let existingOrders := readOrders (ls_orders st) in
    let updatedOrders := newOrder now st :: existingOrders in
    {| cart := [];
       customerInfo := mkCustomerInfo "" "" "";
       orderNumber := (orderNumber st + 1)%Z;
       isComplimentaryMode := isComplimentaryMode st;
       queueStartTime := Some now;
       runningTotal := 0%Q;
       isModalOpen := false;
       isFlavorModalOpen := isFlavorModalOpen st;
       selectedFlavor := selectedFlavor st;
       selectedCoffeeItem := selectedCoffeeItem st;
       notification := Some "Order placed successfully!";
       ls_orders := Some updatedOrders;
       ls_lastOrderNumber := Some (orderNumber st) |}.

(** The order [confirmOrder] puts in the store, as the store holds it:
    [calculateTotal] returns the number 0 in complimentary mode and
    otherwise the text of [toFixed(2)]. *)
Definition placedOrder (now : Z) (st : State) : StoredOrder :=
  mkStoredOrder (newOrder now st)
    (if isComplimentaryMode st then asNumber else asText).

(** What the user can do on the page.  The tiles of the menu grid are the
    entries of [menuItems] that pass the category and search filters. *)
Inductive Event : Type :=
| ClickMenuItem (item : OrderItem)
| ChooseFlavor (f : string)
| ConfirmFlavor
| ClickRemove (index : nat)
| ClickIncrease (index : nat)
| ToggleServiceMode
| TypeCustomerInfo (info : CustomerInfo)
| ClickPlaceOrder
| ClickConfirmOrder (now : Z).

Definition step (st : State) (e : Event) : State :=
  match e with
  | ClickMenuItem item => addToCart item st
  | ChooseFlavor f => setSelectedFlavor f st
  | ConfirmFlavor => confirmFlavorSelection st
  | ClickRemove index => removeFromCart index st
  | ClickIncrease index => increaseQuantity index st
  | ToggleServiceMode => toggleServiceMode st
  | TypeCustomerInfo info => setCustomerInfo info st
  | ClickPlaceOrder => handlePlaceOrder st
  | ClickConfirmOrder now => confirmOrder now st
  end.

Definition onMenu (e : Event) : Prop :=
  match e with
  | ClickMenuItem item => In item menuItems
  | _ => True
  end.

(** The states of the page: what a session of events leads to from the
    mounted page, in the mode the page starts in or in the mode its mount
    effect restores from the 'complimentaryMode' slot of the store. *)
Inductive reachable : State -> Prop :=
| reachable_mount (now : Z) (slot : OrdersSlot) (lastOrderNumber : option Z) :
    reachable (mount now slot lastOrderNumber)
| reachable_restored (now : Z) (slot : OrdersSlot) (lastOrderNumber : option Z)
    (savedComplimentaryMode : bool) :
    reachable
      (setIsComplimentaryMode savedComplimentaryMode
         (mount now slot lastOrderNumber))
| reachable_step (st : State) (e : Event) :
    reachable st -> onMenu e -> reachable (step st e).

End Pos.

(** ** The active-orders page (src/pages/orders.tsx) *)

Module Orders.

Inductive MessageType : Type := success | error.

(** The cells of [ActiveOrders] and its [orders] slot of [localStorage].
    [orders] is the active list, [allOrders] the historical one and
    [filteredOrders] the list on display. *)
Record State : Type := mkState {
  orders : list Order;
  allOrders : list Order;
  filteredOrders : list Order;
  statusFilter : string;
  sortCriteria : string;
  sortDirection : string;
  selectedOrder : option Order;
  editedItems : list OrderItem;
  orderNotes : string;
  showOrderDetails : bool;
  message : option (string * MessageType);
  ls_orders : OrdersSlot
}.

Definition setOrders (v : list Order) (st : State) : State :=
  mkState v (allOrders st) (filteredOrders st) (statusFilter st)
    (sortCriteria st) (sortDirection st) (selectedOrder st) (editedItems st)
    (orderNotes st) (showOrderDetails st) (message st) (ls_orders st).

Definition setAllOrders (v : list Order) (st : State) : State :=
  mkState (orders st) v (filteredOrders st) (statusFilter st)
    (sortCriteria st) (sortDirection st) (selectedOrder st) (editedItems st)
    (orderNotes st) (showOrderDetails st) (message st) (ls_orders st).

Definition setFilteredOrders (v : list Order) (st : State) : State :=
  mkState (orders st) (allOrders st) v (statusFilter st)
    (sortCriteria st) (sortDirection st) (selectedOrder st) (editedItems st)
    (orderNotes st) (showOrderDetails st) (message st) (ls_orders st).

Definition setSelectedOrder (v : option Order) (st : State) : State :=
  mkState (orders st) (allOrders st) (filteredOrders st) (statusFilter st)
    (sortCriteria st) (sortDirection st) v (editedItems st)
    (orderNotes st) (showOrderDetails st) (message st) (ls_orders st).

Definition setEditedItems (v : list OrderItem) (st : State) : State :=
  mkState (orders st) (allOrders st) (filteredOrders st) (statusFilter st)
    (sortCriteria st) (sortDirection st) (selectedOrder st) v
    (orderNotes st) (showOrderDetails st) (message st) (ls_orders st).

Definition setOrderNotes (v : string) (st : State) : State :=
  mkState (orders st) (allOrders st) (filteredOrders st) (statusFilter st)
    (sortCriteria st) (sortDirection st) (selectedOrder st) (editedItems st)
    v (showOrderDetails st) (message st) (ls_orders st).

Definition setShowOrderDetails (v : bool) (st : State) : State :=
  mkState (orders st) (allOrders st) (filteredOrders st) (statusFilter st)
    (sortCriteria st) (sortDirection st) (selectedOrder st) (editedItems st)
    (orderNotes st) v (message st) (ls_orders st).

Definition showMessage (text : string) (type : MessageType) (st : State)
  : State :=
  mkState (orders st) (allOrders st) (filteredOrders st) (statusFilter st)
    (sortCriteria st) (sortDirection st) (selectedOrder st) (editedItems st)
    (orderNotes st) (showOrderDetails st) (Some (text, type)) (ls_orders st).

(** [localStorage.setItem('orders', JSON.stringify(v))]. *)
Definition storeOrders (v : list Order) (st : State) : State :=
  mkState (orders st) (allOrders st) (filteredOrders st) (statusFilter st)
    (sortCriteria st) (sortDirection st) (selectedOrder st) (editedItems st)
    (orderNotes st) (showOrderDetails st) (message st) (Some v).

Definition loadOrders (st : State) : State :=
  let loadedOrders := readOrders (ls_orders st) in
  setFilteredOrders loadedOrders
    (setAllOrders loadedOrders (setOrders loadedOrders st)).

(** The comparator of [filterAndSortOrders]. *)
Definition compareOrders (criteria : string) (a b : Order) : Q :=
  if (criteria =? "timestamp")%string then
    inject_Z (timestamp b - timestamp a)
  else if (criteria =? "preparationTime")%string then
    (js_or (preparationTime b) 0 - js_or (preparationTime a) 0)%Q
  else if (criteria =? "queueTime")%string then
    (queueTime b - queueTime a)%Q
  else 0%Q.

(** [filterAndSortOrders] of the copy of the page that carries the id
    restart: the status filter, the sort, and the reversal for ascending
    order.  (The later copy applies its text and date search filters
    between the status filter and the same sort.) *)
Definition filterAndSortOrders (st : State) : State :=
  let filtered :=
    if negb (statusFilter st =? "All")%string
    then List.filter (fun order => (status order =? statusFilter st)%string)
           (orders st)
    else orders st in
  let sorted := Array_sort (compareOrders (sortCriteria st)) filtered in
  let sorted :=
    if (sortDirection st =? "asc")%string then rev sorted else sorted in
  setFilteredOrders sorted st.

Definition updateOrderNotes (orderId : Z) (notes_ : string) (st : State)
  : State :=
  let updatedOrders :=
    map (fun order =>
           if (id order =? orderId)%Z then with_notes order notes_ else order)
      (orders st) in
  showMessage "Order notes updated successfully" success
    (storeOrders updatedOrders
       (setAllOrders updatedOrders (setOrders updatedOrders st))).

Definition calculateTotal (its : list OrderItem) : Q := itemsTotal its.

(** One order of [updateOrderStatus]'s map. *)
Definition updateOne (now orderId : Z) (newStatus : string) (order : Order)
  : Order :=
  if (id order =? orderId)%Z then
    let updatedOrder := with_status order newStatus in
    if (newStatus =? "Completed")%string then
      match startTime order with
      | Some startTime_ =>
          with_preparationTime updatedOrder
            (inject_Z (now - startTime_) / 1000)%Q
      | None => updatedOrder
      end
    else updatedOrder
  else order.

(** [updateOrderStatus], with [now] the value of [new Date()]. *)
Definition updateOrderStatus (now orderId : Z) (newStatus : string)
    (st : State) : State :=
  let updatedOrders := map (updateOne now orderId newStatus) (orders st) in
  showMessage "Order status updated successfully" success
    (storeOrders updatedOrders
       (setAllOrders updatedOrders (setOrders updatedOrders st))).

Definition recordLeadInterest (orderId : Z) (interested : bool) (st : State)
  : State :=
  let updatedOrders :=
    map (fun order =>
           if (id order =? orderId)%Z
           then with_leadInterest order interested else order)
      (orders st) in
  showMessage "Lead interest recorded successfully" success
    (storeOrders updatedOrders
       (setAllOrders updatedOrders (setOrders updatedOrders st))).

(** [cancelOrder]; [confirmed] is the answer of [window.confirm]. *)
Definition cancelOrder (confirmed : bool) (orderId : Z) (st : State) : State :=
  if confirmed then
    let updatedOrders :=
      List.filter (fun order => negb (id order =? orderId)%Z) (orders st) in
    let updatedAllOrders :=
      map (fun order =>
             if (id order =? orderId)%Z
             then with_status order "Cancelled" else order)
        (allOrders st) in
    showMessage "Order cancelled successfully" success
      (storeOrders updatedOrders
         (setAllOrders updatedAllOrders (setOrders updatedOrders st)))
  else st.

Definition modifyOrder (orderId : Z) (st : State) : State :=
  match find (fun order => (id order =? orderId)%Z) (orders st) with
  | Some orderToModify =>
      setShowOrderDetails true
        (setOrderNotes
           (match notes orderToModify with Some n => n | None => "" end)
           (setEditedItems (items orderToModify)
              (setSelectedOrder (Some orderToModify) st)))
  | None => st
  end.

(** [toggleEditNotes]: the notes button of an order card opens the same
    form on the order, without loading the order's lines into it. *)
Definition toggleEditNotes (orderId : Z) (st : State) : State :=
  match find (fun o => (id o =? orderId)%Z) (orders st) with
  | Some order =>
      setShowOrderDetails true
        (setOrderNotes
           (match notes order with Some n => n | None => "" end)
           (setSelectedOrder (Some order) st))
  | None => st
  end.

(** The [Partial<OrderItem>] objects the edit form passes. *)
Inductive ItemUpdate : Type :=
| UpdateName (n : string)
| UpdateQuantity (q : Z)
| UpdatePrice (p : Q).

Definition applyUpdate (item : OrderItem) (updates : ItemUpdate) : OrderItem :=
  match updates with
  | UpdateName n =>
      mkOrderItem (item_id item) n (quantity item) (price item)
        (category item) (flavor item)
  | UpdateQuantity q =>
      mkOrderItem (item_id item) (name item) q (price item)
        (category item) (flavor item)
  | UpdatePrice p =>
      mkOrderItem (item_id item) (name item) (quantity item) p
        (category item) (flavor item)
  end.

(** [updateOrderItem]: rewrites the selected order's own items and total. *)
Definition updateOrderItem (itemId : Z) (updates : ItemUpdate) (st : State)
  : State :=
  match selectedOrder st with
  | None => st
  | Some sel =>
      let updatedItems :=
        map (fun item =>
               if (item_id item =? itemId)%Z
               then applyUpdate item updates else item)
          (items sel) in
      let newTotal := calculateTotal updatedItems in
      setSelectedOrder (Some (with_items_total sel updatedItems newTotal)) st
  end.

(** The remove button of the edit form:
    [setEditedItems(prev => prev.filter((_, i) => i !== index))]. *)
Definition removeEditedItem (index : nat) (st : State) : State :=
  setEditedItems (removeAt index (editedItems st)) st.

(** The customer-name input of the edit form:
    [setSelectedOrder({ ...selectedOrder, customerName })]. *)
Definition editCustomerName (n : string) (st : State) : State :=
  match selectedOrder st with
  | Some sel => setSelectedOrder (Some (with_customerName sel n)) st
  | None => st
  end.

(** What the user does in the edit form between opening it and saving. *)
Inductive EditStep : Type :=
| EditCustomerName (n : string)
| EditNotes (n : string)
| EditItem (itemId : Z) (updates : ItemUpdate)
| RemoveItem (index : nat).

Definition editStep (st : State) (step : EditStep) : State :=
  match step with
  | EditCustomerName n => editCustomerName n st
  | EditNotes n => setOrderNotes n st
  | EditItem itemId updates => updateOrderItem itemId updates st
  | RemoveItem index => removeEditedItem index st
  end.

Definition saveModifiedOrder (st : State) : State :=
  match selectedOrder st with
  | None => st
  | Some sel =>
      let modifiedOrder :=
        with_items_notes_total sel (editedItems st) (orderNotes st)
          (calculateTotal (editedItems st)) in
      let updatedOrders :=
        map (fun order =>
               if (id order =? id modifiedOrder)%Z
               then modifiedOrder else order)
          (orders st) in
      showMessage "Order updated successfully" success
        (setSelectedOrder None
           (setShowOrderDetails false
              (storeOrders updatedOrders
                 (setAllOrders updatedOrders (setOrders updatedOrders st)))))
  end.

Definition confirmClearAllOrders (st : State) : State :=
  let clearedOrders :=
    map (fun order =>
           if existsb (fun activeOrder => (id activeOrder =? id order)%Z)
                (orders st)
           then with_status order "Cleared" else order)
      (allOrders st) in
  showMessage "All orders cleared successfully" success
    (storeOrders []
       (setFilteredOrders [] (setOrders [] (setAllOrders clearedOrders st)))).

(** [confirmRestartOrderId] (only in the earlier copy of the page). *)
Definition confirmRestartOrderId (st : State) : State :=
  let resetOrders :=
    Array_map_index (fun order index => with_id order (index + 1)%Z)
      (orders st) in
  let resetAllOrders :=
    Array_map_index (fun order index => with_id order (index + 1)%Z)
      (allOrders st) in
  storeOrders resetOrders
    (setFilteredOrders resetOrders
       (setAllOrders resetAllOrders (setOrders resetOrders st))).

(** The action buttons of an order card.  The block is rendered only
    while the order is not completed, and each button carries its own
    [disabled] attribute; a disabled button dispatches no click. *)
Inductive CardButton : Type :=
| StartButton
| CompleteButton
| ModifyButton
| CancelButton.

Definition buttonEnabled (order : Order) (b : CardButton) : bool :=
  negb (status order =? "Completed")%string &&
  match b with
  | StartButton => negb (status order =? "In Progress")%string
  | CompleteButton => true
  | ModifyButton => negb (status order =? "Completed")%string
  | CancelButton => (status order =? "Pending")%string
  end.

(** A click on button [b] of the card of [order]. *)
Definition clickButton (now : Z) (confirmed : bool) (order : Order)
    (b : CardButton) (st : State) : State :=
  if buttonEnabled order b then
    match b with
    | StartButton => updateOrderStatus now (id order) "In Progress" st
    | CompleteButton => updateOrderStatus now (id order) "Completed" st
    | ModifyButton => modifyOrder (id order) st
    | CancelButton => cancelOrder confirmed (id order) st
    end
  else st.

(** The search form of the later copy of the page (orders.tsx).  A date
    field holds the instant [new Date(text)] gives for its text, [None]
    while the field is empty. *)
Record SearchFilters : Type := mkSearchFilters {
  search_customerName : string;
  search_orderId : string;
  search_itemName : string;
  search_dateStart : option Z;
  search_dateEnd : option Z
}.

Section WithText.

(** [String.prototype.toLowerCase], and [text.includes(search)]. *)
Variable toLowerCase : string -> string.
Variable includes : string -> string -> bool.

(** [filterAndSortOrders] of the later copy: the status filter, the four
    search filters, each applied when its field is filled in, then the
    sort and the reversal. *)
Definition filterAndSortOrdersWithSearch (searchFilters : SearchFilters)
    (st : State) : State :=
  let filtered := orders st in
  let filtered :=
    if negb (statusFilter st =? "All")%string
    then List.filter (fun order => (status order =? statusFilter st)%string)
           filtered
    else filtered in
  let filtered :=
    if negb (search_customerName searchFilters =? "")%string
    then List.filter
           (fun order =>
              includes (toLowerCase (customerName order))
                (toLowerCase (search_customerName searchFilters)))
           filtered
    else filtered in
  let filtered :=
    if negb (search_orderId searchFilters =? "")%string
    then List.filter
           (fun order =>
              includes (Z_toString (id order)) (search_orderId searchFilters))
           filtered
    else filtered in
  let filtered :=
    if negb (search_itemName searchFilters =? "")%string
    then List.filter
           (fun order =>
              existsb
                (fun item =>
                   includes (toLowerCase (name item))
                     (toLowerCase (search_itemName searchFilters)))
                (items order))
           filtered
    else filtered in
  let filtered :=
    match search_dateStart searchFilters, search_dateEnd searchFilters with
    | Some startDate, Some endDate =>
        List.filter
          (fun order =>
             (startDate <=? timestamp order)%Z
             && (timestamp order <=? endDate)%Z)
          filtered
    | _, _ => filtered
    end in
  let sorted := Array_sort (compareOrders (sortCriteria st)) filtered in
  let sorted :=
    if (sortDirection st =? "asc")%string then rev sorted else sorted in
  setFilteredOrders sorted st.

End WithText.

(** [formatTime]: minutes and whole seconds, the seconds on two digits. *)
Definition formatTime (seconds : Q) : string :=
  let minutes := Qfloor (seconds / 60) in
  let remainingSeconds := Qfloor (js_rem seconds 60) in
  Z_toString minutes ++ ":" ++ padStart2 (Z_toString remainingSeconds).

End Orders.

(** ** The reports page (src/pages/reports.tsx) *)

Module Reports.

(** [fetchOrders]: the order collection the page works on is what the
    [orders] slot of [localStorage] holds when the page loads. *)
Definition fetchOrders (slot : OrdersSlot) : list Order := readOrders slot.

(** *** Calendar days *)

Definition msPerDay : Z := 86400000.

(** The calendar day of an instant.  [format(d, 'yyyy-MM-dd')] names the
    day; the names of two days compare ([localeCompare]) as the days do, so
    the model uses the day number as the key. *)
Definition dayOf (t : Z) : Z := (t / msPerDay)%Z.

Definition startOfDay (t : Z) : Z := (dayOf t * msPerDay)%Z.

Definition endOfDay (t : Z) : Z := (startOfDay t + msPerDay - 1)%Z.

(** The result of [getDateRange()]. *)
Record DateRange : Type := mkDateRange {
  start : Z;
  end_ : Z
}.

(** [getDateRange()] for the time ranges 'day' and 'custom' at instant
    [now] (the other ranges run from the start of a week, month or year to
    its end in the same way). *)
Definition todayRange (now : Z) : DateRange :=
  mkDateRange (startOfDay now) (endOfDay now).

Definition customRange (customStartDate customEndDate : option Z) (now : Z)
  : DateRange :=
  mkDateRange
    (match customStartDate with
     | Some d => startOfDay d
     | None => startOfDay now
     end)
    (match customEndDate with
     | Some d => endOfDay d
     | None => endOfDay now
     end).

(** [eachDayOfInterval({ start, end })]: the days from that of [start] to
    that of [end], ascending.  (What the library does when [end] is before
    [start] is outside the model; every result below assumes
    [start <= end].) *)
Definition eachDayOfInterval (r : DateRange) : list Z :=
  map (fun k => (dayOf (start r) + Z.of_nat k)%Z)
    (seq 0 (Z.to_nat (dayOf (end_ r) - dayOf (start r) + 1))).

Definition inRange (r : DateRange) (order : Order) : bool :=
  (start r <=? timestamp order)%Z && (timestamp order <=? end_ r)%Z.

Definition filteredOrders (orders : list Order) (r : DateRange) : list Order :=
  List.filter (inRange r) orders.

(** *** Objects used as maps from day to totals

    Keys are kept in insertion order, which is the order [Object.entries]
    and [Object.values] enumerate them in. *)

Section JsObject.
Context {V : Type}.

Fixpoint obj_get (k : Z) (o : list (Z * V)) : option V :=
  match o with
  | [] => None
  | (k', v) :: o' => if (k =? k')%Z then Some v else obj_get k o'
  end.

Fixpoint obj_set (k : Z) (v : V) (o : list (Z * V)) : list (Z * V) :=
  match o with
  | [] => [(k, v)]
  | (k', v') :: o' =>
      if (k =? k')%Z then (k, v) :: o' else (k', v') :: obj_set k v o'
  end.
End JsObject.

Record DayCell : Type := mkDayCell {
  cell_sales : Q;
  cell_orders : Z
}.

Record DayPoint : Type := mkDayPoint {
  date : Z;
  sales : Q;
  orders : Z
}.

(** The revenue an order counts for:
    [order.isComplimentary ? 0 : order.total], with the total read as the
    number the page's [Order] type declares.  [StoredReports] below follows
    the same code on totals that are stored as texts. *)
Definition revenue (order : Order) : Q :=
  if isComplimentary order then 0%Q else total order.

(** [a.date.localeCompare(b.date)]. *)
Definition localeCompare (a b : Z) : Q :=
  match (a ?= b)%Z with
  | Lt => (-1)%Q
  | Eq => 0%Q
  | Gt => 1%Q
  end.

(** The body of [salesData]'s loop over the orders: create the day's entry
    if it is missing, then add the order to it. *)
Definition addOrder (data : list (Z * DayCell)) (order : Order)
  : list (Z * DayCell) :=
  let date := dayOf (timestamp order) in
  let data :=
    match obj_get date data with
    | None => obj_set date (mkDayCell 0 0) data
    | Some _ => data
    end in
  match obj_get date data with
  | Some cell =>
      obj_set date
        (mkDayCell (cell_sales cell + revenue order)%Q (cell_orders cell + 1)%Z)
        data
  | None => data
  end.

(** [salesData]. *)
Definition salesData (r : DateRange) (filtered : list Order) : list DayPoint :=
  let days := eachDayOfInterval r in
  let data :=
    fold_left (fun data day => obj_set day (mkDayCell 0 0) data) days [] in
  let data := fold_left addOrder filtered data in
  Array_sort (fun a b => localeCompare (date a) (date b))
    (map (fun entry =>
            mkDayPoint (fst entry) (cell_sales (snd entry))
              (cell_orders (snd entry)))
       data).

(** The body of [dailySalesAndOrders]'s loop over the orders.  It updates
    [dailyData[date]] without testing that the key exists; on a missing
    key the page throws ([None]). *)
Definition addOrderUnchecked (acc : option (list (Z * DayPoint)))
    (order : Order) : option (list (Z * DayPoint)) :=
  match acc with
  | None => None
  | Some dailyData =>
      let date_ := dayOf (timestamp order) in
      match obj_get date_ dailyData with
      | Some point =>
          Some (obj_set date_
                  (mkDayPoint (date point) (sales point + revenue order)%Q
                     (orders point + 1)%Z)
                  dailyData)
      | None => None
      end
  end.

(** [dailySalesAndOrders]. *)
Definition dailySalesAndOrders (r : DateRange) (filtered : list Order)
  : option (list DayPoint) :=
  let days := eachDayOfInterval r in
  let dailyData :=
    fold_left (fun data day => obj_set day (mkDayPoint day 0 0) data) days [] in
  match fold_left addOrderUnchecked filtered (Some dailyData) with
  | Some dailyData =>
      Some (Array_sort (fun a b => localeCompare (date a) (date b))
              (map snd dailyData))
  | None => None
  end.

(** *** Scalar metrics *)

Definition totalSales (filtered : list Order) : Q :=
  fold_left (fun sum order => (sum + revenue order)%Q) filtered 0%Q.

Definition totalOrders (filtered : list Order) : Z :=
  Z.of_nat (length filtered).

Definition averageOrderValue (filtered : list Order) : Q :=
  let paidOrders :=
    List.filter (fun order => negb (isComplimentary order)) filtered in
  if (0 <? Z.of_nat (length paidOrders))%Z
  then (totalSales filtered / inject_Z (Z.of_nat (length paidOrders)))%Q
  else 0%Q.

(** *** Trend series *)

(** [data.slice(from, to)] for indices within the array. *)
Definition slice {A : Type} (data : list A) (from to : nat) : list A :=
  firstn (to - from) (skipn from data).

(** [calculateMovingAverage]: the window is never empty. *)
Definition calculateMovingAverage (data : list Q) (periods : Z) : list Q :=
  Array_map_index
    (fun _ index =>
       let start_ := Z.max 0 (index - periods + 1) in
       let values := slice data (Z.to_nat start_) (Z.to_nat (index + 1)) in
       (fold_left Qplus values 0 / inject_Z (Z.of_nat (length values)))%Q)
    data.

Inductive Trend : Type := up | down | stable.

Record TrendMetrics : Type := mkTrendMetrics {
  tm_date : Z;
  tm_sales : Q;
  tm_orders : Z;
  movingAverageSales : option Q;
  movingAverageOrders : option Q;
  salesGrowth : JsNumber;
  ordersGrowth : JsNumber;
  trend : Trend
}.

(** [x > 1] and [x < -1] on a possibly non-finite number. *)
Definition js_gt_one (x : JsNumber) : bool :=
  match x with
  | Finite q => negb (Qle_bool q 1)
  | PosInfinity => true
  | _ => false
  end.

Definition js_lt_minus_one (x : JsNumber) : bool :=
  match x with
  | Finite q => negb (Qle_bool (-1) q)
  | NegInfinity => true
  | _ => false
  end.

(** [((value - previous) / previous) * 100]. *)
Definition growth (value previous : Q) : JsNumber :=
  js_scale (js_div (value - previous) previous) 100.

(** [enhancedSalesTrend].  [salesValues[index]] is [item.sales] and
    [ordersValues[index]] is [item.orders], the arrays being maps of
    [baseData]; [salesValues[index - 1]] is [undefined] at index 0. *)
Definition enhancedSalesTrend (salesData_ : list DayPoint) : list TrendMetrics :=
  let baseData := salesData_ in
  let salesValues := map sales baseData in
  let ordersValues := map (fun item => inject_Z (orders item)) baseData in
  let movingAverageSales_ := calculateMovingAverage salesValues 7 in
  let movingAverageOrders_ := calculateMovingAverage ordersValues 7 in
  Array_map_index
    (fun item index =>
       let previousSales :=
         js_or (js_index salesValues (index - 1)) (sales item) in
       let previousOrders :=
         js_or (js_index ordersValues (index - 1)) (inject_Z (orders item)) in
       let salesGrowth_ := growth (sales item) previousSales in
       let ordersGrowth_ := growth (inject_Z (orders item)) previousOrders in
       let trend_ :=
         if js_gt_one salesGrowth_ then up
         else if js_lt_minus_one salesGrowth_ then down else stable in
       mkTrendMetrics (date item) (sales item) (orders item)
         (js_index movingAverageSales_ index)
         (js_index movingAverageOrders_ index)
         salesGrowth_ ordersGrowth_ trend_)
    baseData.

(** [salesGrowthRate]: this window against the window of the same length
    that ends where this one starts. *)
Definition previousPeriodOrders (orders_ : list Order) (r : DateRange)
  : list Order :=
  let periodLength := (end_ r - start r)%Z in
  let previousPeriodStart := (start r - periodLength)%Z in
  List.filter
    (fun order =>
       (previousPeriodStart <=? timestamp order)%Z
       && (timestamp order <? start r)%Z)
    orders_.

Definition salesGrowthRate (orders_ : list Order) (r : DateRange) : Q :=
  let currentPeriodSales := totalSales (filteredOrders orders_ r) in
  let previousPeriodSales := totalSales (previousPeriodOrders orders_ r) in
  if negb (Qeq_bool previousPeriodSales 0)
  then (((currentPeriodSales - previousPeriodSales) / previousPeriodSales) * 100)%Q
  else 100%Q.

(** *** Further metrics *)

(** [averagePreparationTime], in whole seconds. *)
Definition averagePreparationTime (filtered : list Order) : Z :=
  let ordersWithPrepTime :=
    List.filter
      (fun order =>
         match preparationTime order with Some _ => true | None => false end)
      filtered in
  if (Z.of_nat (length ordersWithPrepTime) =? 0)%Z then 0%Z
  else
    Math_round
      (fold_left
         (fun sum order => (sum + js_or (preparationTime order) 0)%Q)
         ordersWithPrepTime 0%Q
       / inject_Z (Z.of_nat (length ordersWithPrepTime)))%Q.

(** [averageItemsPerOrder]. *)
Definition averageItemsPerOrder (filtered : list Order) : Q :=
  let totalItems :=
    fold_left
      (fun sum order =>
         (sum + fold_left (fun itemSum item => itemSum + quantity item)
                  (items order) 0)%Z)
      filtered 0%Z in
  if (0 <? totalOrders filtered)%Z
  then (inject_Z totalItems / inject_Z (totalOrders filtered))%Q
  else 0%Q.

(** [new Date(t).getHours()]. *)
Definition msPerHour : Z := 3600000.

Definition getHours (t : Z) : Z := ((t mod msPerDay) / msPerHour)%Z.

Record HourPoint : Type := mkHourPoint {
  hour : Z;
  hour_orders : Z
}.

(** [ordersByHour]: the counting object is only read by key. *)
Definition hourlyOrders (filtered : list Order) : gmap Z Z :=
  fold_left
    (fun acc order =>
       let hour_ := getHours (timestamp order) in
       <[hour_ := (js_or_Z (acc !! hour_) 0 + 1)%Z]> acc)
    filtered ∅.

Definition ordersByHour (filtered : list Order) : list HourPoint :=
  map (fun i =>
         mkHourPoint (Z.of_nat i)
           (js_or_Z (hourlyOrders filtered !! Z.of_nat i) 0))
    (seq 0 24).

(** [Object.entries] of an object whose keys are hours of the day: integer
    keys are enumerated in ascending order, whatever the order they were
    written in. *)
Definition hourEntries {V : Type} (o : gmap Z V) : list (Z * V) :=
  flat_map
    (fun i =>
       match o !! Z.of_nat i with
       | Some v => [(Z.of_nat i, v)]
       | None => []
       end)
    (seq 0 24).

(** The result of [peakHourSales]; the hour is [None] for 'N/A'. *)
Record PeakHour : Type := mkPeakHour {
  peak_hour : option Z;
  peak_sales : Q
}.

Definition hourlyData (filtered : list Order) : gmap Z Q :=
  fold_left
    (fun acc order =>
       let hour_ := getHours (timestamp order) in
       <[hour_ := (js_or (acc !! hour_) 0 + revenue order)%Q]> acc)
    filtered ∅.

Definition peakHourSales (filtered : list Order) : PeakHour :=
  match hourEntries (hourlyData filtered) with
  | [] => mkPeakHour None 0
  | first :: rest =>
      let peakHour :=
        fold_left
          (fun a b => if negb (Qle_bool (snd a) (snd b)) then a else b)
          rest first in
      mkPeakHour (Some (fst peakHour)) (snd peakHour)
  end.


End Reports.

(** ** The reports page on the orders as the store holds them

    [Reports] above reads every [total] as the number the page's types
    declare.  The definitions below follow the same code on the values the
    store really holds, where the total of an order is a number or a
    text. *)

Module StoredReports.

Definition filteredOrders (orders : list StoredOrder) (r : Reports.DateRange)
  : list StoredOrder :=
  List.filter (fun order => Reports.inRange r (typed order)) orders.

Record DayCell : Type := mkDayCell {
  cell_sales : JsValue;
  cell_orders : Z
}.

Record DayPoint : Type := mkDayPoint {
  date : Z;
  sales : JsValue;
  orders : Z
}.

Record PeakHour : Type := mkPeakHour {
  peak_hour : option Z;
  peak_sales : JsValue
}.

Record TrendMetrics : Type := mkTrendMetrics {
  tm_date : Z;
  tm_sales : JsValue;
  tm_orders : Z;
  movingAverageSales : option JsNumber;
  movingAverageOrders : option Q;
  salesGrowth : JsNumber;
  ordersGrowth : JsNumber;
  trend : Reports.Trend
}.

Section WithNumberText.

(** [String(x)] for a finite number [x], as [+] writes a number next to a
    text. *)
Variable Number_toString : Q -> string.

Definition numberText (n : JsNumber) : string :=
  match n with
  | Finite q => Number_toString q
  | PosInfinity => "Infinity"
  | NegInfinity => "-Infinity"
  | NaN => "NaN"
  end.

Definition textOf (v : JsValue) : string :=
  match v with
  | JsNum n => numberText n
  | JsText text => text
  end.

(** [a + b]: the sum of two numbers, and otherwise the two written side
    by side. *)
Definition js_plus (a b : JsValue) : JsValue :=
  match a, b with
  | JsNum x, JsNum y => JsNum (num_add x y)
  | _, _ => JsText (textOf a ++ textOf b)
  end.

(** [order.isComplimentary ? 0 : order.total]. *)
Definition revenue (order : StoredOrder) : JsValue :=
  if isComplimentary (typed order) then JsNum (Finite 0)
  else storedTotal order.

Definition totalSales (filtered : list StoredOrder) : JsValue :=
  fold_left (fun sum order => js_plus sum (revenue order)) filtered
    (JsNum (Finite 0)).

Definition averageOrderValue (filtered : list StoredOrder) : JsNumber :=
  let paidOrders :=
    List.filter (fun order => negb (isComplimentary (typed order))) filtered in
  if (0 <? Z.of_nat (length paidOrders))%Z
  then num_div (ToNumber (totalSales filtered))
         (Finite (inject_Z (Z.of_nat (length paidOrders))))
  else Finite 0.

(** The body of [salesData]'s loop over the orders. *)
Definition addOrder (data : list (Z * DayCell)) (order : StoredOrder)
  : list (Z * DayCell) :=
  let date := Reports.dayOf (timestamp (typed order)) in
  let data :=
    match Reports.obj_get date data with
    | None => Reports.obj_set date (mkDayCell (JsNum (Finite 0)) 0) data
    | Some _ => data
    end in
  match Reports.obj_get date data with
  | Some cell =>
      Reports.obj_set date
        (mkDayCell (js_plus (cell_sales cell) (revenue order))
           (cell_orders cell + 1)%Z)
        data
  | None => data
  end.

Definition salesData (r : Reports.DateRange) (filtered : list StoredOrder)
  : list DayPoint :=
  let days := Reports.eachDayOfInterval r in
  let data :=
    fold_left
      (fun data day => Reports.obj_set day (mkDayCell (JsNum (Finite 0)) 0) data)
      days [] in
  let data := fold_left addOrder filtered data in
  Array_sort (fun a b => Reports.localeCompare (date a) (date b))
    (map (fun entry =>
            mkDayPoint (fst entry) (cell_sales (snd entry))
              (cell_orders (snd entry)))
       data).

(** The body of [dailySalesAndOrders]'s loop; on a missing key the page
    throws ([None]). *)
Definition addOrderUnchecked (acc : option (list (Z * DayPoint)))
    (order : StoredOrder) : option (list (Z * DayPoint)) :=
  match acc with
  | None => None
  | Some dailyData =>
      let date_ := Reports.dayOf (timestamp (typed order)) in
      match Reports.obj_get date_ dailyData with
      | Some point =>
          Some (Reports.obj_set date_
                  (mkDayPoint (date point) (js_plus (sales point) (revenue order))
                     (orders point + 1)%Z)
                  dailyData)
      | None => None
      end
  end.

Definition dailySalesAndOrders (r : Reports.DateRange)
    (filtered : list StoredOrder) : option (list DayPoint) :=
  let days := Reports.eachDayOfInterval r in
  let dailyData :=
    fold_left
      (fun data day => Reports.obj_set day (mkDayPoint day (JsNum (Finite 0)) 0) data)
      days [] in
  match fold_left addOrderUnchecked filtered (Some dailyData) with
  | Some dailyData =>
      Some (Array_sort (fun a b => Reports.localeCompare (date a) (date b))
              (map snd dailyData))
  | None => None
  end.

(** [salesGrowthRate]. *)
Definition previousPeriodOrders (orders_ : list StoredOrder)
    (r : Reports.DateRange) : list StoredOrder :=
  let periodLength := (Reports.end_ r - Reports.start r)%Z in
  let previousPeriodStart := (Reports.start r - periodLength)%Z in
  List.filter
    (fun order =>
       (previousPeriodStart <=? timestamp (typed order))%Z
       && (timestamp (typed order) <? Reports.start r)%Z)
    orders_.

Definition salesGrowthRate (orders_ : list StoredOrder) (r : Reports.DateRange)
  : JsNumber :=
  let currentPeriodSales := totalSales (filteredOrders orders_ r) in
  let previousPeriodSales := totalSales (previousPeriodOrders orders_ r) in
  if js_not_zero previousPeriodSales
  then js_scale
         (num_div
            (num_sub (ToNumber currentPeriodSales)
               (ToNumber previousPeriodSales))
            (ToNumber previousPeriodSales))
         100
  else Finite 100.

(** [peakHourSales]. *)
Definition hourlyData (filtered : list StoredOrder) : gmap Z JsValue :=
  fold_left
    (fun acc order =>
       let hour_ := Reports.getHours (timestamp (typed order)) in
       <[hour_ := js_plus (js_or_value (acc !! hour_) (JsNum (Finite 0)))
                    (revenue order)]> acc)
    filtered ∅.

Definition peakHourSales (filtered : list StoredOrder) : PeakHour :=
  match Reports.hourEntries (hourlyData filtered) with
  | [] => mkPeakHour None (JsNum (Finite 0))
  | first :: rest =>
      let peakHour :=
        fold_left (fun a b => if js_gt (snd a) (snd b) then a else b)
          rest first in
      mkPeakHour (Some (fst peakHour)) (snd peakHour)
  end.

(** [calculateMovingAverage] on the sales column. *)
Definition calculateMovingAverage (data : list JsValue) (periods : Z)
  : list JsNumber :=
  Array_map_index
    (fun _ index =>
       let start_ := Z.max 0 (index - periods + 1) in
       let values :=
         Reports.slice data (Z.to_nat start_) (Z.to_nat (index + 1)) in
       num_div (ToNumber (fold_left js_plus values (JsNum (Finite 0))))
         (Finite (inject_Z (Z.of_nat (length values)))))
    data.

(** [enhancedSalesTrend]; the order counts are numbers throughout. *)
Definition enhancedSalesTrend (salesData_ : list DayPoint)
  : list TrendMetrics :=
  let baseData := salesData_ in
  let salesValues := map sales baseData in
  let ordersValues := map (fun item => inject_Z (orders item)) baseData in
  let movingAverageSales_ := calculateMovingAverage salesValues 7 in
  let movingAverageOrders_ := Reports.calculateMovingAverage ordersValues 7 in
  Array_map_index
    (fun item index =>
       let previousSales :=
         js_or_value (js_index salesValues (index - 1)) (sales item) in
       let previousOrders :=
         js_or (js_index ordersValues (index - 1)) (inject_Z (orders item)) in
       let salesGrowth_ :=
         js_scale
           (num_div
              (num_sub (ToNumber (sales item)) (ToNumber previousSales))
              (ToNumber previousSales))
           100 in
       let ordersGrowth_ :=
         Reports.growth (inject_Z (orders item)) previousOrders in
       let trend_ :=
         if Reports.js_gt_one salesGrowth_ then Reports.up
         else if Reports.js_lt_minus_one salesGrowth_ then Reports.down
              else Reports.stable in
       mkTrendMetrics (date item) (sales item) (orders item)
         (js_index movingAverageSales_ index)
         (js_index movingAverageOrders_ index)
         salesGrowth_ ordersGrowth_ trend_)
    baseData.

End WithNumberText.

End StoredReports.

(** ** Data import of the orders page (src/pages/orders.tsx, importData) *)

Module DataImport.

(** A parsed JSON document. *)
#[warnings="-register-all"]
Inductive json : Type :=
| JNull
| JBool (b : bool)
| JNumber (q : Q)
| JString (s : string)
| JArray (elements : list json)
| JObject (members : list (string * json)).

(** The member of an object under [key], the last one when the text
    repeats the key. *)
Fixpoint member (key : string) (members : list (string * json)) : option json :=
  match members with
  | [] => None
  | (k, v) :: rest =>
      match member key rest with
      | Some v' => Some v'
      | None => if (k =? key)%string then Some v else None
      end
  end.

Inductive Thrown : Type := SyntaxError | TypeError.

(** [data.key] on a parsed document: a [TypeError] on [null], [undefined]
    ([None]) on a value that has no such property. *)
Definition property (key : string) (data : json) : Thrown + option json :=
  match data with
  | JNull => inl TypeError
  | JObject members => inr (member key members)
  | _ => inr None
  end.

Inductive MessageType : Type := success | error.

(** [localStorage] as it is, a map from keys to texts; [loaded] is the
    value [loadOrders] put in the three order lists (cast to [Order[]]
    without any check) and [loadError] the page's error banner. *)
Record State : Type := mkState {
  localStorage : gmap string string;
  loaded : option json;
  loadError : option string;
  message : option (string * MessageType)
}.

Section WithJSON.

(** [JSON.parse] ([None] when it throws a [SyntaxError]) and
    [JSON.stringify] on parsed documents. *)
Variable JSON_parse : string -> option json.
Variable JSON_stringify : json -> string.

(** The text [localStorage.setItem(key, JSON.stringify(v))] stores:
    [JSON.stringify(undefined)] is [undefined], which [setItem] writes as
    the text "undefined". *)
Definition storedText (v : option json) : string :=
  match v with
  | Some j => JSON_stringify j
  | None => "undefined"
  end.

(** [localStorage.getItem('orders') || '[]']. *)
Definition ordersText (ls : gmap string string) : string :=
  match ls !! "orders" with
  | Some text => if (text =? "")%string then "[]" else text
  | None => "[]"
  end.

(** [loadOrders]: it catches its own parse failure. *)
Definition loadOrders (st : State) : State :=
  match JSON_parse (ordersText (localStorage st)) with
  | Some loadedOrders =>
      mkState (localStorage st) (Some loadedOrders) None (message st)
  | None =>
      mkState (localStorage st) (loaded st)
        (Some "Failed to load orders. Please try again.") (message st)
  end.

Definition showMessage (text : string) (type : MessageType) (st : State)
  : State :=
  mkState (localStorage st) (loaded st) (loadError st) (Some (text, type)).

Definition setItem (key text : string) (st : State) : State :=
  mkState (<[key := text]> (localStorage st)) (loaded st) (loadError st)
    (message st).

(** The body of the [try] block of [reader.onload], on the file's text. *)
Definition tryImport (text : string) (st : State) : Thrown + State :=
  match JSON_parse text with
  | None => inl SyntaxError
  | Some data =>
      match property "orders" data with
      | inl e => inl e
      | inr orders_ =>
          let st := setItem "orders" (storedText orders_) st in
          match property "preferences" data with
          | inl e => inl e
          | inr preferences =>
              let st := setItem "systemPreferences" (storedText preferences) st in
              match property "inventory" data with
              | inl e => inl e
              | inr inventory =>
                  let st := setItem "inventory" (storedText inventory) st in
                  inr (showMessage "Data imported successfully" success
                         (loadOrders st))
              end
          end
      end
  end.

(** [importData] once the chosen file has been read: [file] is its text,
    [None] when no file was chosen.  The [catch] block reports the error
    on the state the handler started from: a throw can only come before
    the first write. *)
Definition importData (file : option string) (st : State) : State :=
  match file with
  | None => st
  | Some text =>
      match tryImport text st with
      | inr st' => st'
      | inl _ =>
          showMessage "Error importing data. Please check the file format."
            error st
      end
  end.

End WithJSON.

Section WithJSONExport.

Variable JSON_parse : string -> option json.

(** [JSON.stringify(data, null, 2)]. *)
Variable JSON_stringify_indented : json -> string.

(** [localStorage.getItem(key) || fallback]. *)
Definition slotText (key fallback : string) (ls : gmap string string)
  : string :=
  match ls !! key with
  | Some text => if (text =? "")%string then fallback else text
  | None => fallback
  end.

(** [exportData]: the text of the file it offers for download, [None]
    when a slot of the store does not parse (the handler then throws
    before any download).  [allOrders] is the page's historical list. *)
Definition exportData (allOrders : json) (st : State) : option string :=
  match JSON_parse (slotText "systemPreferences" "{}" (localStorage st)) with
  | None => None
  | Some preferences =>
      match JSON_parse (slotText "inventory" "[]" (localStorage st)) with
      | None => None
      | Some inventory =>
          Some (JSON_stringify_indented
                  (JObject [ ("orders", allOrders);
                             ("preferences", preferences);
                             ("inventory", inventory) ]))
      end
  end.

End WithJSONExport.

(** The expected shape of an export: an object with the three members
    [exportData] writes. *)
Definition hasExportShape (data : option json) : bool :=
  match data with
  | Some (JObject members) =>
      match member "orders" members, member "preferences" members,
            member "inventory" members with
      | Some _, Some _, Some _ => true
      | _, _, _ => false
      end
  | _ => false
  end.

End DataImport.

(** ** The inventory page (InventoryManagement of src/unnamed/part_001) *)

Module Inventory.

Record InventoryItem : Type := mkInventoryItem {
  id : string;
  name : string;
  category : string;
  quantity : Q;
  unit_ : string;
  minThreshold : Q;
  maxThreshold : Q;
  unitCost : Q;
  lastRestocked : string;
  supplier : string;
  location : string;
  notes : string
}.

(** The fields of [formData] that [handleSaveItem] reads.  A text field
    holds what was typed ([undefined] and the empty text are read alike,
    through [|| '']); a numeric field holds what [parseInt] or
    [parseFloat] made of the input, [None] for [NaN] or [undefined]. *)
Record FormData : Type := mkFormData {
  form_name : string;
  form_category : string;
  form_quantity : option Q;
  form_unit : string;
  form_minThreshold : option Q;
  form_maxThreshold : option Q;
  form_unitCost : option Q;
  form_supplier : string;
  form_location : string;
  form_notes : string
}.

Inductive MessageType : Type := success | error.

(** The cells the handlers read or write and the [inventory] slot of
    [localStorage] ([None] while the key is absent).  The list on display
    is recomputed from [inventory] and the search settings by an effect. *)
Record State : Type := mkState {
  inventory : list InventoryItem;
  selectedItem : option InventoryItem;
  isModalOpen : bool;
  isDeleteModalOpen : bool;
  formData : FormData;
  message : option (string * MessageType);
  ls_inventory : option (list InventoryItem)
}.

Definition emptyForm : FormData :=
  mkFormData "" "" (Some 0%Q) "" (Some 0%Q) (Some 0%Q) (Some 0%Q) "" "" "".

Definition formOfItem (item : InventoryItem) : FormData :=
  mkFormData (name item) (category item) (Some (quantity item)) (unit_ item)
    (Some (minThreshold item)) (Some (maxThreshold item))
    (Some (unitCost item)) (supplier item) (location item) (notes item).

Definition showMessage (text : string) (type : MessageType) (st : State)
  : State :=
  mkState (inventory st) (selectedItem st) (isModalOpen st)
    (isDeleteModalOpen st) (formData st) (Some (text, type)) (ls_inventory st).

Definition setSelectedItem (v : option InventoryItem) (st : State) : State :=
  mkState (inventory st) v (isModalOpen st) (isDeleteModalOpen st)
    (formData st) (message st) (ls_inventory st).

Definition setIsModalOpen (v : bool) (st : State) : State :=
  mkState (inventory st) (selectedItem st) v (isDeleteModalOpen st)
    (formData st) (message st) (ls_inventory st).

Definition setIsDeleteModalOpen (v : bool) (st : State) : State :=
  mkState (inventory st) (selectedItem st) (isModalOpen st) v
    (formData st) (message st) (ls_inventory st).

Definition setFormData (v : FormData) (st : State) : State :=
  mkState (inventory st) (selectedItem st) (isModalOpen st)
    (isDeleteModalOpen st) v (message st) (ls_inventory st).

(** [JSON.parse(localStorage.getItem('inventory') || '[]')]. *)
Definition readInventory (slot : option (list InventoryItem))
  : list InventoryItem :=
  match slot with
  | Some l => l
  | None => []
  end.

Definition loadInventory (st : State) : State :=
  mkState (readInventory (ls_inventory st)) (selectedItem st) (isModalOpen st)
    (isDeleteModalOpen st) (formData st) (message st) (ls_inventory st).

(** The page as it mounts over the stored slot. *)
Definition mount (slot : option (list InventoryItem)) : State :=
  loadInventory (mkState [] None false false emptyForm None slot).

Definition saveInventory (items_ : list InventoryItem) (st : State) : State :=
  showMessage "Inventory saved successfully" success
    (mkState items_ (selectedItem st) (isModalOpen st) (isDeleteModalOpen st)
       (formData st) (message st) (Some items_)).

Definition handleAddItem (st : State) : State :=
  setIsModalOpen true (setSelectedItem None (setFormData emptyForm st)).

Definition handleEditItem (item : InventoryItem) (st : State) : State :=
  setIsModalOpen true
    (setSelectedItem (Some item) (setFormData (formOfItem item) st)).

Definition handleDeleteItem (item : InventoryItem) (st : State) : State :=
  setIsDeleteModalOpen true (setSelectedItem (Some item) st).

Definition confirmDelete (st : State) : State :=
  match selectedItem st with
  | Some sel =>
      let updatedInventory :=
        List.filter (fun item => negb (id item =? id sel)%string)
          (inventory st) in
      showMessage "Item deleted successfully" success
        (setSelectedItem None
           (setIsDeleteModalOpen false (saveInventory updatedInventory st)))
  | None => st
  end.

(** [a || b] on texts: the empty text is falsy. *)
Definition js_or_text (a b : string) : string :=
  if (a =? "")%string then b else a.

(** The item [handleSaveItem] builds; [nowText] is [Date.now().toString()]
    and [nowISO] is [new Date().toISOString()]. *)
Definition newItem (nowText nowISO : string) (st : State) : InventoryItem :=
  {| id :=
       match selectedItem st with
       | Some sel => js_or_text (id sel) nowText
       | None => nowText
       end;
     name := form_name (formData st);
     category := form_category (formData st);
     quantity := js_or (form_quantity (formData st)) 0;
     unit_ := form_unit (formData st);
     minThreshold := js_or (form_minThreshold (formData st)) 0;
     maxThreshold := js_or (form_maxThreshold (formData st)) 0;
     unitCost := js_or (form_unitCost (formData st)) 0;
     lastRestocked :=
       match selectedItem st with
       | Some sel => js_or_text (lastRestocked sel) nowISO
       | None => nowISO
       end;
     supplier := form_supplier (formData st);
     location := form_location (formData st);
     notes := form_notes (formData st) |}.

Definition handleSaveItem (nowText nowISO : string) (st : State) : State :=
  if (form_name (formData st) =? "")%string
     || (form_category (formData st) =? "")%string
  then showMessage "Name and category are required" error st
  else
    let newItem_ := newItem nowText nowISO st in
    let updatedInventory :=
      match selectedItem st with
      | Some sel =>
          map (fun item =>
                 if (id item =? id sel)%string then newItem_ else item)
            (inventory st)
      | None => inventory st ++ [newItem_]
      end in
    showMessage
      ("Item " ++
       match selectedItem st with Some _ => "updated" | None => "added" end ++
       " successfully")
      success
      (setIsModalOpen false (saveInventory updatedInventory st)).

(** [lowStockItems]. *)
Definition lowStockItems (st : State) : list InventoryItem :=
  List.filter (fun item => Qle_bool (quantity item) (minThreshold item))
    (inventory st).

(** What the user can do on the page, the export and the import of a
    file apart. *)
Inductive Event : Type :=
| ClickAddItem
| ClickEditItem (item : InventoryItem)
| ClickDeleteItem (item : InventoryItem)
| ClickConfirmDelete
| ClickCancelDelete
| TypeForm (form : FormData)
| ClickSaveItem (nowText nowISO : string)
| ClickCloseModal.

Definition step (st : State) (e : Event) : State :=
  match e with
  | ClickAddItem => handleAddItem st
  | ClickEditItem item => handleEditItem item st
  | ClickDeleteItem item => handleDeleteItem item st
  | ClickConfirmDelete => confirmDelete st
  | ClickCancelDelete => setIsDeleteModalOpen false st
  | TypeForm form => setFormData form st
  | ClickSaveItem nowText nowISO => handleSaveItem nowText nowISO st
  | ClickCloseModal => setIsModalOpen false st
  end.

(** The clock a save reads gives a text no item has as its id yet. *)
Definition freshClock (st : State) (e : Event) : Prop :=
  match e with
  | ClickSaveItem nowText _ =>
      nowText <> "" /\ ~ In nowText (map id (inventory st))
  | _ => True
  end.

Fixpoint freshSession (st : State) (events : list Event) : Prop :=
  match events with
  | [] => True
  | e :: rest => freshClock st e /\ freshSession (step st e) rest
  end.

End Inventory.

(** ** Sample data used to exercise the results below *)

Module Examples.

Definition sampleOrder (i : Z) (st : string) (ts : Z) (t : Q) (compl : bool)
    (started : option Z) : Order :=
  mkOrder i "Ada L." st ts [] t compl 0 None None None None started None.

Definition pageOf (active historical : list Order) : Orders.State :=
  Orders.mkState active historical active "All" "timestamp" "desc" None [] ""
    false None (Some active).

(** An order in preparation, placed at instant 1000. *)
Definition orderInProgress : Order :=
  sampleOrder 1 "In Progress" 1000 10 false (Some 1000%Z).

Definition pageInProgress : Orders.State :=
  pageOf [orderInProgress] [orderInProgress].

(** A pending order, placed at instant 1000. *)
Definition orderPending : Order :=
  sampleOrder 1 "Pending" 1000 10 false (Some 1000%Z).

Definition pagePending : Orders.State := pageOf [orderPending] [orderPending].

(** The active list of the specification's example, newest order first as
    the order-entry page stores it, on a page set to ascending order. *)
Definition order7 : Order := sampleOrder 7 "Pending" 2000 5 false (Some 2000%Z).

Definition order3 : Order := sampleOrder 3 "Pending" 1000 4 false (Some 1000%Z).

Definition pageAscending : Orders.State :=
  Orders.filterAndSortOrders
    (Orders.mkState [order7; order3] [order7; order3] [] "All" "timestamp"
       "asc" None [] "" false None (Some [order7; order3])).

(** Two espressos and a croissant. *)
Definition espresso2 : OrderItem :=
  mkOrderItem 1 "Espresso" 2 (5 # 2) "Coffee" None.

Definition croissant1 : OrderItem :=
  mkOrderItem 11 "Croissant" 1 2 "Pastries" None.

(** A session on the order-entry page, mounted at instant 400 over a store
    that holds one pending order: two plain espressos through the flavor
    dialog, a croissant, the switch to paid mode, the customer's name, and
    the order button. *)
Definition posSession : list Pos.Event :=
  [ Pos.ClickMenuItem (Pos.menuItem 1 "Espresso" (5 # 2) "Coffee");
    Pos.ChooseFlavor "No Flavoring";
    Pos.ConfirmFlavor;
    Pos.ClickIncrease 0;
    Pos.ClickMenuItem (Pos.menuItem 11 "Croissant" 2 "Pastries");
    Pos.ToggleServiceMode;
    Pos.TypeCustomerInfo (Pos.mkCustomerInfo "Ada" "L" "");
    Pos.ClickPlaceOrder ].

Definition posAfterSession : Pos.State :=
  fold_left Pos.step posSession
    (Pos.mount 400 (Some [orderPending]) (Some 7%Z)).

(** The orders page with one pending order of two espressos and a
    croissant, and what a user does in its edit form: raise the espressos
    to three, write a note, then remove the second line. *)
Definition orderWithLines : Order :=
  mkOrder 1 "Ada L." "Pending" 1000 [espresso2; croissant1] 7 false 0 None
    None None None (Some 1000%Z) None.

Definition pageWithLines : Orders.State :=
  pageOf [orderWithLines] [orderWithLines].

Definition formSteps : list Orders.EditStep :=
  [ Orders.EditItem 1 (Orders.UpdateQuantity 3);
    Orders.EditNotes "no lid";
    Orders.RemoveItem 1 ].

Definition pageAfterForm : Orders.State :=
  Orders.saveModifiedOrder
    (fold_left Orders.editStep formSteps (Orders.modifyOrder 1 pageWithLines)).

(** A fragment of [JSON.parse] and [JSON.stringify], enough for the
    documents used below: the empty object, [null] and the empty array. *)
Definition parseSample (text : string) : option DataImport.json :=
  if (text =? "{}")%string then Some (DataImport.JObject [])
  else if (text =? "null")%string then Some DataImport.JNull
  else if (text =? "[]")%string then Some (DataImport.JArray [])
  else None.

Definition stringifySample (j : DataImport.json) : string :=
  match j with
  | DataImport.JObject [] => "{}"
  | DataImport.JNull => "null"
  | _ => "[]"
  end.

(** A store with the three slots of an export, and the page over it. *)
Definition storeBefore : gmap string string :=
  <["inventory" := "[]"]>
    (<["systemPreferences" := "{}"]> (<["orders" := "[]"]> ∅)).

Definition importPage : DataImport.State :=
  DataImport.mkState storeBefore (Some (DataImport.JArray [])) None None.

(** A report range of one day (day 0) and of two days (days 0 and 1). *)
Definition oneDay : Reports.DateRange :=
  Reports.mkDateRange 0 (Reports.msPerDay - 1).

Definition twoDays : Reports.DateRange :=
  Reports.mkDateRange 0 (2 * Reports.msPerDay - 1).

(** The orders of the specification's example: a paid and a complimentary
    order on the first day, a paid one on the second. *)
Definition twoDayOrders : list Order :=
  [ sampleOrder 1 "Completed" 1000 10 false None;
    sampleOrder 2 "Completed" 2000 0 true None;
    sampleOrder 3 "Completed" (Reports.msPerDay + 5) 20 false None ].

(** [String(x)] for the numbers of the examples: the whole part, and the
    decimals of the fraction when it has at most 17 of them. *)
Fixpoint fractionDigits (fuel : nat) (num den : Z) : string :=
  match fuel with
  | O => ""
  | S fuel =>
      if (num =? 0)%Z then ""
      else (Z_toString (num * 10 / den)
            ++ fractionDigits fuel (num * 10 mod den) den)%string
  end.

Definition Number_toString (q : Q) : string :=
  let n := Z.abs (Qnum q) in
  let d := Z.pos (Qden q) in
  ((if (Qnum q <? 0)%Z then "-" else "")
   ++ Z_toString (n / d)
   ++ (if (n mod d =? 0)%Z then "" else "." ++ fractionDigits 17 (n mod d) d))%string.

(** Orders as the store holds them.  [storedPlaced] is the order the
    session above places, paid, at instant 2000: its total is the text
    '7.00'.  [storedLatte] is a paid order of 3.50 the same page stored an
    instant earlier, [storedEdited] a paid order whose total of 10 the edit
    form of the orders page wrote, as a number, and [storedGift] a
    complimentary one. *)
Definition storedPlaced : StoredOrder := Pos.placedOrder 2000 posAfterSession.

Definition storedLatte : StoredOrder :=
  mkStoredOrder (sampleOrder 2 "Completed" 1000 (7 # 2) false None) asText.

Definition storedEdited : StoredOrder :=
  mkStoredOrder (sampleOrder 3 "Completed" 1500 10 false None) asNumber.

Definition storedGift : StoredOrder :=
  mkStoredOrder (sampleOrder 4 "Completed" 1700 0 true None) asNumber.

(** A complimentary order of two espressos and a croissant, total 0. *)
Definition complimentaryWithLines : Order :=
  mkOrder 1 "Ada L." "Pending" 1000 [espresso2; croissant1] 0 true 0 None
    None None None (Some 1000%Z) None.

(** What is typed in the inventory form for a bag of beans and for milk,
    and a session on an empty inventory: both items are added, the beans
    are edited, and the milk is deleted. *)
Definition beansForm : Inventory.FormData :=
  Inventory.mkFormData "House blend" "Beans" (Some 12%Q) "kg" (Some 3%Q)
    (Some 40%Q) (Some (37 # 2)) "Roastery" "Shelf A" "".

Definition milkForm : Inventory.FormData :=
  Inventory.mkFormData "Oat milk" "Dairy" None "l" (Some 6%Q) (Some 30%Q)
    (Some (9 # 5)) "Wholesale" "Fridge" "".

Definition beansItem : Inventory.InventoryItem :=
  Inventory.mkInventoryItem "1700000000001" "House blend" "Beans" 12 "kg" 3 40
    (37 # 2) "2023-11-14T22:13:20.001Z" "Roastery" "Shelf A" "".

Definition milkItem : Inventory.InventoryItem :=
  Inventory.mkInventoryItem "1700000000002" "Oat milk" "Dairy" 0 "l" 6 30
    (9 # 5) "2023-11-14T22:13:20.002Z" "Wholesale" "Fridge" "".

Definition inventorySession : list Inventory.Event :=
  [ Inventory.ClickAddItem;
    Inventory.TypeForm beansForm;
    Inventory.ClickSaveItem "1700000000001" "2023-11-14T22:13:20.001Z";
    Inventory.ClickAddItem;
    Inventory.TypeForm milkForm;
    Inventory.ClickSaveItem "1700000000002" "2023-11-14T22:13:20.002Z";
    Inventory.ClickEditItem beansItem;
    Inventory.TypeForm beansForm;
    Inventory.ClickSaveItem "1700000000003" "2023-11-14T22:13:20.003Z";
    Inventory.ClickDeleteItem milkItem;
    Inventory.ClickConfirmDelete ].

(** A store whose history holds one order (written as the empty object),
    the document [exportData] makes of it and the text of that document
    with an indentation of 2, and a fragment of [JSON.parse] and
    [JSON.stringify] that covers them. *)
Definition quoted (s : string) : string :=
  String (Ascii.ascii_of_nat 34) s ++ String (Ascii.ascii_of_nat 34) "".

Definition newline : string := String (Ascii.ascii_of_nat 10) "".

Definition historyOfOne : DataImport.json :=
  DataImport.JArray [DataImport.JObject []].

Definition exportedDocument : DataImport.json :=
  DataImport.JObject
    [ ("orders", historyOfOne);
      ("preferences", DataImport.JObject []);
      ("inventory", DataImport.JArray []) ].

Definition exportedText : string :=
  "{" ++ newline ++
  "  " ++ quoted "orders" ++ ": [" ++ newline ++
  "    {}" ++ newline ++
  "  ]," ++ newline ++
  "  " ++ quoted "preferences" ++ ": {}," ++ newline ++
  "  " ++ quoted "inventory" ++ ": []" ++ newline ++
  "}".

Definition parseExport (text : string) : option DataImport.json :=
  if (text =? exportedText)%string then Some exportedDocument
  else if (text =? "[{}]")%string then Some historyOfOne
  else parseSample text.

Definition stringifyExport (j : DataImport.json) : string :=
  match j with
  | DataImport.JArray [DataImport.JObject []] => "[{}]"
  | _ => stringifySample j
  end.

Definition indentedExport (j : DataImport.json) : string :=
  match j with
  | DataImport.JObject
      [ (_, DataImport.JArray [DataImport.JObject []]);
        (_, DataImport.JObject []);
        (_, DataImport.JArray []) ] => exportedText
  | _ => stringifyExport j
  end.

End Examples.

(** * Results *)

(** ** Cancelling (C1) *)

Lemma cancelOrder_declined (orderId : Z) (st : Orders.State) :
  Orders.cancelOrder false orderId st = st.
Proof. reflexivity. Qed.

Lemma cancel_click_on_pending (now : Z) (confirmed : bool) (order : Order)
    (st : Orders.State) :
  status order = "Pending" ->
  Orders.clickButton now confirmed order Orders.CancelButton st
  = Orders.cancelOrder confirmed (id order) st.
Proof.
  intros Hs. unfold Orders.clickButton, Orders.buttonEnabled.
  rewrite Hs. reflexivity.
Qed.

(** C1, as the code has it: the guard is the [disabled] attribute of the
    cancel button.  For every order whose status is not 'Pending', a click
    on the cancel button of its card changes nothing: the page state, and
    with it the order's status and its membership in the active and the
    historical list, is what it was. *)
Theorem cancel_click_on_non_pending_is_noop :
  forall (now : Z) (confirmed : bool) (order : Order) (st : Orders.State),
    status order <> "Pending" ->
    Orders.clickButton now confirmed order Orders.CancelButton st = st.
Proof.
  intros now confirmed order st Hs.
  unfold Orders.clickButton, Orders.buttonEnabled.
  destruct (String.eqb_spec (status order) "Pending") as [Heq | Hne].
  - contradiction.
  - now rewrite andb_false_r.
Qed.

Lemma cancel_click_on_non_pending_is_noop_witness :
  status Examples.orderInProgress <> "Pending" /\
  Orders.clickButton 5000 true Examples.orderInProgress Orders.CancelButton
    Examples.pageInProgress
  = Examples.pageInProgress.
Proof.
  split.
  - discriminate.
  - apply (cancel_click_on_non_pending_is_noop 5000 true
             Examples.orderInProgress Examples.pageInProgress).
    discriminate.
Defined.

(** C1 as stated fails on the handler: [cancelOrder] does not look at the
    status.  Called (and confirmed) for an order in preparation, it takes
    the order out of the active list and marks it 'Cancelled' in the
    historical list. *)
Lemma cancelOrder_ignores_status :
  status Examples.orderInProgress = "In Progress" /\
  Orders.orders Examples.pageInProgress = [Examples.orderInProgress] /\
  Orders.orders
    (Orders.cancelOrder true (id Examples.orderInProgress)
       Examples.pageInProgress) = [] /\
  map status
    (Orders.allOrders
       (Orders.cancelOrder true (id Examples.orderInProgress)
          Examples.pageInProgress)) = ["Cancelled"].
Proof. repeat split. Qed.

(** ** Status transitions (C2, C3) *)

Lemma updateOrderStatus_orders (now orderId : Z) (newStatus : string)
    (st : Orders.State) :
  Orders.orders (Orders.updateOrderStatus now orderId newStatus st)
  = map (Orders.updateOne now orderId newStatus) (Orders.orders st).
Proof. reflexivity. Qed.

Lemma updateOrderStatus_allOrders (now orderId : Z) (newStatus : string)
    (st : Orders.State) :
  Orders.allOrders (Orders.updateOrderStatus now orderId newStatus st)
  = map (Orders.updateOne now orderId newStatus) (Orders.orders st).
Proof. reflexivity. Qed.

Lemma updateOrderStatus_stored (now orderId : Z) (newStatus : string)
    (st : Orders.State) :
  Orders.ls_orders (Orders.updateOrderStatus now orderId newStatus st)
  = Some (map (Orders.updateOne now orderId newStatus) (Orders.orders st)).
Proof. reflexivity. Qed.

Lemma seconds_nonneg (a b : Z) :
  (a <= b)%Z -> (0 <= inject_Z (b - a) / 1000)%Q.
Proof.
  intros Hab. apply Qle_shift_div_l; [reflexivity |].
  rewrite Qmult_0_l. change 0%Q with (inject_Z 0).
  rewrite <- Zle_Qle. lia.
Qed.

Lemma seconds_negative (a b : Z) :
  (b < a)%Z -> (inject_Z (b - a) / 1000 < 0)%Q.
Proof.
  intros Hab. apply Qlt_shift_div_r; [reflexivity |].
  rewrite Qmult_0_l. change 0%Q with (inject_Z 0).
  rewrite <- Zlt_Qlt. lia.
Qed.

(** C2, as the code has it.  Completing the order at position [i] of the
    active list (the one with the given id): the order there becomes
    'Completed', in the active list, the historical list and the stored
    collection alike.  With a recorded [startTime] its [preparationTime]
    is the completion instant minus the start, in seconds, whatever its
    sign: it is not negative exactly when the completion is not before the
    recorded start.  Without a [startTime], [preparationTime] is left as it
    was (undefined for an order that never had one). *)
Theorem completing_sets_preparationTime :
  forall (now orderId : Z) (st : Orders.State) (i : nat) (order : Order),
    nth_error (Orders.orders st) i = Some order ->
    id order = orderId ->
    let st' := Orders.updateOrderStatus now orderId "Completed" st in
    exists completed : Order,
      nth_error (Orders.orders st') i = Some completed /\
      nth_error (Orders.allOrders st') i = Some completed /\
      nth_error (readOrders (Orders.ls_orders st')) i = Some completed /\
      status completed = "Completed" /\
      match startTime order with
      | Some started =>
          preparationTime completed
          = Some (inject_Z (now - started) / 1000)%Q /\
          ((0 <= inject_Z (now - started) / 1000)%Q <-> (started <= now)%Z)
      | None => preparationTime completed = preparationTime order
      end.
Proof.
  intros now orderId st i order Hnth Hid st'.
  exists (Orders.updateOne now orderId "Completed" order).
  subst st'.
  rewrite updateOrderStatus_orders, updateOrderStatus_allOrders,
    updateOrderStatus_stored.
  cbn [readOrders].
  rewrite (map_nth_error _ _ _ Hnth).
  repeat split.
  - unfold Orders.updateOne. rewrite Hid, Z.eqb_refl. cbn.
    now destruct (startTime order).
  - unfold Orders.updateOne. rewrite Hid, Z.eqb_refl. cbn.
    destruct (startTime order) as [started |]; cbn; [| reflexivity].
    split; [reflexivity |]. split.
    + intros Hpos. destruct (Z.le_gt_cases started now) as [Hle | Hgt];
        [assumption |].
      exfalso. apply (Qlt_not_le _ _ (seconds_negative started now Hgt)).
      exact Hpos.
    + apply seconds_nonneg.
Qed.

Lemma completing_sets_preparationTime_witness :
  exists completed : Order,
    nth_error
      (Orders.orders
         (Orders.updateOrderStatus 61000 1 "Completed" Examples.pageInProgress))
      0 = Some completed /\
    status completed = "Completed" /\
    preparationTime completed = Some (inject_Z (61000 - 1000) / 1000)%Q.
Proof.
  destruct (completing_sets_preparationTime 61000 1 Examples.pageInProgress 0
              Examples.orderInProgress eq_refl eq_refl)
    as [completed (H1 & _ & _ & H2 & H3)].
  exists completed. cbn in H3. destruct H3 as [H3 _].
  repeat split; assumption.
Defined.

(** The claim as written fails: the code does not keep the value from
    being negative.  An order whose recorded start is instant 1000,
    completed when the clock reads 500, gets a preparation time of -1/2
    second. *)
Lemma completion_before_start_is_negative :
  exists q : Q,
    map preparationTime
      (Orders.orders
         (Orders.updateOrderStatus 500 1 "Completed" Examples.pageInProgress))
    = [Some q] /\
    (q == - (1 # 2))%Q /\
    ~ (0 <= q)%Q.
Proof.
  exists (inject_Z (500 - 1000) / 1000)%Q.
  split; [reflexivity |]. split; [reflexivity |].
  apply Qlt_not_le. reflexivity.
Qed.

Lemma confirmOrder_stored (now : Z) (pst : Pos.State) :
  Pos.firstName (Pos.customerInfo pst) <> "" ->
  Pos.lastInitial (Pos.customerInfo pst) <> "" ->
  Pos.ls_orders (Pos.confirmOrder now pst)
  = Some (Pos.newOrder now pst :: readOrders (Pos.ls_orders pst)).
Proof.
  intros Hf Hl. unfold Pos.confirmOrder.
  destruct (String.eqb_spec (Pos.firstName (Pos.customerInfo pst)) "");
    [contradiction |].
  destruct (String.eqb_spec (Pos.lastInitial (Pos.customerInfo pst)) "");
    [contradiction |].
  reflexivity.
Qed.

Lemma updateOne_in_progress (now orderId : Z) (order : Order) :
  Orders.updateOne now orderId "In Progress" order
  = if (id order =? orderId)%Z then with_status order "In Progress" else order.
Proof. reflexivity. Qed.

(** C3, as the code has it.  The start instant is recorded when the order
    is placed: [confirmOrder] stores the new order first in the persisted
    collection, 'Pending', with [startTime] the instant of placing.  The
    transition to 'In Progress' rewrites the status of the orders with the
    given id and nothing else; every order keeps the [startTime] it had. *)
Theorem startTime_set_at_creation_kept_on_start :
  forall (now orderId : Z) (st : Orders.State) (placedAt : Z) (pst : Pos.State),
    (Orders.orders (Orders.updateOrderStatus now orderId "In Progress" st)
     = map (fun order =>
              if (id order =? orderId)%Z
              then with_status order "In Progress" else order)
         (Orders.orders st)) /\
    (map startTime
       (Orders.orders (Orders.updateOrderStatus now orderId "In Progress" st))
     = map startTime (Orders.orders st)) /\
    (Pos.firstName (Pos.customerInfo pst) <> "" ->
     Pos.lastInitial (Pos.customerInfo pst) <> "" ->
     exists placed : Order,
       Pos.ls_orders (Pos.confirmOrder placedAt pst)
       = Some (placed :: readOrders (Pos.ls_orders pst)) /\
       status placed = "Pending" /\
       startTime placed = Some placedAt).
Proof.
  intros now orderId st placedAt pst.
  rewrite updateOrderStatus_orders.
  split; [| split].
  - apply map_ext. intros order. apply updateOne_in_progress.
  - rewrite map_map. apply map_ext. intros order.
    rewrite updateOne_in_progress.
    now destruct (id order =? orderId)%Z.
  - intros Hf Hl. exists (Pos.newOrder placedAt pst).
    rewrite (confirmOrder_stored placedAt pst Hf Hl).
    repeat split.
Qed.

Lemma startTime_set_at_creation_kept_on_start_witness :
  map startTime
    (Orders.orders
       (Orders.updateOrderStatus 61000 1 "In Progress" Examples.pagePending))
  = [Some 1000%Z] /\
  exists placed : Order,
    Pos.ls_orders (Pos.confirmOrder 2000 Examples.posAfterSession)
    = Some [placed; Examples.orderPending] /\
    status placed = "Pending" /\
    startTime placed = Some 2000%Z.
Proof.
  destruct (startTime_set_at_creation_kept_on_start 61000 1
              Examples.pagePending 2000 Examples.posAfterSession)
    as (_ & Hkept & Hplaced).
  split.
  - exact Hkept.
  - apply Hplaced; vm_compute; discriminate.
Defined.

(** C3 as stated fails: starting a pending order at instant 61000 leaves
    the [startTime] 1000 it got when it was placed; the instant of the
    transition is recorded nowhere. *)
Lemma start_does_not_record_startTime :
  map status (Orders.orders Examples.pagePending) = ["Pending"] /\
  map status
    (Orders.orders
       (Orders.updateOrderStatus 61000 1 "In Progress" Examples.pagePending))
  = ["In Progress"] /\
  map startTime
    (Orders.orders
       (Orders.updateOrderStatus 61000 1 "In Progress" Examples.pagePending))
  = [Some 1000%Z] /\
  map startTime
    (Orders.orders
       (Orders.updateOrderStatus 61000 1 "In Progress" Examples.pagePending))
  <> [Some 61000%Z].
Proof. repeat split. discriminate. Qed.

(** ** Clearing all orders (C4) *)

Lemma existsb_same_id (order : Order) (active : list Order) :
  In order active ->
  forall historical : Order,
    id historical = id order ->
    existsb (fun activeOrder => (id activeOrder =? id historical)%Z) active
    = true.
Proof.
  intros Hin historical Hid. apply existsb_exists.
  exists order. split; [assumption |]. rewrite Hid. apply Z.eqb_refl.
Qed.

(** C4, as the code has it.  After the clear-all action the active list and
    the list on display are empty; the historical list keeps every entry
    in place, an entry being marked 'Cleared' exactly when its id is that
    of an active order, so every active order's historical entry is marked;
    and the persisted collection is overwritten with the empty array, so
    the reports page loads no order afterwards. *)
Theorem clear_all_marks_history_and_empties_store :
  forall st : Orders.State,
    let st' := Orders.confirmClearAllOrders st in
    Orders.orders st' = [] /\
    Orders.filteredOrders st' = [] /\
    length (Orders.allOrders st') = length (Orders.allOrders st) /\
    (forall (i : nat) (historical : Order),
        nth_error (Orders.allOrders st) i = Some historical ->
        nth_error (Orders.allOrders st') i
        = Some (if existsb
                     (fun activeOrder => (id activeOrder =? id historical)%Z)
                     (Orders.orders st)
                then with_status historical "Cleared" else historical)) /\
    (forall order historical : Order,
        In order (Orders.orders st) ->
        In historical (Orders.allOrders st) ->
        id historical = id order ->
        In (with_status historical "Cleared") (Orders.allOrders st')) /\
    Orders.ls_orders st' = Some [] /\
    Reports.fetchOrders (Orders.ls_orders st') = [].
Proof.
  intros st st'. subst st'.
  unfold Orders.confirmClearAllOrders. cbn.
  repeat split.
  - apply length_map.
  - intros i historical Hnth.
    now rewrite (map_nth_error _ _ _ Hnth).
  - intros order historical Hact Hhist Hid.
    apply in_map_iff. exists historical. split; [| assumption].
    now rewrite (existsb_same_id order _ Hact historical Hid).
Qed.

Lemma clear_all_marks_history_and_empties_store_witness :
  In (with_status Examples.orderPending "Cleared")
    (Orders.allOrders (Orders.confirmClearAllOrders Examples.pagePending)) /\
  Orders.ls_orders (Orders.confirmClearAllOrders Examples.pagePending) = Some [].
Proof.
  destruct (clear_all_marks_history_and_empties_store Examples.pagePending)
    as (_ & _ & _ & _ & Hmarked & Hstore & _).
  split.
  - apply (Hmarked Examples.orderPending Examples.orderPending).
    + left; reflexivity.
    + left; reflexivity.
    + reflexivity.
  - exact Hstore.
Defined.

(** C4 as stated fails in its last part: the one order of the page is
    persisted and counted by the reports before the clear-all, and absent
    from the persisted collection after it. *)
Lemma cleared_orders_leave_the_reports :
  Orders.orders Examples.pagePending = [Examples.orderPending] /\
  Reports.fetchOrders (Orders.ls_orders Examples.pagePending)
  = [Examples.orderPending] /\
  Reports.totalOrders
    (Reports.fetchOrders (Orders.ls_orders Examples.pagePending)) = 1%Z /\
  Reports.fetchOrders
    (Orders.ls_orders (Orders.confirmClearAllOrders Examples.pagePending))
  = [] /\
  Reports.totalOrders
    (Reports.fetchOrders
       (Orders.ls_orders (Orders.confirmClearAllOrders Examples.pagePending)))
  = 0%Z.
Proof. repeat split. Qed.

(** ** Restarting the order ids (C10) *)

Lemma map_index_from_length {A B : Type} (f : A -> Z -> B) (l : list A) :
  forall i : Z, length (map_index_from f i l) = length l.
Proof.
  induction l as [| x l IH]; intros i; cbn; [reflexivity |].
  now rewrite IH.
Qed.

Lemma map_index_from_nth {A B : Type} (f : A -> Z -> B) (l : list A) :
  forall (i : Z) (n : nat) (x : A),
    nth_error l n = Some x ->
    nth_error (map_index_from f i l) n = Some (f x (i + Z.of_nat n)%Z).
Proof.
  induction l as [| y l IH]; intros i n x Hn.
  - destruct n; discriminate.
  - destruct n as [| n]; cbn in *.
    + injection Hn as ->. now rewrite Z.add_0_r.
    + rewrite (IH (i + 1)%Z n x Hn). do 2 f_equal. lia.
Qed.

Lemma Array_map_index_nth {A B : Type} (f : A -> Z -> B) (l : list A)
    (n : nat) (x : A) :
  nth_error l n = Some x ->
  nth_error (Array_map_index f l) n = Some (f x (Z.of_nat n)).
Proof.
  intros Hn. unfold Array_map_index.
  now rewrite (map_index_from_nth f l 0 n x Hn).
Qed.

(** C10, as the code has it.  The restart gives the order at position [i]
    of the active list the id [i + 1], and likewise in the historical list,
    each list counted on its own; positions are those of the lists as
    stored, whatever the sort and filter settings and the list on display.
    The renumbered active list is put on display and persisted. *)
Theorem restart_ids_follow_list_positions :
  forall st : Orders.State,
    let st' := Orders.confirmRestartOrderId st in
    length (Orders.orders st') = length (Orders.orders st) /\
    length (Orders.allOrders st') = length (Orders.allOrders st) /\
    (forall (i : nat) (order : Order),
        nth_error (Orders.orders st) i = Some order ->
        nth_error (Orders.orders st') i
        = Some (with_id order (Z.of_nat i + 1))) /\
    (forall (i : nat) (order : Order),
        nth_error (Orders.allOrders st) i = Some order ->
        nth_error (Orders.allOrders st') i
        = Some (with_id order (Z.of_nat i + 1))) /\
    Orders.filteredOrders st' = Orders.orders st' /\
    Orders.ls_orders st' = Some (Orders.orders st').
Proof.
  intros st st'. subst st'. unfold Orders.confirmRestartOrderId. cbn.
  repeat split.
  - apply map_index_from_length.
  - apply map_index_from_length.
  - intros i order Hn.
    apply (Array_map_index_nth
             (fun order index => with_id order (index + 1)%Z) _ i order Hn).
  - intros i order Hn.
    apply (Array_map_index_nth
             (fun order index => with_id order (index + 1)%Z) _ i order Hn).
Qed.

Lemma restart_ids_follow_list_positions_witness :
  nth_error
    (Orders.orders (Orders.confirmRestartOrderId Examples.pageAscending)) 1
  = Some (with_id Examples.order3 2).
Proof.
  destruct (restart_ids_follow_list_positions Examples.pageAscending)
    as (_ & _ & Hactive & _).
  apply (Hactive 1%nat Examples.order3). reflexivity.
Defined.

(** The specification's example: an active list with ids 7 and 3 is
    renumbered 1 and 2, in the order of the list. *)
Example restart_ids_example :
  map id (Orders.orders Examples.pageAscending) = [7; 3]%Z /\
  map id (Orders.orders (Orders.confirmRestartOrderId Examples.pageAscending))
  = [1; 2]%Z.
Proof. split; reflexivity. Qed.

(** C10 as stated fails where it takes positions from the display order.
    On a page sorted by time, oldest first, order 3 is displayed first and
    order 7 second; the restart numbers them by their place in the stored
    list, so the order displayed first gets id 2. *)
Lemma restart_ignores_display_order :
  map id (Orders.filteredOrders Examples.pageAscending) = [3; 7]%Z /\
  Orders.filteredOrders Examples.pageAscending
  = [Examples.order3; Examples.order7] /\
  Orders.orders (Orders.confirmRestartOrderId Examples.pageAscending)
  = [with_id Examples.order7 1; with_id Examples.order3 2] /\
  with_id Examples.order3 2 <> with_id Examples.order3 1.
Proof. repeat split. discriminate. Qed.

(** ** Order totals (C5) *)

(** Equations between rationals built from [#], [+], [*] and [-], read as
    equations between integers. *)
Ltac q_cross :=
  unfold Qeq, Qplus, Qmult, Qopp, inject_Z; cbn [Qnum Qden];
  rewrite ?Pos2Z.inj_mul; lia.

Lemma fold_left_sum_acc {A : Type} (f : A -> Q) (l : list A) :
  forall acc : Q,
    (fold_left (fun sum x => sum + f x) l acc == acc + sumQ (map f l))%Q.
Proof.
  induction l as [| x l IH]; intros acc; cbn.
  - now rewrite Qplus_0_r.
  - rewrite IH. now rewrite Qplus_assoc.
Qed.

Lemma itemsTotal_sum (its : list OrderItem) :
  (itemsTotal its == sumQ (map lineAmount its))%Q.
Proof.
  unfold itemsTotal. rewrite fold_left_sum_acc. apply Qplus_0_l.
Qed.

(** An amount that is a whole number of cents. *)
Definition wholeCents (p : Q) : Prop := exists c : Z, (p == c # 100)%Q.

Lemma lineAmount_wholeCents (item : OrderItem) :
  wholeCents (price item) -> wholeCents (lineAmount item).
Proof.
  intros [c Hc]. exists (c * quantity item)%Z.
  unfold lineAmount. rewrite Hc. q_cross.
Qed.

Lemma sumQ_wholeCents (l : list Q) :
  Forall wholeCents l -> wholeCents (sumQ l).
Proof.
  induction 1 as [| x l [c Hc] _ [d Hd]]; cbn.
  - exists 0%Z. reflexivity.
  - exists (c + d)%Z. rewrite Hc, Hd. q_cross.
Qed.

Lemma toFixed2_nonneg_cents (c : Z) :
  (toFixed2_nonneg (c # 100) == c # 100)%Q.
Proof.
  unfold toFixed2_nonneg.
  assert (Hfloor : Qfloor ((c # 100) * 100 + (1 # 2)) = c).
  { assert (Heq : ((c # 100) * 100 + (1 # 2) == (c * 2 + 1) # 2)%Q).
    { q_cross. }
    rewrite Heq. cbn [Qfloor]. rewrite Z.div_add_l by lia.
    change (1 / 2)%Z with 0%Z. lia. }
  rewrite Hfloor. reflexivity.
Qed.

Lemma toFixed2_nonneg_comp (x y : Q) :
  (x == y)%Q -> toFixed2_nonneg x = toFixed2_nonneg y.
Proof.
  intros Hxy. unfold toFixed2_nonneg.
  assert (Harg : (x * 100 + (1 # 2) == y * 100 + (1 # 2))%Q)
    by now rewrite Hxy.
  now rewrite (Qfloor_comp _ _ Harg).
Qed.

Lemma toFixed2_wholeCents (x : Q) : wholeCents x -> (toFixed2 x == x)%Q.
Proof.
  intros [c Hc]. unfold toFixed2.
  destruct (Qle_bool 0 x) eqn:Hsign.
  - rewrite (toFixed2_nonneg_comp x (c # 100) Hc), Hc.
    apply toFixed2_nonneg_cents.
  - assert (Hneg : (- x == (- c) # 100)%Q).
    { rewrite Hc. q_cross. }
    rewrite (toFixed2_nonneg_comp (- x) ((- c) # 100) Hneg).
    rewrite toFixed2_nonneg_cents, Hc. q_cross.
Qed.

Lemma menu_prices_wholeCents :
  Forall (fun item => wholeCents (price item)) Pos.menuItems.
Proof.
  unfold Pos.menuItems, Pos.menuItem.
  repeat constructor; cbn;
    first [ now exists 250%Z | now exists 300%Z | now exists 350%Z
          | now exists 450%Z | now exists 200%Z ].
Qed.

Lemma calculateTotal_paid (pst : Pos.State) :
  List.Forall (fun item => wholeCents (price item)) (Pos.cart pst) ->
  Pos.isComplimentaryMode pst = false ->
  (Pos.calculateTotal pst == sumQ (map lineAmount (Pos.cart pst)))%Q.
Proof.
  intros Hcents Hpaid. unfold Pos.calculateTotal. rewrite Hpaid.
  rewrite toFixed2_wholeCents.
  - apply itemsTotal_sum.
  - destruct (sumQ_wholeCents (map lineAmount (Pos.cart pst))) as [c Hc].
    + apply List.Forall_forall. intros amount Hin.
      apply in_map_iff in Hin. destruct Hin as [item [<- Hin]].
      apply lineAmount_wholeCents.
      now apply (proj1 (List.Forall_forall _ _) Hcents).
    + exists c. now rewrite itemsTotal_sum.
Qed.

(** The text of [toFixed(2)] depends on the value of the number only. *)
Lemma toFixed2_nonneg_text_compat (x y : Q) :
  (x == y)%Q -> toFixed2_nonneg_text x = toFixed2_nonneg_text y.
Proof.
  intros Hxy. unfold toFixed2_nonneg_text.
  assert (Hfloor : Qfloor (x * 100 + (1 # 2)) = Qfloor (y * 100 + (1 # 2))).
  { apply Qfloor_comp. now rewrite Hxy. }
  now rewrite Hfloor.
Qed.

Lemma toFixed2_text_compat (x y : Q) :
  (x == y)%Q -> toFixed2_text x = toFixed2_text y.
Proof.
  intros Hxy. unfold toFixed2_text.
  assert (Hsign : Qle_bool 0 x = Qle_bool 0 y).
  { destruct (Qle_bool 0 x) eqn:Hx, (Qle_bool 0 y) eqn:Hy; try reflexivity.
    - apply Qle_bool_iff in Hx. rewrite Hxy in Hx.
      apply Qle_bool_iff in Hx. congruence.
    - apply Qle_bool_iff in Hy. rewrite <- Hxy in Hy.
      apply Qle_bool_iff in Hy. congruence. }
  rewrite Hsign. destruct (Qle_bool 0 y).
  - now apply toFixed2_nonneg_text_compat.
  - f_equal. apply toFixed2_nonneg_text_compat. now rewrite Hxy.
Qed.

(** What the store holds as the total of a placed order: the number 0 in
    complimentary mode, and otherwise the text that writes the sum of the
    cart with two decimals. *)
Lemma placedOrder_storedTotal (now : Z) (pst : Pos.State) :
  List.Forall (fun item => wholeCents (price item)) (Pos.cart pst) ->
  storedTotal (Pos.placedOrder now pst)
  = if Pos.isComplimentaryMode pst then JsNum (Finite 0)
    else JsText (toFixed2_text (sumQ (map lineAmount (Pos.cart pst)))).
Proof.
  intros Hcents. unfold storedTotal, Pos.placedOrder.
  cbn [totalForm typed total Pos.newOrder].
  destruct (Pos.isComplimentaryMode pst) eqn:Hmode.
  - unfold Pos.calculateTotal. now rewrite Hmode.
  - f_equal. apply toFixed2_text_compat.
    now apply calculateTotal_paid.
Qed.

(** *** The cart holds menu prices *)

(** A cart line priced as some entry of the menu. *)
Definition menuPriced (line : OrderItem) : Prop :=
  exists entry : OrderItem, In entry Pos.menuItems /\ price line = price entry.

Definition cartInvariant (pst : Pos.State) : Prop :=
  List.Forall menuPriced (Pos.cart pst) /\
  forall coffee : OrderItem,
    Pos.selectedCoffeeItem pst = Some coffee -> In coffee Pos.menuItems.

Lemma cartLine_menuPriced (item : OrderItem) (f : option string) (q : Z) :
  menuPriced item -> menuPriced (Pos.cartLine item f q).
Proof. intros [entry [Hin Hprice]]. now exists entry. Qed.

Lemma menuItem_menuPriced (item : OrderItem) :
  In item Pos.menuItems -> menuPriced item.
Proof. intros Hin. now exists item. Qed.

Lemma addLine_menuPriced (line : OrderItem) (prevCart : list OrderItem) :
  menuPriced line ->
  List.Forall menuPriced prevCart ->
  List.Forall menuPriced (Pos.addLine line prevCart).
Proof.
  intros Hline Hcart. unfold Pos.addLine.
  destruct (find _ prevCart).
  - apply List.Forall_forall. intros x Hx.
    apply in_map_iff in Hx. destruct Hx as [cartItem [<- Hin]].
    pose proof (proj1 (List.Forall_forall _ _) Hcart cartItem Hin) as Hitem.
    destruct (Pos.sameLine _ _ cartItem); [| assumption].
    now apply cartLine_menuPriced.
  - apply List.Forall_app. split; [assumption |]. now constructor.
Qed.

Lemma removeAt_Forall {A : Type} (P : A -> Prop) (l : list A) :
  List.Forall P l -> forall index : nat, List.Forall P (removeAt index l).
Proof.
  induction 1 as [| x l Hx Hl IH]; intros index; cbn.
  - destruct index; constructor.
  - destruct index as [| k]; [assumption |]. constructor; [assumption | apply IH].
Qed.

Lemma step_cartInvariant (pst : Pos.State) (e : Pos.Event) :
  cartInvariant pst -> Pos.onMenu e -> cartInvariant (Pos.step pst e).
Proof.
  intros [Hcart Hcoffee] He.
  destruct e as [item | f | | index | index | | info | | now]; cbn in He |- *.
  - unfold Pos.addToCart. destruct (category item =? "Coffee")%string.
    + split; [assumption |]. cbn. now intros coffee [= <-].
    + split; [| assumption]. cbn.
      apply addLine_menuPriced; [| assumption].
      now apply cartLine_menuPriced, menuItem_menuPriced.
  - now split.
  - unfold Pos.confirmFlavorSelection.
    case_eq (Pos.selectedCoffeeItem pst); [intros coffee Hsel | now split].
    split; [| assumption]. cbn.
    apply addLine_menuPriced; [| assumption].
    apply cartLine_menuPriced, menuItem_menuPriced. now apply Hcoffee.
  - unfold Pos.removeFromCart.
    destruct (nth_error (Pos.cart pst) index) as [item |] eqn:Hnth;
      [| now split].
    split; [| assumption]. cbn.
    assert (Hitem : menuPriced item).
    { apply (proj1 (List.Forall_forall _ _) Hcart).
      now apply nth_error_In with index. }
    destruct (1 <? quantity item)%Z.
    + apply Forall_insert; [assumption |]. now apply cartLine_menuPriced.
    + now apply removeAt_Forall.
  - unfold Pos.increaseQuantity.
    destruct (nth_error (Pos.cart pst) index) as [item |] eqn:Hnth;
      [| now split].
    split; [| assumption]. cbn.
    apply Forall_insert; [assumption |]. apply cartLine_menuPriced.
    apply (proj1 (List.Forall_forall _ _) Hcart).
    now apply nth_error_In with index.
  - now split.
  - now split.
  - unfold Pos.handlePlaceOrder. case (Pos.cart pst); [| intros _ _]; now split.
  - unfold Pos.confirmOrder.
    case (_ || _); [now split |]. split; [constructor | assumption].
Qed.

Lemma reachable_cartInvariant (pst : Pos.State) :
  Pos.reachable pst -> cartInvariant pst.
Proof.
  induction 1 as [now slot lastOrderNumber | now slot lastOrderNumber saved
                  | st e _ IH He].
  - split; [constructor | discriminate].
  - split; [constructor | discriminate].
  - now apply step_cartInvariant.
Qed.

Lemma reachable_cart_wholeCents (pst : Pos.State) :
  Pos.reachable pst ->
  List.Forall (fun item => wholeCents (price item)) (Pos.cart pst).
Proof.
  intros Hreach. destruct (reachable_cartInvariant pst Hreach) as [Hcart _].
  revert Hcart. apply List.Forall_impl.
  intros line [entry [Hin ->]].
  apply (proj1 (List.Forall_forall _ _) menu_prices_wholeCents entry Hin).
Qed.

Lemma reachable_session (events : list Pos.Event) :
  forall pst : Pos.State,
    Pos.reachable pst ->
    List.Forall Pos.onMenu events ->
    Pos.reachable (fold_left Pos.step events pst).
Proof.
  induction events as [| e events IH]; intros pst Hreach Hmenu; cbn.
  - assumption.
  - inversion Hmenu as [| ? ? He Hrest]; subst.
    apply IH; [| assumption]. now constructor.
Qed.

(** The edit form keeps an order selected while the user works in it. *)
Lemma editStep_selected (step : Orders.EditStep) (st : Orders.State)
    (sel : Order) :
  Orders.selectedOrder st = Some sel ->
  exists sel' : Order,
    Orders.selectedOrder (Orders.editStep st step) = Some sel' /\
    id sel' = id sel.
Proof.
  intros Hsel. destruct step as [n | n | itemId updates | index]; cbn.
  - unfold Orders.editCustomerName. rewrite Hsel. cbn. now eexists.
  - now exists sel.
  - unfold Orders.updateOrderItem. rewrite Hsel. cbn. now eexists.
  - now exists sel.
Qed.

Lemma editSteps_selected (steps : list Orders.EditStep) :
  forall (st : Orders.State) (sel : Order),
    Orders.selectedOrder st = Some sel ->
    exists sel' : Order,
      Orders.selectedOrder (fold_left Orders.editStep steps st) = Some sel' /\
      id sel' = id sel.
Proof.
  induction steps as [| step steps IH]; intros st sel Hsel; cbn.
  - now exists sel.
  - destruct (editStep_selected step st sel Hsel) as [sel1 [H1 Hid1]].
    destruct (IH _ sel1 H1) as [sel2 [H2 Hid2]].
    exists sel2. split; [assumption | congruence].
Qed.

(** The edit form does not touch the lists of orders. *)
Lemma editStep_orders (step : Orders.EditStep) (st : Orders.State) :
  Orders.orders (Orders.editStep st step) = Orders.orders st.
Proof.
  destruct step as [n | n | itemId updates | index]; cbn.
  - unfold Orders.editCustomerName. now destruct (Orders.selectedOrder st).
  - reflexivity.
  - unfold Orders.updateOrderItem. now destruct (Orders.selectedOrder st).
  - reflexivity.
Qed.

Lemma editSteps_orders (steps : list Orders.EditStep) :
  forall st : Orders.State,
    Orders.orders (fold_left Orders.editStep steps st) = Orders.orders st.
Proof.
  induction steps as [| step steps IH]; intros st; cbn [fold_left].
  - reflexivity.
  - now rewrite IH, editStep_orders.
Qed.

(** What saving does to the order at one position of the active list. *)
Lemma saveModifiedOrder_at (st : Orders.State) (sel order : Order) (n : nat) :
  Orders.selectedOrder st = Some sel ->
  nth_error (Orders.orders st) n = Some order ->
  nth_error (Orders.orders (Orders.saveModifiedOrder st)) n
  = Some (if (id order =? id sel)%Z
          then with_items_notes_total sel (Orders.editedItems st)
                 (Orders.orderNotes st)
                 (Orders.calculateTotal (Orders.editedItems st))
          else order).
Proof.
  intros Hsel Hnth. unfold Orders.saveModifiedOrder. rewrite Hsel.
  cbn [Orders.orders Orders.showMessage Orders.setSelectedOrder
       Orders.setShowOrderDetails Orders.storeOrders Orders.setAllOrders
       Orders.setOrders].
  now rewrite (map_nth_error _ _ _ Hnth).
Qed.

(** C5.  (1) Every edit of a line in the edit form (name, quantity or
    price) leaves the order selected, under its id and with as many lines,
    with a total equal to the sum of price times quantity over its lines.
    (2) Whatever the user did in the
    form, lines edited or removed, saving keeps every active order at its
    position: an order with another id is stored as it was, and an order
    with the selected id is stored under that id with the lines of the
    form and, as total, the sum of price times quantity over them; the
    historical list and the persisted collection are the active list so
    saved.  (3) A placed order carries the cart as its lines, the mode as
    [isComplimentary], and as total 0 in complimentary mode and otherwise
    the sum of price times quantity over the cart, for every cart the page
    can hold (its lines carry menu prices, which are whole cents, so
    writing the sum with two decimals does not change it); the store holds
    that total as the number 0 in complimentary mode and otherwise as the
    text that writes the sum with two decimals. *)
Theorem total_is_sum_of_lines :
  (forall (st : Orders.State) (itemId : Z) (updates : Orders.ItemUpdate)
          (sel : Order),
      Orders.selectedOrder st = Some sel ->
      exists sel' : Order,
        Orders.selectedOrder (Orders.updateOrderItem itemId updates st)
        = Some sel' /\
        id sel' = id sel /\
        length (items sel') = length (items sel) /\
        (total sel' == sumQ (map lineAmount (items sel')))%Q) /\
  (forall (st : Orders.State) (sel : Order) (steps : list Orders.EditStep),
      Orders.selectedOrder st = Some sel ->
      let edited := fold_left Orders.editStep steps st in
      let st' := Orders.saveModifiedOrder edited in
      Orders.allOrders st' = Orders.orders st' /\
      Orders.ls_orders st' = Some (Orders.orders st') /\
      forall (n : nat) (order : Order),
        nth_error (Orders.orders st) n = Some order ->
        exists saved : Order,
          nth_error (Orders.orders st') n = Some saved /\
          (id order <> id sel -> saved = order) /\
          (id order = id sel ->
           id saved = id sel /\
           items saved = Orders.editedItems edited /\
           (total saved == sumQ (map lineAmount (items saved)))%Q)) /\
  (forall (now : Z) (pst : Pos.State),
      Pos.reachable pst ->
      let placed := Pos.newOrder now pst in
      items placed = Pos.cart pst /\
      isComplimentary placed = Pos.isComplimentaryMode pst /\
      (total placed
       == if isComplimentary placed then 0
          else sumQ (map lineAmount (items placed)))%Q /\
      typed (Pos.placedOrder now pst) = placed /\
      storedTotal (Pos.placedOrder now pst)
      = if isComplimentary placed then JsNum (Finite 0)
        else JsText (toFixed2_text (sumQ (map lineAmount (items placed))))).
Proof.
  split; [| split].
  - intros st itemId updates sel Hsel.
    unfold Orders.updateOrderItem. rewrite Hsel.
    eexists. split; [reflexivity |].
    cbn [id items total with_items_total].
    split; [reflexivity |]. split; [apply length_map |].
    apply itemsTotal_sum.
  - intros st sel steps Hsel edited st'.
    destruct (editSteps_selected steps st sel Hsel) as [sel' [Hsel' Hid']].
    fold edited in Hsel'.
    split; [| split].
    + subst st'. unfold Orders.saveModifiedOrder. now rewrite Hsel'.
    + subst st'. unfold Orders.saveModifiedOrder. now rewrite Hsel'.
    + intros n order Hnth.
      assert (Hnth' : nth_error (Orders.orders edited) n = Some order).
      { subst edited. now rewrite editSteps_orders. }
      eexists. split.
      { subst st'. apply (saveModifiedOrder_at edited sel' order n Hsel' Hnth'). }
      rewrite Hid'. split.
      * intros Hother. apply Z.eqb_neq in Hother. now rewrite Hother.
      * intros Hsame. apply Z.eqb_eq in Hsame. rewrite Hsame.
        cbn [id items total with_items_notes_total].
        split; [assumption |]. split; [reflexivity |].
        apply itemsTotal_sum.
  - intros now pst Hreach placed. subst placed.
    split; [reflexivity |]. split; [reflexivity |].
    cbn [items isComplimentary total Pos.newOrder].
    split; [| split; [reflexivity |]].
    + destruct (Pos.isComplimentaryMode pst) eqn:Hmode.
      * unfold Pos.calculateTotal. rewrite Hmode. reflexivity.
      * apply calculateTotal_paid; [| assumption].
        now apply reachable_cart_wholeCents.
    + apply placedOrder_storedTotal.
      now apply reachable_cart_wholeCents.
Qed.

Lemma total_is_sum_of_lines_witness :
  (total (Pos.newOrder 2000 Examples.posAfterSession) == 7)%Q /\
  (total (Pos.newOrder 2000 (Pos.toggleServiceMode Examples.posAfterSession))
   == 0)%Q /\
  exists saved : Order,
    nth_error
      (Orders.orders
         (Orders.saveModifiedOrder
            (fold_left Orders.editStep Examples.formSteps
               (Orders.modifyOrder 1 Examples.pageWithLines))))
      0
    = Some saved /\
    id saved = 1%Z /\
    items saved = [Examples.espresso2] /\
    (total saved == 5)%Q.
Proof.
  destruct total_is_sum_of_lines as (_ & Hsave & Hplace).
  assert (Hreach : Pos.reachable Examples.posAfterSession).
  { apply reachable_session; [constructor |].
    repeat constructor; cbn; tauto. }
  split; [| split].
  - destruct (Hplace 2000%Z Examples.posAfterSession Hreach)
      as (_ & _ & Htotal & _).
    rewrite Htotal. reflexivity.
  - destruct (Hplace 2000%Z (Pos.toggleServiceMode Examples.posAfterSession)
                (Pos.reachable_step _ Pos.ToggleServiceMode Hreach I))
      as (_ & _ & Htotal & _).
    rewrite Htotal. reflexivity.
  - destruct (Hsave (Orders.modifyOrder 1 Examples.pageWithLines)
                Examples.orderWithLines Examples.formSteps eq_refl)
      as (_ & _ & Hat).
    destruct (Hat 0%nat Examples.orderWithLines eq_refl)
      as (saved & Hnth & _ & Hsaved).
    destruct (Hsaved eq_refl) as (Hid & Hitems & Htotal).
    exists saved. split; [exact Hnth |]. split; [exact Hid |].
    split; [rewrite Hitems; vm_compute; reflexivity |].
    rewrite Htotal, Hitems. vm_compute. reflexivity.
Defined.

(** The session above, computed: the saved order keeps the two espressos
    of the form (the quantity typed in the line input reached the selected
    order only), with the note and the matching total. *)
Example saved_order_after_form :
  map (fun saved => (map quantity (items saved), total saved, notes saved))
    (Orders.orders Examples.pageAfterForm)
  = [([2%Z], (10 # 2)%Q, Some "no lid")] /\
  Pos.cart Examples.posAfterSession
  = [Examples.espresso2; Examples.croissant1].
Proof. split; vm_compute; reflexivity. Qed.

(** ** Sales totals and the average order value (C7) *)

Definition paid (order : Order) : bool := negb (isComplimentary order).

Lemma totalSales_sum (l : list Order) :
  (Reports.totalSales l == sumQ (map Reports.revenue l))%Q.
Proof.
  unfold Reports.totalSales. rewrite fold_left_sum_acc. apply Qplus_0_l.
Qed.

(** Complimentary orders add nothing: the revenue of a list is the sum of
    the totals of its paid orders. *)
Lemma revenue_sum_paid (l : list Order) :
  (sumQ (map Reports.revenue l) == sumQ (map total (List.filter paid l)))%Q.
Proof.
  induction l as [| order l IH]; cbn; [reflexivity |].
  unfold Reports.revenue at 1, paid at 1.
  destruct (isComplimentary order); cbn.
  - now rewrite Qplus_0_l.
  - now rewrite IH.
Qed.

Lemma filter_paid_all_complimentary (l : list Order) :
  forallb isComplimentary l = true -> List.filter paid l = [].
Proof.
  induction l as [| order l IH]; cbn; [reflexivity |].
  intros H. apply andb_prop in H. destruct H as [Hc Hl].
  unfold paid at 1. rewrite Hc. cbn. now apply IH.
Qed.

(** On totals that are numbers, which is how [Reports] reads them: the
    average order value is the sum of the totals of the paid
    (non-complimentary) orders divided by their number, and 0 when there
    is none. *)
Lemma averageOrderValue_of_numbers :
  forall filtered : list Order,
    let paidOrders := List.filter paid filtered in
    (Reports.totalSales filtered == sumQ (map total paidOrders))%Q /\
    (length paidOrders = 0%nat -> Reports.averageOrderValue filtered = 0%Q) /\
    (length paidOrders <> 0%nat ->
     (Reports.averageOrderValue filtered
      == sumQ (map total paidOrders) / inject_Z (Z.of_nat (length paidOrders)))%Q) /\
    (forallb isComplimentary filtered = true ->
     Reports.averageOrderValue filtered = 0%Q) /\
    Reports.averageOrderValue [] = 0%Q.
Proof.
  intros filtered paidOrders.
  assert (Hsales :
            (Reports.totalSales filtered == sumQ (map total paidOrders))%Q).
  { rewrite totalSales_sum. apply revenue_sum_paid. }
  assert (Hzero : length paidOrders = 0%nat ->
                  Reports.averageOrderValue filtered = 0%Q).
  { intros Hlen. unfold Reports.averageOrderValue.
    fold paid. fold paidOrders. now rewrite Hlen. }
  repeat split.
  - exact Hsales.
  - exact Hzero.
  - intros Hlen. unfold Reports.averageOrderValue.
    fold paid. fold paidOrders.
    destruct (Z.ltb_spec 0 (Z.of_nat (length paidOrders))) as [_ | Hle];
      [| lia].
    now rewrite Hsales.
  - intros Hall. apply Hzero. subst paidOrders.
    now rewrite filter_paid_all_complimentary.
Qed.

(** *** Stores whose totals are numbers

    An order adds a number to a report when it is complimentary or its
    total is stored as a number; on such orders the report code computes
    what [Reports] says. *)
Definition numericTotal (order : StoredOrder) : Prop :=
  isComplimentary (typed order) = true \/ totalForm order = asNumber.

Definition textTotal (order : StoredOrder) : Prop :=
  isComplimentary (typed order) = false /\ totalForm order = asText.

Definition liftQ (q : Q) : JsValue := JsNum (Finite q).

Section NumericStores.

Variable Number_toString : Q -> string.

Lemma revenue_of_number (order : StoredOrder) :
  numericTotal order ->
  StoredReports.revenue order = liftQ (Reports.revenue (typed order)).
Proof.
  unfold numericTotal, StoredReports.revenue, Reports.revenue, storedTotal.
  intros [Hcompl | Hform].
  - now rewrite Hcompl.
  - rewrite Hform. now destruct (isComplimentary (typed order)).
Qed.

Lemma fold_plus_numbers (l : list StoredOrder) :
  List.Forall numericTotal l ->
  forall acc : Q,
    fold_left
      (fun sum order =>
         StoredReports.js_plus Number_toString sum (StoredReports.revenue order))
      l (liftQ acc)
    = liftQ
        (fold_left (fun sum order => (sum + Reports.revenue order)%Q)
           (map typed l) acc).
Proof.
  induction 1 as [| order l Hnum _ IH]; intros acc; cbn [fold_left map].
  - reflexivity.
  - rewrite (revenue_of_number order Hnum). apply IH.
Qed.

Lemma totalSales_of_numbers (l : list StoredOrder) :
  List.Forall numericTotal l ->
  StoredReports.totalSales Number_toString l
  = liftQ (Reports.totalSales (map typed l)).
Proof.
  intros Hnum. apply (fold_plus_numbers l Hnum 0%Q).
Qed.

Lemma filter_typed (f : Order -> bool) (l : list StoredOrder) :
  List.filter f (map typed l)
  = map typed (List.filter (fun order => f (typed order)) l).
Proof.
  induction l as [| order l IH]; cbn; [reflexivity |].
  destruct (f (typed order)); cbn; now rewrite IH.
Qed.

Lemma averageOrderValue_of_number_store (l : list StoredOrder) :
  List.Forall numericTotal l ->
  exists q : Q,
    StoredReports.averageOrderValue Number_toString l = Finite q /\
    (q == Reports.averageOrderValue (map typed l))%Q.
Proof.
  intros Hnum.
  unfold StoredReports.averageOrderValue, Reports.averageOrderValue.
  rewrite (totalSales_of_numbers l Hnum).
  rewrite (filter_typed (fun order => negb (isComplimentary order)) l).
  rewrite length_map.
  set (paidOrders :=
         List.filter (fun order => negb (isComplimentary (typed order))) l).
  destruct (Z.ltb_spec 0 (Z.of_nat (length paidOrders))) as [Hpos | Hle].
  - cbn [ToNumber liftQ num_div]. unfold js_div.
    destruct (Qeq_bool (inject_Z (Z.of_nat (length paidOrders))) 0) eqn:Hzero.
    + apply Qeq_bool_iff in Hzero.
      unfold Qeq in Hzero. cbn in Hzero. lia.
    + eexists. split; reflexivity.
  - exists 0%Q. split; reflexivity.
Qed.

(** A paid order whose total is stored as a text turns every sum it
    enters into a text. *)
Lemma revenue_of_text (order : StoredOrder) :
  textTotal order ->
  StoredReports.revenue order = JsText (toFixed2_text (total (typed order))).
Proof.
  unfold textTotal, StoredReports.revenue, storedTotal.
  intros [Hpaid Hform]. now rewrite Hpaid, Hform.
Qed.

Lemma fold_plus_from_text (l : list StoredOrder) :
  forall text : string,
  exists text' : string,
    fold_left
      (fun sum order =>
         StoredReports.js_plus Number_toString sum (StoredReports.revenue order))
      l (JsText text)
    = JsText text'.
Proof.
  induction l as [| order l IH]; intros text; cbn [fold_left].
  - now exists text.
  - cbn [StoredReports.js_plus]. apply IH.
Qed.

Lemma fold_plus_with_text (l : list StoredOrder) :
  List.Exists textTotal l ->
  forall acc : JsValue,
  exists text : string,
    fold_left
      (fun sum order =>
         StoredReports.js_plus Number_toString sum (StoredReports.revenue order))
      l acc
    = JsText text.
Proof.
  induction 1 as [order l Htext | order l _ IH]; intros acc; cbn [fold_left].
  - rewrite (revenue_of_text order Htext).
    destruct acc; cbn [StoredReports.js_plus]; apply fold_plus_from_text.
  - apply IH.
Qed.

End NumericStores.

(** C7, on the orders as the order-entry page stores them.  The page
    stores the total of a paid order as the text [toFixed(2)] returns
    ('7.00' for the order of the sample session), so [totalSales] writes
    the totals side by side instead of adding them: for the paid orders of
    7.00 and 3.50 it is the text '07.003.50' and the average order value
    is [NaN], where the sum is 10.50 and the mean 5.25; for the paid
    orders of 7.00 (a text) and 10 (a number) it is the text '07.0010' and
    the average order value is 3.5005, where the sum is 17 and the mean
    8.50.  The totals the report code reads are the numbers 7, 7/2 and
    10. *)
Theorem averageOrderValue_of_stored_text_totals :
  let pair := [Examples.storedPlaced; Examples.storedLatte] in
  let mixed := [Examples.storedPlaced; Examples.storedEdited] in
  storedTotal Examples.storedPlaced = JsText "7.00" /\
  storedTotal Examples.storedLatte = JsText "3.50" /\
  storedTotal Examples.storedEdited = JsNum (Finite 10) /\
  List.Forall (fun order => isComplimentary (typed order) = false)
    (pair ++ mixed) /\
  (sumQ (map total (map typed pair)) == 21 # 2)%Q /\
  (sumQ (map total (map typed mixed)) == 17)%Q /\
  StoredReports.totalSales Examples.Number_toString pair = JsText "07.003.50" /\
  StoredReports.averageOrderValue Examples.Number_toString pair = NaN /\
  StoredReports.totalSales Examples.Number_toString mixed = JsText "07.0010" /\
  exists q : Q,
    StoredReports.averageOrderValue Examples.Number_toString mixed = Finite q /\
    (q == 35005 # 10000)%Q /\
    ~ (q == 17 / 2)%Q.
Proof.
  cbv zeta.
  repeat (split; [vm_compute; try reflexivity; repeat constructor |]).
  eexists. split; [vm_compute; reflexivity |].
  split; [reflexivity | discriminate].
Qed.

(** ** Growth figures (C8) *)

Lemma growth_self_zero (x : Q) :
  Qeq_bool x 0 = true -> Reports.growth x x = NaN.
Proof.
  intros Hx. unfold Reports.growth, js_div. rewrite Hx.
  assert (Hdiff : Qeq_bool (x - x) 0 = true).
  { apply Qeq_bool_iff. unfold Qminus. apply Qplus_opp_r. }
  now rewrite Hdiff.
Qed.

Lemma growth_self_nonzero (x : Q) :
  Qeq_bool x 0 = false ->
  exists q : Q, Reports.growth x x = Finite q /\ (q == 0)%Q.
Proof.
  intros Hx. unfold Reports.growth, js_div. rewrite Hx. cbn.
  eexists. split; [reflexivity |].
  unfold Qminus. rewrite Qplus_opp_r. reflexivity.
Qed.

(** The first point of a trend series is compared with itself. *)
Lemma first_point_growth (p : Reports.DayPoint) (rest : list Reports.DayPoint) :
  exists (m : Reports.TrendMetrics) (ms : list Reports.TrendMetrics),
    Reports.enhancedSalesTrend (p :: rest) = m :: ms /\
    Reports.salesGrowth m = Reports.growth (Reports.sales p) (Reports.sales p) /\
    Reports.ordersGrowth m
    = Reports.growth (inject_Z (Reports.orders p)) (inject_Z (Reports.orders p)).
Proof.
  unfold Reports.enhancedSalesTrend, Array_map_index.
  cbn [map_index_from]. do 2 eexists. split; [reflexivity |].
  split; reflexivity.
Qed.

(** On the series as the store gives it, the first point is compared with
    itself as well. *)
Lemma stored_first_point_growth (Number_toString : Q -> string)
    (p : StoredReports.DayPoint) (rest : list StoredReports.DayPoint) :
  exists (m : StoredReports.TrendMetrics) (ms : list StoredReports.TrendMetrics),
    StoredReports.enhancedSalesTrend Number_toString (p :: rest) = m :: ms /\
    StoredReports.salesGrowth m
    = js_scale
        (num_div
           (num_sub (ToNumber (StoredReports.sales p))
              (ToNumber (StoredReports.sales p)))
           (ToNumber (StoredReports.sales p)))
        100.
Proof.
  unfold StoredReports.enhancedSalesTrend, Array_map_index.
  cbn [map_index_from]. do 2 eexists. split; reflexivity.
Qed.

(** X3.  Where the first growth value is the 0 the specification asks
    for: the sales of the first day are a number other than 0, or a text
    that writes such a number (the sales of a day with one paid order, as
    the order-entry page stores it, are such a text: '07.00'). *)
Lemma first_growth_zero_when_first_day_sells (Number_toString : Q -> string)
    (p : StoredReports.DayPoint) (rest : list StoredReports.DayPoint) (x : Q) :
  ToNumber (StoredReports.sales p) = Finite x ->
  Qeq_bool x 0 = false ->
  exists (m : StoredReports.TrendMetrics) (ms : list StoredReports.TrendMetrics)
         (q : Q),
    StoredReports.enhancedSalesTrend Number_toString (p :: rest) = m :: ms /\
    StoredReports.salesGrowth m = Finite q /\ (q == 0)%Q.
Proof.
  intros Hnumber Hx.
  destruct (stored_first_point_growth Number_toString p rest)
    as (m & ms & Heq & Hs).
  destruct (growth_self_nonzero _ Hx) as (q & Hq & Hq0).
  exists m, ms, q. rewrite Hs, Hnumber. now repeat split.
Qed.

Lemma first_growth_zero_when_first_day_sells_witness :
  exists (m : StoredReports.TrendMetrics) (ms : list StoredReports.TrendMetrics)
         (q : Q),
    StoredReports.enhancedSalesTrend Examples.Number_toString
      [StoredReports.mkDayPoint 0 (JsText "07.00") 1;
       StoredReports.mkDayPoint 1 (JsNum (Finite 20)) 1]
    = m :: ms /\
    StoredReports.salesGrowth m = Finite q /\ (q == 0)%Q.
Proof.
  apply (first_growth_zero_when_first_day_sells Examples.Number_toString
           (StoredReports.mkDayPoint 0 (JsText "07.00") 1)
           [StoredReports.mkDayPoint 1 (JsNum (Finite 20)) 1] (700 # 100)).
  - vm_compute. reflexivity.
  - reflexivity.
Defined.

(** Where it is not: a first day without sales gives 0/0. *)
Lemma first_growth_NaN_when_first_day_empty (p : Reports.DayPoint)
    (rest : list Reports.DayPoint) :
  Qeq_bool (Reports.sales p) 0 = true ->
  exists (m : Reports.TrendMetrics) (ms : list Reports.TrendMetrics),
    Reports.enhancedSalesTrend (p :: rest) = m :: ms /\
    Reports.salesGrowth m = NaN.
Proof.
  intros Hp. destruct (first_point_growth p rest) as (m & ms & Heq & Hs & _).
  exists m, ms. rewrite Hs. split; [assumption |].
  now apply growth_self_zero.
Qed.

(** C8, the code at a failing input.  Over a one-day range with no order
    the daily series is the single zero-filled day, and the growth values
    of its first (and only) point are not 0: both are NaN. *)
Theorem first_growth_of_empty_day_is_NaN :
  Reports.salesData Examples.oneDay [] = [Reports.mkDayPoint 0 0 0] /\
  map Reports.salesGrowth
    (Reports.enhancedSalesTrend (Reports.salesData Examples.oneDay []))
  = [NaN] /\
  map Reports.ordersGrowth
    (Reports.enhancedSalesTrend (Reports.salesData Examples.oneDay []))
  = [NaN] /\
  NaN <> Finite 0.
Proof. repeat split. discriminate. Qed.

(** The revenue of the stored orders a test on the order selects, when
    the totals that count are numbers. *)
Lemma selected_sales_of_numbers (Number_toString : Q -> string)
    (selects : Order -> bool) (orders_ : list StoredOrder) :
  List.Forall numericTotal orders_ ->
  exists s : Q,
    StoredReports.totalSales Number_toString
      (List.filter (fun order => selects (typed order)) orders_)
    = JsNum (Finite s) /\
    (s == sumQ (map total
                  (List.filter paid (List.filter selects (map typed orders_)))))%Q.
Proof.
  intros Hnum.
  assert (Hselected :
            List.Forall numericTotal
              (List.filter (fun order => selects (typed order)) orders_)).
  { apply List.Forall_forall. intros order Hin.
    apply filter_In in Hin. destruct Hin as [Hin _].
    now apply (proj1 (List.Forall_forall _ _) Hnum). }
  rewrite (totalSales_of_numbers Number_toString _ Hselected).
  eexists. split; [reflexivity |].
  rewrite <- filter_typed. rewrite totalSales_sum. apply revenue_sum_paid.
Qed.

(** X1.  [salesGrowthRate] on a store whose totals are numbers (as the
    edit form of the orders page writes them; complimentary orders count
    for 0 whatever they hold).  The revenue of the range, the sum of the
    totals of the paid orders placed from [start] to [end], is compared
    with the revenue of the orders placed from [start - (end - start)] on
    and before [start]: the rate is 100 when that earlier revenue is 0,
    and otherwise (current - earlier) / earlier * 100.  The range of a day
    ends one millisecond before midnight, so the earlier window starts one
    millisecond after the previous midnight: an order placed at the first
    millisecond of the previous day is not counted. *)
Theorem salesGrowthRate_against_previous_period :
  forall (Number_toString : Q -> string) (orders_ : list StoredOrder)
         (r : Reports.DateRange),
    List.Forall numericTotal orders_ ->
    let current :=
      sumQ (map total
              (List.filter paid
                 (List.filter
                    (fun order =>
                       (Reports.start r <=? timestamp order)%Z
                       && (timestamp order <=? Reports.end_ r)%Z)
                    (map typed orders_)))) in
    let previous :=
      sumQ (map total
              (List.filter paid
                 (List.filter
                    (fun order =>
                       (Reports.start r - (Reports.end_ r - Reports.start r)
                        <=? timestamp order)%Z
                       && (timestamp order <? Reports.start r)%Z)
                    (map typed orders_)))) in
    ((previous == 0)%Q ->
     StoredReports.salesGrowthRate Number_toString orders_ r = Finite 100) /\
    (~ (previous == 0)%Q ->
     exists q : Q,
       StoredReports.salesGrowthRate Number_toString orders_ r = Finite q /\
       (q == (current - previous) / previous * 100)%Q) /\
    (forall now : Z,
       r = Reports.todayRange now ->
       (Reports.start r - (Reports.end_ r - Reports.start r))%Z
       = (Reports.startOfDay now - Reports.msPerDay + 1)%Z).
Proof.
  intros Number_toString orders_ r Hnum current previous.
  destruct (selected_sales_of_numbers Number_toString
              (fun order =>
                 (Reports.start r <=? timestamp order)%Z
                 && (timestamp order <=? Reports.end_ r)%Z)
              orders_ Hnum) as (c & Hc & Hcur).
  destruct (selected_sales_of_numbers Number_toString
              (fun order =>
                 (Reports.start r - (Reports.end_ r - Reports.start r)
                  <=? timestamp order)%Z
                 && (timestamp order <? Reports.start r)%Z)
              orders_ Hnum) as (e & He & Hprev).
  fold current in Hcur. fold previous in Hprev.
  unfold StoredReports.salesGrowthRate.
  change (StoredReports.filteredOrders orders_ r)
    with (List.filter
            (fun order =>
               (Reports.start r <=? timestamp (typed order))%Z
               && (timestamp (typed order) <=? Reports.end_ r)%Z)
            orders_).
  unfold StoredReports.previousPeriodOrders. cbv zeta.
  rewrite Hc, He.
  cbn [js_not_zero ToNumber num_sub num_neg num_add num_div].
  unfold js_div.
  split; [| split].
  - intros Hzero.
    assert (Hb : Qeq_bool e 0 = true).
    { apply Qeq_bool_iff. now rewrite Hprev. }
    now rewrite Hb.
  - intros Hnonzero.
    assert (Hb : Qeq_bool e 0 = false).
    { apply not_true_is_false. intros Hb. apply Qeq_bool_iff in Hb.
      apply Hnonzero. now rewrite <- Hprev. }
    rewrite Hb. cbn [negb js_scale].
    eexists. split; [reflexivity |].
    rewrite Hcur, Hprev. reflexivity.
  - intros now ->.
    cbn [Reports.start Reports.end_ Reports.todayRange].
    unfold Reports.endOfDay. lia.
Qed.

(** A day with one order of 10, after a day with one order of 10 placed
    at its first millisecond: the rate is 100, not 0. *)
Lemma salesGrowthRate_against_previous_period_witness :
  StoredReports.salesGrowthRate Examples.Number_toString
    [mkStoredOrder
       (Examples.sampleOrder 2 "Completed" (Reports.msPerDay + 1000) 10 false
          None)
       asNumber;
     mkStoredOrder (Examples.sampleOrder 1 "Completed" 0 10 false None)
       asNumber]
    (Reports.todayRange (Reports.msPerDay + 5000))
  = Finite 100.
Proof.
  destruct (salesGrowthRate_against_previous_period Examples.Number_toString
              [mkStoredOrder
                 (Examples.sampleOrder 2 "Completed" (Reports.msPerDay + 1000)
                    10 false None)
                 asNumber;
               mkStoredOrder
                 (Examples.sampleOrder 1 "Completed" 0 10 false None)
                 asNumber]
              (Reports.todayRange (Reports.msPerDay + 5000)))
    as [Hzero _].
  - apply List.Forall_cons; [right; reflexivity |].
    apply List.Forall_cons; [right; reflexivity | apply List.Forall_nil].
  - apply Hzero. reflexivity.
Defined.

(** ** Data import (C9) *)

(** An upload that does not parse, or parses to [null], is refused whole:
    an error message, and the store and the loaded lists as they were. *)
Theorem import_of_unparsable_document_changes_nothing :
  forall (JSON_parse : string -> option DataImport.json)
         (JSON_stringify : DataImport.json -> string)
         (text : string) (st : DataImport.State),
    JSON_parse text = None \/ JSON_parse text = Some DataImport.JNull ->
    let st' := DataImport.importData JSON_parse JSON_stringify (Some text) st in
    DataImport.localStorage st' = DataImport.localStorage st /\
    DataImport.loaded st' = DataImport.loaded st /\
    DataImport.message st'
    = Some ("Error importing data. Please check the file format.",
            DataImport.error).
Proof.
  intros JSON_parse JSON_stringify text st Hparse st'. subst st'.
  unfold DataImport.importData, DataImport.tryImport.
  destruct Hparse as [-> | ->]; cbn; repeat split.
Qed.

Lemma import_of_unparsable_document_changes_nothing_witness :
  DataImport.localStorage
    (DataImport.importData Examples.parseSample Examples.stringifySample
       (Some "null") Examples.importPage)
  = Examples.storeBefore.
Proof.
  destruct (import_of_unparsable_document_changes_nothing
              Examples.parseSample Examples.stringifySample "null"
              Examples.importPage (or_intror eq_refl)) as [Hstore _].
  exact Hstore.
Defined.

Lemma loadOrders_localStorage
    (JSON_parse : string -> option DataImport.json) (st : DataImport.State) :
  DataImport.localStorage (DataImport.loadOrders JSON_parse st)
  = DataImport.localStorage st.
Proof. unfold DataImport.loadOrders. now destruct (JSON_parse _). Qed.

Lemma loadOrders_message
    (JSON_parse : string -> option DataImport.json) (st : DataImport.State) :
  DataImport.message (DataImport.loadOrders JSON_parse st)
  = DataImport.message st.
Proof. unfold DataImport.loadOrders. now destruct (JSON_parse _). Qed.

(** Any other upload is imported, whatever its shape: a document that
    parses to an object without an [orders] member overwrites the [orders]
    slot with the text "undefined" and reports success. *)
Lemma import_without_orders_member
    (JSON_parse : string -> option DataImport.json)
    (JSON_stringify : DataImport.json -> string)
    (text : string) (members : list (string * DataImport.json))
    (st : DataImport.State) :
  JSON_parse text = Some (DataImport.JObject members) ->
  DataImport.member "orders" members = None ->
  let st' := DataImport.importData JSON_parse JSON_stringify (Some text) st in
  DataImport.localStorage st' !! "orders" = Some "undefined" /\
  DataImport.message st'
  = Some ("Data imported successfully", DataImport.success).
Proof.
  intros Hparse Hmember st'. subst st'.
  unfold DataImport.importData, DataImport.tryImport.
  rewrite Hparse. cbn [DataImport.property]. rewrite Hmember.
  split; [| reflexivity].
  cbn [DataImport.showMessage DataImport.localStorage].
  rewrite loadOrders_localStorage.
  cbn [DataImport.setItem DataImport.localStorage DataImport.storedText].
  rewrite lookup_insert_ne by discriminate.
  rewrite lookup_insert_ne by discriminate.
  apply lookup_insert_eq.
Qed.

(** C9, the code at a failing input.  The document [{}] has no [orders]
    member and not the shape of an export; importing it over a store whose
    [orders] slot holds [[]] reports success, leaves the text "undefined"
    in all three slots, and the reload of the orders that follows fails. *)
Theorem import_of_empty_object_overwrites_store :
  DataImport.hasExportShape (Examples.parseSample "{}") = false /\
  Examples.storeBefore !! "orders" = Some "[]" /\
  DataImport.localStorage
    (DataImport.importData Examples.parseSample Examples.stringifySample
       (Some "{}") Examples.importPage) !! "orders" = Some "undefined" /\
  DataImport.localStorage
    (DataImport.importData Examples.parseSample Examples.stringifySample
       (Some "{}") Examples.importPage) !! "systemPreferences"
  = Some "undefined" /\
  DataImport.localStorage
    (DataImport.importData Examples.parseSample Examples.stringifySample
       (Some "{}") Examples.importPage) !! "inventory" = Some "undefined" /\
  DataImport.message
    (DataImport.importData Examples.parseSample Examples.stringifySample
       (Some "{}") Examples.importPage)
  = Some ("Data imported successfully", DataImport.success) /\
  DataImport.loadError
    (DataImport.importData Examples.parseSample Examples.stringifySample
       (Some "{}") Examples.importPage)
  = Some "Failed to load orders. Please try again.".
Proof. repeat split; vm_compute; reflexivity. Qed.

(** ** The daily series (C6) *)

(** *** Objects whose keys are a list of distinct days *)

Definition tabulate {V : Type} (f : Z -> V) (days : list Z) : list (Z * V) :=
  map (fun d => (d, f d)) days.

Lemma obj_get_absent {V : Type} (o : list (Z * V)) (d : Z) :
  ~ In d (map fst o) -> Reports.obj_get d o = None.
Proof.
  induction o as [| [k v] o IH]; cbn; intros Hd; [reflexivity |].
  destruct (Z.eqb_spec d k) as [-> | Hne].
  - exfalso. apply Hd. now left.
  - apply IH. intros Hin. apply Hd. now right.
Qed.

Lemma obj_set_absent {V : Type} (o : list (Z * V)) (d : Z) (v : V) :
  ~ In d (map fst o) -> Reports.obj_set d v o = o ++ [(d, v)].
Proof.
  induction o as [| [k w] o IH]; cbn; intros Hd; [reflexivity |].
  destruct (Z.eqb_spec d k) as [-> | Hne].
  - exfalso. apply Hd. now left.
  - rewrite IH; [reflexivity |]. intros Hin. apply Hd. now right.
Qed.

Lemma tabulate_keys {V : Type} (f : Z -> V) (days : list Z) :
  map fst (tabulate f days) = days.
Proof.
  unfold tabulate. rewrite map_map. cbn. apply map_id.
Qed.

(** Setting distinct fresh keys one after the other appends them in turn. *)
Lemma init_days {V : Type} (zero : Z -> V) (days : list Z) :
  List.NoDup days ->
  forall acc : list (Z * V),
    (forall d, In d days -> ~ In d (map fst acc)) ->
    fold_left (fun data day => Reports.obj_set day (zero day) data) days acc
    = acc ++ tabulate zero days.
Proof.
  induction 1 as [| d days Hd Hnodup IH]; intros acc Hfresh; cbn.
  - now rewrite app_nil_r.
  - rewrite obj_set_absent by (apply Hfresh; now left).
    rewrite IH.
    + now rewrite <- app_assoc.
    + intros d' Hd'. rewrite map_app, in_app_iff. cbn.
      intros [Hin | [<- | []]].
      * apply (Hfresh d'); [now right | assumption].
      * contradiction.
Qed.

Lemma obj_get_tabulate {V : Type} (f : Z -> V) (days : list Z) (d : Z) :
  In d days -> Reports.obj_get d (tabulate f days) = Some (f d).
Proof.
  induction days as [| a days IH]; cbn; intros Hin; [contradiction |].
  destruct (Z.eqb_spec d a) as [-> | Hne]; [reflexivity |].
  destruct Hin as [-> | Hin]; [contradiction | now apply IH].
Qed.

Lemma obj_set_tabulate {V : Type} (f : Z -> V) (days : list Z) (k : Z) (v : V) :
  List.NoDup days ->
  In k days ->
  Reports.obj_set k v (tabulate f days)
  = tabulate (fun d => if (d =? k)%Z then v else f d) days.
Proof.
  induction 1 as [| a days Ha Hnodup IH]; cbn; intros Hin; [contradiction |].
  destruct (Z.eqb_spec k a) as [-> | Hne].
  - rewrite Z.eqb_refl. f_equal.
    apply map_ext_in. intros d Hd.
    destruct (Z.eqb_spec d a) as [-> | _]; [contradiction | reflexivity].
  - destruct Hin as [-> | Hin]; [contradiction |].
    destruct (Z.eqb_spec a k) as [-> | _]; [contradiction |].
    f_equal. now apply IH.
Qed.

(** *** The days of a range *)

Definition firstDay (r : Reports.DateRange) : Z := Reports.dayOf (Reports.start r).

Definition lastDay (r : Reports.DateRange) : Z := Reports.dayOf (Reports.end_ r).

Definition daysInRange (r : Reports.DateRange) : nat :=
  Z.to_nat (lastDay r - firstDay r + 1).

Lemma dayOf_monotone (a b : Z) :
  (a <= b)%Z -> (Reports.dayOf a <= Reports.dayOf b)%Z.
Proof.
  intros Hab. unfold Reports.dayOf, Reports.msPerDay.
  apply Z.div_le_mono; lia.
Qed.

Lemma in_eachDayOfInterval (r : Reports.DateRange) (d : Z) :
  In d (Reports.eachDayOfInterval r) <-> (firstDay r <= d <= lastDay r)%Z.
Proof.
  unfold Reports.eachDayOfInterval. fold (firstDay r) (lastDay r).
  rewrite in_map_iff. split.
  - intros [k [<- Hk]]. apply in_seq in Hk. lia.
  - intros Hd. exists (Z.to_nat (d - firstDay r)). split; [lia |].
    apply in_seq. lia.
Qed.

Lemma shifted_seq_NoDup (base : Z) (n : nat) :
  forall s : nat, List.NoDup (map (fun k => (base + Z.of_nat k)%Z) (seq s n)).
Proof.
  induction n as [| n IH]; intros s; cbn; constructor.
  - rewrite in_map_iff. intros [k [Heq Hk]]. apply in_seq in Hk. lia.
  - apply IH.
Qed.

Lemma eachDayOfInterval_NoDup (r : Reports.DateRange) :
  List.NoDup (Reports.eachDayOfInterval r).
Proof. apply shifted_seq_NoDup. Qed.

Lemma eachDayOfInterval_length (r : Reports.DateRange) :
  length (Reports.eachDayOfInterval r) = daysInRange r.
Proof.
  unfold Reports.eachDayOfInterval. now rewrite length_map, length_seq.
Qed.

Lemma eachDayOfInterval_nth (r : Reports.DateRange) (k : nat) :
  (k < daysInRange r)%nat ->
  nth_error (Reports.eachDayOfInterval r) k = Some (firstDay r + Z.of_nat k)%Z.
Proof.
  intros Hk. unfold Reports.eachDayOfInterval.
  fold (firstDay r) (lastDay r) (daysInRange r).
  apply (map_nth_error (fun j => (firstDay r + Z.of_nat j)%Z) k
           (seq 0 (daysInRange r))).
  rewrite nth_error_nth' with (d := 0%nat) by now rewrite length_seq.
  now rewrite seq_nth.
Qed.

Lemma filteredOrders_days (orders_ : list Order) (r : Reports.DateRange) :
  List.Forall
    (fun order =>
       In (Reports.dayOf (timestamp order)) (Reports.eachDayOfInterval r))
    (Reports.filteredOrders orders_ r).
Proof.
  apply List.Forall_forall. intros order Hin.
  apply filter_In in Hin. destruct Hin as [_ Hrange].
  unfold Reports.inRange in Hrange. apply andb_prop in Hrange.
  destruct Hrange as [Hlo Hhi].
  apply Z.leb_le in Hlo. apply Z.leb_le in Hhi.
  apply in_eachDayOfInterval. unfold firstDay, lastDay.
  split; now apply dayOf_monotone.
Qed.

(** *** Sorting a series that is already in date order *)

Lemma localeCompare_le (a b : Z) :
  (a <= b)%Z -> Qle_bool (Reports.localeCompare a b) 0 = true.
Proof.
  intros Hab. unfold Reports.localeCompare.
  destruct (Z.compare_spec a b); [reflexivity | reflexivity | lia].
Qed.

Lemma Array_sort_ascending {A : Type} (key : A -> Z) (l : list A) :
  Sorted (fun a b => (key a <= key b)%Z) l ->
  Array_sort (fun a b => Reports.localeCompare (key a) (key b)) l = l.
Proof.
  induction 1 as [| x l Hsorted IH Hhd]; cbn; [reflexivity |].
  unfold Array_sort in IH. rewrite IH.
  destruct Hhd as [| y l' Hxy]; cbn; [reflexivity |].
  now rewrite localeCompare_le.
Qed.

Lemma shifted_seq_Sorted {A : Type} (key : A -> Z) (g : Z -> A) (base : Z)
    (n : nat) :
  (forall d, key (g d) = d) ->
  forall s : nat,
    Sorted (fun a b => (key a <= key b)%Z)
      (map g (map (fun k => (base + Z.of_nat k)%Z) (seq s n))).
Proof.
  intros Hkey. induction n as [| n IH]; intros s; cbn; constructor.
  - apply IH.
  - destruct n; cbn; constructor. rewrite !Hkey. lia.
Qed.

(** *** What the loops compute for one day *)

Definition ordersOfDay (d : Z) (l : list Order) : list Order :=
  List.filter (fun order => (Reports.dayOf (timestamp order) =? d)%Z) l.

Definition cellStep (d : Z) (cell : Reports.DayCell) (order : Order)
  : Reports.DayCell :=
  if (Reports.dayOf (timestamp order) =? d)%Z
  then Reports.mkDayCell (Reports.cell_sales cell + Reports.revenue order)%Q
         (Reports.cell_orders cell + 1)%Z
  else cell.

Definition pointStep (d : Z) (point : Reports.DayPoint) (order : Order)
  : Reports.DayPoint :=
  if (Reports.dayOf (timestamp order) =? d)%Z
  then Reports.mkDayPoint (Reports.date point)
         (Reports.sales point + Reports.revenue order)%Q
         (Reports.orders point + 1)%Z
  else point.

Definition dayPoint (filtered : list Order) (d : Z) : Reports.DayPoint :=
  let cell := fold_left (cellStep d) filtered (Reports.mkDayCell 0 0) in
  Reports.mkDayPoint d (Reports.cell_sales cell) (Reports.cell_orders cell).

Lemma addOrder_tabulate (f : Z -> Reports.DayCell) (days : list Z)
    (order : Order) :
  List.NoDup days ->
  In (Reports.dayOf (timestamp order)) days ->
  Reports.addOrder (tabulate f days) order
  = tabulate (fun d => cellStep d (f d) order) days.
Proof.
  intros Hnodup Hin. unfold Reports.addOrder. cbv zeta.
  repeat (rewrite (obj_get_tabulate f days _ Hin); cbv beta iota).
  rewrite (obj_set_tabulate f days _ _ Hnodup Hin).
  apply map_ext. intros d. unfold cellStep.
  rewrite (Z.eqb_sym d).
  now destruct (Z.eqb_spec (Reports.dayOf (timestamp order)) d) as [<- | _].
Qed.

Lemma fold_addOrder_tabulate (days : list Z) (filtered : list Order) :
  List.NoDup days ->
  List.Forall (fun order => In (Reports.dayOf (timestamp order)) days)
    filtered ->
  forall f : Z -> Reports.DayCell,
    fold_left Reports.addOrder filtered (tabulate f days)
    = tabulate (fun d => fold_left (cellStep d) filtered (f d)) days.
Proof.
  intros Hnodup.
  induction 1 as [| order filtered Hin _ IH]; intros f; cbn [fold_left].
  - reflexivity.
  - rewrite (addOrder_tabulate f days order Hnodup Hin). apply IH.
Qed.

Lemma addOrderUnchecked_tabulate (f : Z -> Reports.DayPoint) (days : list Z)
    (order : Order) :
  List.NoDup days ->
  In (Reports.dayOf (timestamp order)) days ->
  Reports.addOrderUnchecked (Some (tabulate f days)) order
  = Some (tabulate (fun d => pointStep d (f d) order) days).
Proof.
  intros Hnodup Hin. unfold Reports.addOrderUnchecked. cbv zeta.
  rewrite (obj_get_tabulate f days _ Hin). cbv beta iota.
  rewrite (obj_set_tabulate f days _ _ Hnodup Hin).
  f_equal. apply map_ext. intros d. unfold pointStep.
  rewrite (Z.eqb_sym d).
  now destruct (Z.eqb_spec (Reports.dayOf (timestamp order)) d) as [<- | _].
Qed.

Lemma fold_addOrderUnchecked_tabulate (days : list Z) (filtered : list Order) :
  List.NoDup days ->
  List.Forall (fun order => In (Reports.dayOf (timestamp order)) days)
    filtered ->
  forall f : Z -> Reports.DayPoint,
    fold_left Reports.addOrderUnchecked filtered (Some (tabulate f days))
    = Some (tabulate (fun d => fold_left (pointStep d) filtered (f d)) days).
Proof.
  intros Hnodup.
  induction 1 as [| order filtered Hin _ IH]; intros f; cbn [fold_left].
  - reflexivity.
  - rewrite (addOrderUnchecked_tabulate f days order Hnodup Hin). apply IH.
Qed.

Lemma pointStep_cellStep (d : Z) (filtered : list Order) :
  forall (s : Q) (c : Z),
    fold_left (pointStep d) filtered (Reports.mkDayPoint d s c)
    = Reports.mkDayPoint d
        (Reports.cell_sales
           (fold_left (cellStep d) filtered (Reports.mkDayCell s c)))
        (Reports.cell_orders
           (fold_left (cellStep d) filtered (Reports.mkDayCell s c))).
Proof.
  induction filtered as [| order filtered IH]; intros s c; cbn.
  - reflexivity.
  - unfold pointStep at 2, cellStep at 2 4.
    destruct (Reports.dayOf (timestamp order) =? d)%Z; cbn; apply IH.
Qed.

Lemma cell_fold_sales (d : Z) (filtered : list Order) :
  forall cell : Reports.DayCell,
    (Reports.cell_sales (fold_left (cellStep d) filtered cell)
     == Reports.cell_sales cell
        + sumQ (map Reports.revenue (ordersOfDay d filtered)))%Q.
Proof.
  induction filtered as [| order filtered IH]; intros cell;
    cbn [fold_left].
  - cbn. now rewrite Qplus_0_r.
  - rewrite IH. unfold cellStep, ordersOfDay. cbn [List.filter].
    destruct (Reports.dayOf (timestamp order) =? d)%Z;
      cbn [Reports.cell_sales map sumQ fold_right].
    + now rewrite Qplus_assoc.
    + reflexivity.
Qed.

Lemma cell_fold_orders (d : Z) (filtered : list Order) :
  forall cell : Reports.DayCell,
    Reports.cell_orders (fold_left (cellStep d) filtered cell)
    = (Reports.cell_orders cell
       + Z.of_nat (length (ordersOfDay d filtered)))%Z.
Proof.
  induction filtered as [| order filtered IH]; intros cell;
    cbn [fold_left].
  - cbn. lia.
  - rewrite IH. unfold cellStep, ordersOfDay. cbn [List.filter].
    destruct (Reports.dayOf (timestamp order) =? d)%Z;
      cbn [Reports.cell_orders length]; lia.
Qed.

(** *** The series *)

Lemma salesData_days (orders_ : list Order) (r : Reports.DateRange) :
  let filtered := Reports.filteredOrders orders_ r in
  Reports.salesData r filtered
  = map (dayPoint filtered) (Reports.eachDayOfInterval r).
Proof.
  intros filtered. unfold Reports.salesData.
  rewrite (init_days (fun _ => Reports.mkDayCell 0 0)
             (Reports.eachDayOfInterval r) (eachDayOfInterval_NoDup r) [])
    by (intros d _ []).
  cbn [app].
  rewrite (fold_addOrder_tabulate _ filtered (eachDayOfInterval_NoDup r)
             (filteredOrders_days orders_ r)).
  unfold tabulate. rewrite map_map. cbn [fst snd].
  change (map _ (Reports.eachDayOfInterval r))
    with (map (dayPoint filtered) (Reports.eachDayOfInterval r)).
  apply (Array_sort_ascending Reports.date).
  unfold Reports.eachDayOfInterval.
  apply shifted_seq_Sorted. reflexivity.
Qed.

Lemma dailySalesAndOrders_days (orders_ : list Order) (r : Reports.DateRange) :
  let filtered := Reports.filteredOrders orders_ r in
  Reports.dailySalesAndOrders r filtered
  = Some (map (dayPoint filtered) (Reports.eachDayOfInterval r)).
Proof.
  intros filtered. unfold Reports.dailySalesAndOrders.
  rewrite (init_days (fun day => Reports.mkDayPoint day 0 0)
             (Reports.eachDayOfInterval r) (eachDayOfInterval_NoDup r) [])
    by (intros d _ []).
  cbn [app].
  rewrite (fold_addOrderUnchecked_tabulate _ filtered
             (eachDayOfInterval_NoDup r) (filteredOrders_days orders_ r)).
  unfold tabulate. rewrite map_map. cbn [snd].
  assert (Hsame :
            map (fun d => fold_left (pointStep d) filtered
                            (Reports.mkDayPoint d 0 0))
              (Reports.eachDayOfInterval r)
            = map (dayPoint filtered) (Reports.eachDayOfInterval r)).
  { apply map_ext. intros d. apply pointStep_cellStep. }
  rewrite Hsame. f_equal.
  apply (Array_sort_ascending Reports.date).
  unfold Reports.eachDayOfInterval.
  apply shifted_seq_Sorted. reflexivity.
Qed.

(** On totals that are numbers, which is how [Reports] reads them: for a
    range whose start is not after its end, the daily series has one entry
    per calendar day of the range, in ascending date order, with the sum
    of the totals of that day's non-complimentary orders and the number of
    that day's orders. *)
Lemma daily_series_of_numbers :
  forall (orders_ : list Order) (r : Reports.DateRange),
    (Reports.start r <= Reports.end_ r)%Z ->
    let filtered := Reports.filteredOrders orders_ r in
    let series := Reports.salesData r filtered in
    Reports.dailySalesAndOrders r filtered = Some series /\
    Z.of_nat (length series) = (lastDay r - firstDay r + 1)%Z /\
    forall k : nat,
      (k < length series)%nat ->
      exists point : Reports.DayPoint,
        nth_error series k = Some point /\
        Reports.date point = (firstDay r + Z.of_nat k)%Z /\
        (Reports.sales point
         == sumQ (map total
                    (List.filter paid
                       (ordersOfDay (Reports.date point) filtered))))%Q /\
        Reports.orders point
        = Z.of_nat (length (ordersOfDay (Reports.date point) filtered)) /\
        (ordersOfDay (Reports.date point) filtered = [] ->
         (Reports.sales point == 0)%Q /\ Reports.orders point = 0%Z).
Proof.
  intros orders_ r Hrange filtered series.
  assert (Hseries :
            series = map (dayPoint filtered) (Reports.eachDayOfInterval r))
    by apply salesData_days.
  assert (Hlen : length series = daysInRange r).
  { now rewrite Hseries, length_map, eachDayOfInterval_length. }
  assert (Hdays : (firstDay r <= lastDay r)%Z)
    by now apply dayOf_monotone.
  split; [| split].
  - rewrite Hseries. apply dailySalesAndOrders_days.
  - rewrite Hlen. unfold daysInRange. lia.
  - intros k Hk. rewrite Hlen in Hk.
    exists (dayPoint filtered (firstDay r + Z.of_nat k)).
    assert (Hsales :
              forall d,
                (Reports.sales (dayPoint filtered d)
                 == sumQ (map total (List.filter paid (ordersOfDay d filtered))))%Q).
    { intros d. unfold dayPoint. cbn [Reports.sales].
      rewrite cell_fold_sales. cbn [Reports.cell_sales].
      rewrite Qplus_0_l. apply revenue_sum_paid. }
    assert (Horders :
              forall d,
                Reports.orders (dayPoint filtered d)
                = Z.of_nat (length (ordersOfDay d filtered))).
    { intros d. unfold dayPoint. cbn [Reports.orders].
      rewrite cell_fold_orders. cbn [Reports.cell_orders]. lia. }
    split; [| split; [| split; [| split]]].
    + rewrite Hseries.
      now rewrite (map_nth_error _ _ _ (eachDayOfInterval_nth r k Hk)).
    + reflexivity.
    + apply Hsales.
    + apply Horders.
    + cbn [Reports.date dayPoint]. intros Hnone. split.
      * rewrite Hsales, Hnone. reflexivity.
      * now rewrite Horders, Hnone.
Qed.

(** *** The series on the orders as the store holds them *)

Definition storedOrdersOfDay (d : Z) (l : list StoredOrder) : list StoredOrder :=
  List.filter (fun order => (Reports.dayOf (timestamp (typed order)) =? d)%Z) l.

Section StoredSeries.

Variable Number_toString : Q -> string.

Definition storedCellStep (d : Z) (cell : StoredReports.DayCell)
    (order : StoredOrder) : StoredReports.DayCell :=
  if (Reports.dayOf (timestamp (typed order)) =? d)%Z
  then StoredReports.mkDayCell
         (StoredReports.js_plus Number_toString
            (StoredReports.cell_sales cell) (StoredReports.revenue order))
         (StoredReports.cell_orders cell + 1)%Z
  else cell.

Definition storedPointStep (d : Z) (point : StoredReports.DayPoint)
    (order : StoredOrder) : StoredReports.DayPoint :=
  if (Reports.dayOf (timestamp (typed order)) =? d)%Z
  then StoredReports.mkDayPoint (StoredReports.date point)
         (StoredReports.js_plus Number_toString
            (StoredReports.sales point) (StoredReports.revenue order))
         (StoredReports.orders point + 1)%Z
  else point.

Definition storedDayPoint (filtered : list StoredOrder) (d : Z)
  : StoredReports.DayPoint :=
  let cell :=
    fold_left (storedCellStep d) filtered
      (StoredReports.mkDayCell (JsNum (Finite 0)) 0) in
  StoredReports.mkDayPoint d (StoredReports.cell_sales cell)
    (StoredReports.cell_orders cell).

Lemma stored_addOrder_tabulate (f : Z -> StoredReports.DayCell)
    (days : list Z) (order : StoredOrder) :
  List.NoDup days ->
  In (Reports.dayOf (timestamp (typed order))) days ->
  StoredReports.addOrder Number_toString (tabulate f days) order
  = tabulate (fun d => storedCellStep d (f d) order) days.
Proof.
  intros Hnodup Hin. unfold StoredReports.addOrder. cbv zeta.
  repeat (rewrite (obj_get_tabulate f days _ Hin); cbv beta iota).
  rewrite (obj_set_tabulate f days _ _ Hnodup Hin).
  apply map_ext. intros d. unfold storedCellStep.
  rewrite (Z.eqb_sym d).
  now destruct (Z.eqb_spec (Reports.dayOf (timestamp (typed order))) d)
    as [<- | _].
Qed.

Lemma stored_fold_addOrder_tabulate (days : list Z)
    (filtered : list StoredOrder) :
  List.NoDup days ->
  List.Forall
    (fun order => In (Reports.dayOf (timestamp (typed order))) days)
    filtered ->
  forall f : Z -> StoredReports.DayCell,
    fold_left (StoredReports.addOrder Number_toString) filtered
      (tabulate f days)
    = tabulate (fun d => fold_left (storedCellStep d) filtered (f d)) days.
Proof.
  intros Hnodup.
  induction 1 as [| order filtered Hin _ IH]; intros f; cbn [fold_left].
  - reflexivity.
  - rewrite (stored_addOrder_tabulate f days order Hnodup Hin). apply IH.
Qed.

Lemma stored_addOrderUnchecked_tabulate (f : Z -> StoredReports.DayPoint)
    (days : list Z) (order : StoredOrder) :
  List.NoDup days ->
  In (Reports.dayOf (timestamp (typed order))) days ->
  StoredReports.addOrderUnchecked Number_toString (Some (tabulate f days)) order
  = Some (tabulate (fun d => storedPointStep d (f d) order) days).
Proof.
  intros Hnodup Hin. unfold StoredReports.addOrderUnchecked. cbv zeta.
  rewrite (obj_get_tabulate f days _ Hin). cbv beta iota.
  rewrite (obj_set_tabulate f days _ _ Hnodup Hin).
  f_equal. apply map_ext. intros d. unfold storedPointStep.
  rewrite (Z.eqb_sym d).
  now destruct (Z.eqb_spec (Reports.dayOf (timestamp (typed order))) d)
    as [<- | _].
Qed.

Lemma stored_fold_addOrderUnchecked_tabulate (days : list Z)
    (filtered : list StoredOrder) :
  List.NoDup days ->
  List.Forall
    (fun order => In (Reports.dayOf (timestamp (typed order))) days)
    filtered ->
  forall f : Z -> StoredReports.DayPoint,
    fold_left (StoredReports.addOrderUnchecked Number_toString) filtered
      (Some (tabulate f days))
    = Some (tabulate (fun d => fold_left (storedPointStep d) filtered (f d))
              days).
Proof.
  intros Hnodup.
  induction 1 as [| order filtered Hin _ IH]; intros f; cbn [fold_left].
  - reflexivity.
  - rewrite (stored_addOrderUnchecked_tabulate f days order Hnodup Hin).
    apply IH.
Qed.

Lemma storedPointStep_cellStep (d : Z) (filtered : list StoredOrder) :
  forall (s : JsValue) (c : Z),
    fold_left (storedPointStep d) filtered (StoredReports.mkDayPoint d s c)
    = StoredReports.mkDayPoint d
        (StoredReports.cell_sales
           (fold_left (storedCellStep d) filtered
              (StoredReports.mkDayCell s c)))
        (StoredReports.cell_orders
           (fold_left (storedCellStep d) filtered
              (StoredReports.mkDayCell s c))).
Proof.
  induction filtered as [| order filtered IH]; intros s c; cbn.
  - reflexivity.
  - unfold storedPointStep at 2, storedCellStep at 2 4.
    destruct (Reports.dayOf (timestamp (typed order)) =? d)%Z; cbn; apply IH.
Qed.

(** The sales of a day are the running [+] over that day's orders, in
    the order of the store. *)
Lemma stored_cell_fold_sales (d : Z) (filtered : list StoredOrder) :
  forall cell : StoredReports.DayCell,
    StoredReports.cell_sales (fold_left (storedCellStep d) filtered cell)
    = fold_left
        (fun sum order =>
           StoredReports.js_plus Number_toString sum
             (StoredReports.revenue order))
        (storedOrdersOfDay d filtered) (StoredReports.cell_sales cell).
Proof.
  induction filtered as [| order filtered IH]; intros cell;
    cbn [fold_left].
  - reflexivity.
  - rewrite IH. unfold storedCellStep, storedOrdersOfDay. cbn [List.filter].
    now destruct (Reports.dayOf (timestamp (typed order)) =? d)%Z.
Qed.

Lemma stored_cell_fold_orders (d : Z) (filtered : list StoredOrder) :
  forall cell : StoredReports.DayCell,
    StoredReports.cell_orders (fold_left (storedCellStep d) filtered cell)
    = (StoredReports.cell_orders cell
       + Z.of_nat (length (storedOrdersOfDay d filtered)))%Z.
Proof.
  induction filtered as [| order filtered IH]; intros cell;
    cbn [fold_left].
  - cbn. lia.
  - rewrite IH. unfold storedCellStep, storedOrdersOfDay. cbn [List.filter].
    destruct (Reports.dayOf (timestamp (typed order)) =? d)%Z;
      cbn [StoredReports.cell_orders length]; lia.
Qed.

Lemma stored_filteredOrders_days (orders_ : list StoredOrder)
    (r : Reports.DateRange) :
  List.Forall
    (fun order =>
       In (Reports.dayOf (timestamp (typed order)))
         (Reports.eachDayOfInterval r))
    (StoredReports.filteredOrders orders_ r).
Proof.
  apply List.Forall_forall. intros order Hin.
  apply filter_In in Hin. destruct Hin as [_ Hrange].
  unfold Reports.inRange in Hrange. apply andb_prop in Hrange.
  destruct Hrange as [Hlo Hhi].
  apply Z.leb_le in Hlo. apply Z.leb_le in Hhi.
  apply in_eachDayOfInterval. unfold firstDay, lastDay.
  split; now apply dayOf_monotone.
Qed.

Lemma stored_salesData_days (orders_ : list StoredOrder)
    (r : Reports.DateRange) :
  let filtered := StoredReports.filteredOrders orders_ r in
  StoredReports.salesData Number_toString r filtered
  = map (storedDayPoint filtered) (Reports.eachDayOfInterval r).
Proof.
  intros filtered. unfold StoredReports.salesData.
  rewrite (init_days (fun _ => StoredReports.mkDayCell (JsNum (Finite 0)) 0)
             (Reports.eachDayOfInterval r) (eachDayOfInterval_NoDup r) [])
    by (intros d _ []).
  cbn [app].
  rewrite (stored_fold_addOrder_tabulate _ filtered
             (eachDayOfInterval_NoDup r)
             (stored_filteredOrders_days orders_ r)).
  unfold tabulate. rewrite map_map. cbn [fst snd].
  change (map _ (Reports.eachDayOfInterval r))
    with (map (storedDayPoint filtered) (Reports.eachDayOfInterval r)).
  apply (Array_sort_ascending StoredReports.date).
  unfold Reports.eachDayOfInterval.
  apply shifted_seq_Sorted. reflexivity.
Qed.

Lemma stored_dailySalesAndOrders_days (orders_ : list StoredOrder)
    (r : Reports.DateRange) :
  let filtered := StoredReports.filteredOrders orders_ r in
  StoredReports.dailySalesAndOrders Number_toString r filtered
  = Some (map (storedDayPoint filtered) (Reports.eachDayOfInterval r)).
Proof.
  intros filtered. unfold StoredReports.dailySalesAndOrders.
  rewrite (init_days
             (fun day => StoredReports.mkDayPoint day (JsNum (Finite 0)) 0)
             (Reports.eachDayOfInterval r) (eachDayOfInterval_NoDup r) [])
    by (intros d _ []).
  cbn [app].
  rewrite (stored_fold_addOrderUnchecked_tabulate _ filtered
             (eachDayOfInterval_NoDup r)
             (stored_filteredOrders_days orders_ r)).
  unfold tabulate. rewrite map_map. cbn [snd].
  assert (Hsame :
            map (fun d => fold_left (storedPointStep d) filtered
                            (StoredReports.mkDayPoint d (JsNum (Finite 0)) 0))
              (Reports.eachDayOfInterval r)
            = map (storedDayPoint filtered) (Reports.eachDayOfInterval r)).
  { apply map_ext. intros d. apply storedPointStep_cellStep. }
  rewrite Hsame. f_equal.
  apply (Array_sort_ascending StoredReports.date).
  unfold Reports.eachDayOfInterval.
  apply shifted_seq_Sorted. reflexivity.
Qed.

End StoredSeries.

(** C6, on the orders as the order-entry page stores them.  The page
    stores the total of a paid order as the text [toFixed(2)] returns, so
    the [sales] of a day are its totals written side by side: for a day
    with the paid orders of 7.00 and 3.50, both series have the one entry
    of that day with 2 orders and the text '07.003.50' as sales, where
    the sum of the day's totals is 10.50. *)
Theorem daily_sales_of_stored_text_totals :
  let stored := [Examples.storedPlaced; Examples.storedLatte] in
  let filtered := StoredReports.filteredOrders stored Examples.oneDay in
  filtered = stored /\
  map storedTotal stored = [JsText "7.00"; JsText "3.50"] /\
  map (fun order => isComplimentary (typed order)) stored = [false; false] /\
  map (fun order => Reports.dayOf (timestamp (typed order))) stored
  = [0%Z; 0%Z] /\
  (sumQ (map total (map typed stored)) == 21 # 2)%Q /\
  StoredReports.salesData Examples.Number_toString Examples.oneDay filtered
  = [StoredReports.mkDayPoint 0 (JsText "07.003.50") 2] /\
  StoredReports.dailySalesAndOrders Examples.Number_toString Examples.oneDay
    filtered
  = Some [StoredReports.mkDayPoint 0 (JsText "07.003.50") 2] /\
  JsText "07.003.50" <> JsNum (Finite (21 # 2)).
Proof.
  cbv zeta.
  repeat (split; [vm_compute; reflexivity |]).
  discriminate.
Qed.

(** The specification's example, computed: 30 of sales over 3 orders, and
    the series (day 0: 10 over 2 orders), (day 1: 20 over 1 order). *)
Example two_day_report :
  Reports.salesData Examples.twoDays
    (Reports.filteredOrders Examples.twoDayOrders Examples.twoDays)
  = [Reports.mkDayPoint 0 10 2; Reports.mkDayPoint 1 20 1] /\
  Reports.totalSales
    (Reports.filteredOrders Examples.twoDayOrders Examples.twoDays) = 30%Q /\
  Reports.totalOrders
    (Reports.filteredOrders Examples.twoDayOrders Examples.twoDays) = 3%Z.
Proof. repeat split. Qed.

(** The report of the current day is a series of one entry. *)
Lemma dayOf_startOfDay (t : Z) :
  Reports.dayOf (Reports.startOfDay t) = Reports.dayOf t.
Proof.
  unfold Reports.startOfDay. unfold Reports.dayOf at 1.
  apply Z.div_mul. discriminate.
Qed.

Lemma dayOf_endOfDay (t : Z) :
  Reports.dayOf (Reports.endOfDay t) = Reports.dayOf t.
Proof.
  unfold Reports.endOfDay, Reports.startOfDay. unfold Reports.dayOf at 1.
  symmetry. apply (Z.div_unique _ _ _ (Reports.msPerDay - 1)).
  - left. unfold Reports.msPerDay. lia.
  - lia.
Qed.

(** X25.  For the 'day' range the daily series has exactly one entry,
    dated today, whatever orders are stored. *)
Corollary today_series_has_one_entry (orders_ : list Order) (now : Z) :
  let r := Reports.todayRange now in
  map Reports.date (Reports.salesData r (Reports.filteredOrders orders_ r))
  = [Reports.dayOf now].
Proof.
  intros r. rewrite (salesData_days orders_ r).
  unfold Reports.eachDayOfInterval. subst r.
  cbn [Reports.start Reports.end_ Reports.todayRange].
  rewrite dayOf_startOfDay, dayOf_endOfDay.
  replace (Reports.dayOf now - Reports.dayOf now + 1)%Z with 1%Z by lia.
  change (Z.to_nat 1) with 1%nat.
  cbn [seq map dayPoint Reports.date].
  now rewrite Z.add_0_r.
Qed.

(** X30.  The daily series on the orders as the store holds them.  For
    a range whose start is not after its end, [salesData] and
    [dailySalesAndOrders] return the same series, with one entry per
    calendar day from the day of [start] to the day of [end] in ascending
    date order; the [orders] of an entry is the number of that day's
    orders, complimentary ones included.  Its [sales] is a number, the sum
    of the totals of that day's non-complimentary orders, when each of
    them is stored as a number (0 for a day without orders); it is a text
    as soon as one of that day's paid orders has its total stored as a
    text. *)
Theorem stored_daily_series_covers_every_day :
  forall (Number_toString : Q -> string) (orders_ : list StoredOrder)
         (r : Reports.DateRange),
    (Reports.start r <= Reports.end_ r)%Z ->
    let filtered := StoredReports.filteredOrders orders_ r in
    let series := StoredReports.salesData Number_toString r filtered in
    StoredReports.dailySalesAndOrders Number_toString r filtered = Some series /\
    Z.of_nat (length series) = (lastDay r - firstDay r + 1)%Z /\
    forall k : nat,
      (k < length series)%nat ->
      exists point : StoredReports.DayPoint,
        nth_error series k = Some point /\
        StoredReports.date point = (firstDay r + Z.of_nat k)%Z /\
        let thatDay := storedOrdersOfDay (StoredReports.date point) filtered in
        StoredReports.orders point = Z.of_nat (length thatDay) /\
        (List.Forall numericTotal thatDay ->
         exists s : Q,
           StoredReports.sales point = JsNum (Finite s) /\
           (s == sumQ (map total (List.filter paid (map typed thatDay))))%Q) /\
        (List.Exists textTotal thatDay ->
         exists text : string, StoredReports.sales point = JsText text) /\
        (thatDay = [] ->
         StoredReports.sales point = JsNum (Finite 0) /\
         StoredReports.orders point = 0%Z).
Proof.
  intros Number_toString orders_ r Hrange filtered series.
  assert (Hseries :
            series
            = map (storedDayPoint Number_toString filtered)
                (Reports.eachDayOfInterval r))
    by apply stored_salesData_days.
  assert (Hlen : length series = daysInRange r).
  { now rewrite Hseries, length_map, eachDayOfInterval_length. }
  assert (Hdays : (firstDay r <= lastDay r)%Z)
    by now apply dayOf_monotone.
  split; [| split].
  - rewrite Hseries. apply stored_dailySalesAndOrders_days.
  - rewrite Hlen. unfold daysInRange. lia.
  - intros k Hk. rewrite Hlen in Hk.
    exists (storedDayPoint Number_toString filtered (firstDay r + Z.of_nat k)).
    assert (Hsales :
              forall d,
                StoredReports.sales (storedDayPoint Number_toString filtered d)
                = StoredReports.totalSales Number_toString
                    (storedOrdersOfDay d filtered)).
    { intros d. unfold storedDayPoint. cbn [StoredReports.sales].
      now rewrite stored_cell_fold_sales. }
    assert (Horders :
              forall d,
                StoredReports.orders (storedDayPoint Number_toString filtered d)
                = Z.of_nat (length (storedOrdersOfDay d filtered))).
    { intros d. unfold storedDayPoint. cbn [StoredReports.orders].
      rewrite stored_cell_fold_orders. cbn [StoredReports.cell_orders]. lia. }
    split; [| split].
    + rewrite Hseries.
      now rewrite (map_nth_error _ _ _ (eachDayOfInterval_nth r k Hk)).
    + reflexivity.
    + cbv zeta. cbn [StoredReports.date storedDayPoint].
      set (d := (firstDay r + Z.of_nat k)%Z).
      fold (storedDayPoint Number_toString filtered d).
      split; [apply Horders |].
      split; [| split].
      * intros Hnum. rewrite Hsales.
        rewrite (totalSales_of_numbers Number_toString _ Hnum).
        eexists. split; [reflexivity |].
        rewrite totalSales_sum. apply revenue_sum_paid.
      * intros Htext. rewrite Hsales.
        apply (fold_plus_with_text Number_toString _ Htext).
      * intros Hnone. split.
        -- now rewrite Hsales, Hnone.
        -- now rewrite Horders, Hnone.
Qed.

Lemma stored_daily_series_covers_every_day_witness :
  exists point : StoredReports.DayPoint,
    nth_error
      (StoredReports.salesData Examples.Number_toString Examples.oneDay
         (StoredReports.filteredOrders
            [Examples.storedEdited; Examples.storedGift] Examples.oneDay)) 0
    = Some point /\
    StoredReports.date point = 0%Z /\
    StoredReports.orders point = 2%Z /\
    exists s : Q, StoredReports.sales point = JsNum (Finite s) /\ (s == 10)%Q.
Proof.
  destruct (stored_daily_series_covers_every_day Examples.Number_toString
              [Examples.storedEdited; Examples.storedGift] Examples.oneDay)
    as (_ & _ & Hpoints); [discriminate |].
  destruct (Hpoints 0%nat) as (point & Hnth & Hdate & Hrest);
    [vm_compute; lia |].
  cbv zeta in Hrest. destruct Hrest as (Horders & Hnum & _).
  exists point.
  rewrite Hdate in Horders, Hnum.
  split; [exact Hnth |]. split; [exact Hdate |]. split; [exact Horders |].
  destruct Hnum as (s & Hsales & Hs).
  - change (List.Forall numericTotal
              [Examples.storedEdited; Examples.storedGift]).
    apply List.Forall_cons; [right; reflexivity |].
    apply List.Forall_cons; [left; reflexivity | apply List.Forall_nil].
  - exists s. split; [exact Hsales |]. rewrite Hs. reflexivity.
Defined.

(** * Further properties of the code *)

(** ** The cart of the order-entry page *)

(** What identifies a cart line: the menu item and the flavor. *)
Definition lineKey (line : OrderItem) : Z * option string :=
  (item_id line, flavor line).

Lemma flavor_eqb_eq (a b : option string) :
  Pos.flavor_eqb a b = true <-> a = b.
Proof.
  destruct a as [x |], b as [y |]; cbn.
  - rewrite String.eqb_eq. split; [now intros -> | now intros [= ->]].
  - split; discriminate.
  - split; discriminate.
  - split; reflexivity.
Qed.

Lemma sameLine_key (i : Z) (f : option string) (c : OrderItem) :
  Pos.sameLine i f c = true <-> lineKey c = (i, f).
Proof.
  unfold Pos.sameLine, lineKey.
  rewrite andb_true_iff, Z.eqb_eq, flavor_eqb_eq.
  split; [now intros [-> ->] | now intros [= -> ->]].
Qed.

Lemma sameLine_other (i : Z) (f : option string) (c : OrderItem) :
  lineKey c <> (i, f) -> Pos.sameLine i f c = false.
Proof.
  intros Hne. destruct (Pos.sameLine i f c) eqn:Hsame; [| reflexivity].
  now apply sameLine_key in Hsame.
Qed.

(** A cart line that carries the id and the price of one menu entry. *)
Definition fromMenu (line : OrderItem) : Prop :=
  exists entry : OrderItem,
    In entry Pos.menuItems /\
    item_id line = item_id entry /\ price line = price entry.

Definition cartWellFormed (pst : Pos.State) : Prop :=
  List.NoDup (map lineKey (Pos.cart pst)) /\
  List.Forall (fun line => (1 <= quantity line)%Z) (Pos.cart pst) /\
  List.Forall fromMenu (Pos.cart pst) /\
  (forall coffee : OrderItem,
      Pos.selectedCoffeeItem pst = Some coffee -> In coffee Pos.menuItems) /\
  (Pos.runningTotal pst == sumQ (map lineAmount (Pos.cart pst)))%Q.

Lemma menu_price_by_id (a b : OrderItem) :
  In a Pos.menuItems -> In b Pos.menuItems ->
  item_id a = item_id b -> price a = price b.
Proof.
  unfold Pos.menuItems, Pos.menuItem. cbn [In].
  intros Ha Hb.
  repeat (destruct Ha as [<- | Ha]; [| try contradiction]);
    repeat (destruct Hb as [<- | Hb]; [| try contradiction]);
    cbn; intros Hid; first [reflexivity | discriminate Hid].
Qed.

Lemma fromMenu_price (line entry : OrderItem) :
  fromMenu line -> In entry Pos.menuItems ->
  item_id line = item_id entry -> price line = price entry.
Proof.
  intros [e [He [Hid Hprice]]] Hentry Hsame.
  rewrite Hprice. apply menu_price_by_id; congruence.
Qed.

Lemma sumQ_cons (x : Q) (l : list Q) : sumQ (x :: l) = (x + sumQ l)%Q.
Proof. reflexivity. Qed.

Lemma sumQ_app (l l' : list Q) : (sumQ (l ++ l') == sumQ l + sumQ l')%Q.
Proof.
  induction l as [| x l IH]; cbn [app].
  - cbn. ring.
  - rewrite !sumQ_cons, IH. ring.
Qed.

Lemma lineAmount_one_more (c : OrderItem) (f : option string) :
  (lineAmount (Pos.cartLine c f (quantity c + 1)) == lineAmount c + price c)%Q.
Proof.
  unfold lineAmount. cbn. rewrite inject_Z_plus. ring.
Qed.

Lemma lineAmount_one_less (c : OrderItem) (f : option string) :
  (lineAmount (Pos.cartLine c f (quantity c - 1)) == lineAmount c - price c)%Q.
Proof.
  unfold lineAmount. cbn. unfold Z.sub. rewrite inject_Z_plus, inject_Z_opp.
  ring.
Qed.

(** Adding one to the lines under a key adds the price of the line that
    carries the key, the keys being distinct. *)
Lemma sum_after_increment (i : Z) (f : option string) (cart : list OrderItem) :
  List.NoDup (map lineKey cart) ->
  forall c0 : OrderItem,
    In c0 cart -> lineKey c0 = (i, f) ->
    (sumQ (map lineAmount
             (map (fun c =>
                     if Pos.sameLine i f c
                     then Pos.cartLine c (flavor c) (quantity c + 1)
                     else c)
                cart))
     == sumQ (map lineAmount cart) + price c0)%Q.
Proof.
  induction cart as [| c rest IH]; intros Hnodup c0 Hin Hkey; [contradiction |].
  cbn [map] in Hnodup. inversion Hnodup as [| ? ? Hfresh Hrest]; subst.
  cbn [map]. rewrite !sumQ_cons.
  destruct Hin as [-> | Hin].
  - rewrite (proj2 (sameLine_key i f c0) Hkey).
    rewrite lineAmount_one_more.
    rewrite (map_ext_in _ (fun c => c)).
    + rewrite map_id. ring.
    + intros c Hc. rewrite sameLine_other; [reflexivity |].
      intros Hsame. apply Hfresh. rewrite Hkey, <- Hsame. now apply in_map.
  - rewrite sameLine_other.
    + rewrite (IH Hrest c0 Hin Hkey). ring.
    + intros Hsame. apply Hfresh. rewrite Hsame, <- Hkey. now apply in_map.
Qed.

Lemma addLine_wellFormed (entry : OrderItem) (f : option string)
    (cart : list OrderItem) (t : Q) :
  In entry Pos.menuItems ->
  List.NoDup (map lineKey cart) ->
  List.Forall (fun line => (1 <= quantity line)%Z) cart ->
  List.Forall fromMenu cart ->
  (t == sumQ (map lineAmount cart))%Q ->
  let cart' := Pos.addLine (Pos.cartLine entry f 1) cart in
  List.NoDup (map lineKey cart') /\
  List.Forall (fun line => (1 <= quantity line)%Z) cart' /\
  List.Forall fromMenu cart' /\
  (t + price entry == sumQ (map lineAmount cart'))%Q.
Proof.
  intros Hentry Hnodup Hqty Hmenu Hsum cart'. subst cart'.
  unfold Pos.addLine. cbn [item_id flavor Pos.cartLine].
  destruct (find (Pos.sameLine (item_id entry) f) cart) as [c0 |] eqn:Hfind.
  - apply find_some in Hfind. destruct Hfind as [Hin Hsame].
    apply sameLine_key in Hsame.
    split; [| split; [| split]].
    + rewrite map_map.
      rewrite (map_ext _ lineKey); [assumption |].
      intros c. now destruct (Pos.sameLine _ _ c).
    + apply List.Forall_forall. intros x Hx.
      apply in_map_iff in Hx. destruct Hx as [c [<- Hc]].
      pose proof (proj1 (List.Forall_forall _ _) Hqty c Hc) as Hq.
      cbv beta in Hq. destruct (Pos.sameLine _ _ c); cbn; lia.
    + apply List.Forall_forall. intros x Hx.
      apply in_map_iff in Hx. destruct Hx as [c [<- Hc]].
      pose proof (proj1 (List.Forall_forall _ _) Hmenu c Hc) as Hc'.
      destruct (Pos.sameLine _ _ c); [| assumption].
      destruct Hc' as [e He]. now exists e.
    + rewrite (sum_after_increment _ _ cart Hnodup c0 Hin Hsame), Hsum.
      rewrite (fromMenu_price c0 entry).
      * reflexivity.
      * now apply (proj1 (List.Forall_forall _ _) Hmenu).
      * assumption.
      * now injection Hsame.
  - pose proof (find_none _ _ Hfind) as Hnone.
    split; [| split; [| split]].
    + rewrite map_app. cbn [map].
      apply NoDup_ListNoDup, NoDup_app.
      split; [now apply NoDup_ListNoDup |]. split.
      * intros k Hk Hlast. apply list_elem_of_In in Hk.
        apply list_elem_of_In in Hlast. destruct Hlast as [<- | []].
        apply in_map_iff in Hk. destruct Hk as [c [Hkey Hc]].
        change (lineKey c = (item_id entry, f)) in Hkey.
        apply sameLine_key in Hkey. rewrite (Hnone c Hc) in Hkey.
        discriminate.
      * apply NoDup_ListNoDup. repeat constructor. intros [].
    + apply List.Forall_app. split; [assumption |].
      repeat constructor. cbn. lia.
    + apply List.Forall_app. split; [assumption |].
      repeat constructor. now exists entry.
    + rewrite map_app, sumQ_app, Hsum. cbn [map]. rewrite sumQ_cons.
      unfold lineAmount. cbn. ring.
Qed.

Lemma map_insert_same {A B : Type} (g : A -> B) (l : list A) :
  forall (i : nat) (x y : A),
    nth_error l i = Some y -> g x = g y -> map g (<[i := x]> l) = map g l.
Proof.
  induction l as [| a l IH]; intros [| i] x y Hnth Hg; cbn in *;
    try discriminate.
  - injection Hnth as ->. now rewrite Hg.
  - f_equal. now apply IH with y.
Qed.

Lemma sumQ_insert (l : list OrderItem) :
  forall (i : nat) (x y : OrderItem),
    nth_error l i = Some y ->
    (sumQ (map lineAmount (<[i := x]> l))
     == sumQ (map lineAmount l) - lineAmount y + lineAmount x)%Q.
Proof.
  induction l as [| a l IH]; intros [| i] x y Hnth;
    cbn [nth_error] in Hnth; try discriminate;
    cbn [insert list_insert map]; rewrite !sumQ_cons.
  - injection Hnth as ->. ring.
  - rewrite (IH i x y Hnth). ring.
Qed.

Lemma sumQ_removeAt (l : list OrderItem) :
  forall (i : nat) (y : OrderItem),
    nth_error l i = Some y ->
    (sumQ (map lineAmount (removeAt i l))
     == sumQ (map lineAmount l) - lineAmount y)%Q.
Proof.
  induction l as [| a l IH]; intros [| i] y Hnth;
    cbn [nth_error] in Hnth; try discriminate;
    cbn [removeAt map]; rewrite !sumQ_cons.
  - injection Hnth as ->. ring.
  - rewrite (IH i y Hnth). ring.
Qed.

Lemma removeAt_map {A B : Type} (g : A -> B) (l : list A) :
  forall i : nat, map g (removeAt i l) = removeAt i (map g l).
Proof.
  induction l as [| a l IH]; intros [| i]; cbn; try reflexivity.
  now rewrite IH.
Qed.

Lemma removeAt_In {A : Type} (l : list A) :
  forall (i : nat) (x : A), In x (removeAt i l) -> In x l.
Proof.
  induction l as [| a l IH]; intros [| i] x; cbn; try tauto.
  intros [-> | Hin]; [now left | right; now apply IH with i].
Qed.

Lemma removeAt_NoDup {A : Type} (l : list A) :
  List.NoDup l -> forall i : nat, List.NoDup (removeAt i l).
Proof.
  induction 1 as [| a l Ha Hl IH]; intros [| i]; cbn; try constructor;
    try assumption.
  - intros Hin. apply Ha. now apply removeAt_In with i.
  - apply IH.
Qed.

Lemma step_cartWellFormed (pst : Pos.State) (e : Pos.Event) :
  cartWellFormed pst -> Pos.onMenu e -> cartWellFormed (Pos.step pst e).
Proof.
  intros (Hnodup & Hqty & Hmenu & Hcoffee & Hsum) He.
  destruct e as [item | f | | index | index | | info | | now]; cbn in He |- *.
  - unfold Pos.addToCart. destruct (category item =? "Coffee")%string.
    + repeat split; try assumption. cbn. now intros coffee [= <-].
    + destruct (addLine_wellFormed item None (Pos.cart pst)
                  (Pos.runningTotal pst) He Hnodup Hqty Hmenu Hsum)
        as (H1 & H2 & H3 & H4).
      repeat split; assumption.
  - repeat split; assumption.
  - unfold Pos.confirmFlavorSelection.
    case_eq (Pos.selectedCoffeeItem pst);
      [intros coffee Hsel | intros _; repeat split; assumption].
    destruct (addLine_wellFormed coffee
                (if (Pos.selectedFlavor pst =? "No Flavoring")%string
                 then None else Some (Pos.selectedFlavor pst))
                (Pos.cart pst) (Pos.runningTotal pst) (Hcoffee coffee Hsel)
                Hnodup Hqty Hmenu Hsum)
      as (H1 & H2 & H3 & H4).
    repeat split; assumption.
  - unfold Pos.removeFromCart.
    destruct (nth_error (Pos.cart pst) index) as [item |] eqn:Hnth;
      [| repeat split; assumption].
    pose proof (nth_error_In _ _ Hnth) as Hin.
    pose proof (proj1 (List.Forall_forall _ _) Hqty item Hin) as Hq.
    pose proof (proj1 (List.Forall_forall _ _) Hmenu item Hin) as Hm.
    cbv beta in Hq. unfold cartWellFormed.
    cbn [Pos.cart Pos.runningTotal Pos.selectedCoffeeItem Pos.setRunningTotal
         Pos.setCart]. destruct (Z.ltb_spec 1 (quantity item)) as [Hmany | Hone].
    + repeat split; try assumption.
      * now rewrite (map_insert_same lineKey _ index _ item Hnth).
      * apply Forall_insert; [assumption |]. cbn. lia.
      * apply Forall_insert; [assumption |].
        destruct Hm as [entry Hentry]. now exists entry.
      * cbn. rewrite (sumQ_insert _ index _ item Hnth), lineAmount_one_less, Hsum.
        ring.
    + repeat split; try assumption.
      * rewrite removeAt_map. now apply removeAt_NoDup.
      * now apply removeAt_Forall.
      * now apply removeAt_Forall.
      * cbn. rewrite (sumQ_removeAt _ index item Hnth), Hsum.
        unfold lineAmount. replace (quantity item) with 1%Z by lia. ring.
  - unfold Pos.increaseQuantity.
    destruct (nth_error (Pos.cart pst) index) as [item |] eqn:Hnth;
      [| repeat split; assumption].
    pose proof (nth_error_In _ _ Hnth) as Hin.
    pose proof (proj1 (List.Forall_forall _ _) Hqty item Hin) as Hq.
    pose proof (proj1 (List.Forall_forall _ _) Hmenu item Hin) as Hm.
    cbv beta in Hq. unfold cartWellFormed.
    cbn [Pos.cart Pos.runningTotal Pos.selectedCoffeeItem Pos.setRunningTotal
         Pos.setCart]. repeat split; try assumption.
    + now rewrite (map_insert_same lineKey _ index _ item Hnth).
    + apply Forall_insert; [assumption |]. cbn. lia.
    + apply Forall_insert; [assumption |].
      destruct Hm as [entry Hentry]. now exists entry.
    + cbn. rewrite (sumQ_insert _ index _ item Hnth), lineAmount_one_more, Hsum.
      ring.
  - repeat split; assumption.
  - repeat split; assumption.
  - unfold Pos.handlePlaceOrder.
    case (Pos.cart pst); [| intros _ _]; repeat split; assumption.
  - unfold Pos.confirmOrder.
    case (_ || _); [repeat split; assumption |].
    unfold cartWellFormed.
    cbn [Pos.cart Pos.runningTotal Pos.selectedCoffeeItem].
    split; [constructor | split; [constructor | split; [constructor |]]].
    split; [assumption | reflexivity].
Qed.

Lemma reachable_cartWellFormed (pst : Pos.State) :
  Pos.reachable pst -> cartWellFormed pst.
Proof.
  induction 1 as [now slot lastOrderNumber | now slot lastOrderNumber saved
                  | st e _ IH He].
  - unfold cartWellFormed, Pos.mount.
    cbn [Pos.cart Pos.runningTotal Pos.selectedCoffeeItem].
    split; [constructor | split; [constructor | split; [constructor |]]].
    split; [discriminate | reflexivity].
  - unfold cartWellFormed, Pos.mount, Pos.setIsComplimentaryMode.
    cbn [Pos.cart Pos.runningTotal Pos.selectedCoffeeItem].
    split; [constructor | split; [constructor | split; [constructor |]]].
    split; [discriminate | reflexivity].
  - now apply step_cartWellFormed.
Qed.

(** X4.  In every state the order-entry page can reach, no two lines of the
    cart carry the same menu item with the same flavor, and every line has
    a quantity of at least 1. *)
Theorem cart_lines_are_distinct (pst : Pos.State) :
  Pos.reachable pst ->
  (forall (i j : nat) (a b : OrderItem),
      nth_error (Pos.cart pst) i = Some a ->
      nth_error (Pos.cart pst) j = Some b ->
      item_id a = item_id b -> flavor a = flavor b -> i = j) /\
  (forall line : OrderItem, In line (Pos.cart pst) -> (1 <= quantity line)%Z).
Proof.
  intros Hreach.
  destruct (reachable_cartWellFormed pst Hreach) as (Hnodup & Hqty & _).
  split.
  - intros i j a b Hi Hj Hid Hflavor.
    apply (proj1 (List.NoDup_nth_error (map lineKey (Pos.cart pst))) Hnodup).
    + rewrite length_map. apply nth_error_Some. now rewrite Hi.
    + rewrite !nth_error_map, Hi, Hj. cbn. unfold lineKey. congruence.
  - intros line Hin. now apply (proj1 (List.Forall_forall _ _) Hqty).
Qed.

Lemma cart_lines_are_distinct_witness :
  List.Forall (fun line => (1 <= quantity line)%Z)
    (Pos.cart Examples.posAfterSession).
Proof.
  assert (Hreach : Pos.reachable Examples.posAfterSession).
  { apply reachable_session; [constructor |].
    repeat constructor; cbn; tauto. }
  apply List.Forall_forall.
  exact (proj2 (cart_lines_are_distinct Examples.posAfterSession Hreach)).
Defined.

(** X5.  In every state the order-entry page can reach, the running total
    it shows is the sum of price times quantity over the cart; in pop-up
    (paid) mode it is the total the placed order gets. *)
Theorem running_total_is_cart_sum (pst : Pos.State) :
  Pos.reachable pst ->
  (Pos.runningTotal pst == sumQ (map lineAmount (Pos.cart pst)))%Q /\
  (Pos.isComplimentaryMode pst = false ->
   forall now : Z, (total (Pos.newOrder now pst) == Pos.runningTotal pst)%Q).
Proof.
  intros Hreach.
  destruct (reachable_cartWellFormed pst Hreach) as (_ & _ & _ & _ & Hsum).
  split; [assumption |].
  intros Hpaid now. cbn [total Pos.newOrder].
  rewrite Hsum. apply calculateTotal_paid; [| assumption].
  now apply reachable_cart_wholeCents.
Qed.

Lemma running_total_is_cart_sum_witness :
  (Pos.runningTotal Examples.posAfterSession
   == sumQ (map lineAmount (Pos.cart Examples.posAfterSession)))%Q.
Proof.
  assert (Hreach : Pos.reachable Examples.posAfterSession).
  { apply reachable_session; [constructor |].
    repeat constructor; cbn; tauto. }
  exact (proj1 (running_total_is_cart_sum Examples.posAfterSession Hreach)).
Defined.

(** X6.  On a reachable page, the plus button of a cart line followed by
    its minus button gives back the cart, and the running total. *)
Theorem increase_then_remove_restores_cart (pst : Pos.State) (index : nat) :
  Pos.reachable pst ->
  let pst' := Pos.removeFromCart index (Pos.increaseQuantity index pst) in
  Pos.cart pst' = Pos.cart pst /\
  (Pos.runningTotal pst' == Pos.runningTotal pst)%Q.
Proof.
  intros Hreach pst'. subst pst'.
  destruct (reachable_cartWellFormed pst Hreach) as (_ & Hqty & _).
  unfold Pos.increaseQuantity.
  destruct (nth_error (Pos.cart pst) index) as [item |] eqn:Hnth.
  - pose proof (proj1 (List.Forall_forall _ _) Hqty item
                  (nth_error_In _ _ Hnth)) as Hq.
    cbv beta in Hq.
    assert (Hlt : (index < length (Pos.cart pst))%nat).
    { apply nth_error_Some. now rewrite Hnth. }
    unfold Pos.removeFromCart.
    cbn [Pos.cart Pos.runningTotal Pos.setRunningTotal Pos.setCart].
    assert (Hnth' :
              nth_error
                (<[index := Pos.cartLine item (flavor item) (quantity item + 1)]>
                   (Pos.cart pst)) index
              = Some (Pos.cartLine item (flavor item) (quantity item + 1))).
    { clear Hnth Hq Hqty. revert index Hlt.
      induction (Pos.cart pst) as [| a l IH]; intros [| i] Hlt;
        cbn in Hlt |- *; try lia; [reflexivity |].
      apply IH. lia. }
    rewrite Hnth'. cbn [quantity flavor price Pos.cartLine].
    destruct (Z.ltb_spec 1 (quantity item + 1)) as [_ | Hbad]; [| lia].
    cbn [Pos.cart Pos.runningTotal Pos.setRunningTotal Pos.setCart].
    split.
    + rewrite list_insert_insert_eq.
      assert (Hback :
                Pos.cartLine
                  (Pos.cartLine item (flavor item) (quantity item + 1))
                  (flavor item) (quantity item + 1 - 1)
                = item).
      { destruct item. unfold Pos.cartLine. cbn. f_equal. lia. }
      rewrite Hback. apply list_insert_id.
      clear Hnth' Hq Hqty Hlt. revert index Hnth.
      induction (Pos.cart pst) as [| a l IH]; intros [| i] Hnth;
        cbn in Hnth |- *; try discriminate; [assumption |].
      now apply IH.
    + ring.
  - unfold Pos.removeFromCart. rewrite Hnth. split; reflexivity.
Qed.

Lemma increase_then_remove_restores_cart_witness :
  Pos.cart
    (Pos.removeFromCart 0 (Pos.increaseQuantity 0 Examples.posAfterSession))
  = Pos.cart Examples.posAfterSession.
Proof.
  assert (Hreach : Pos.reachable Examples.posAfterSession).
  { apply reachable_session; [constructor |].
    repeat constructor; cbn; tauto. }
  exact (proj1
           (increase_then_remove_restores_cart Examples.posAfterSession 0
              Hreach)).
Defined.

(** X7.  Placing an order with both name parts filled in stores it first
    in the persisted collection under the page's order number, and the
    numbering survives a reload: the page mounted again over the store
    continues with the number the running page moved to.  With a name part
    empty, the confirmation changes nothing. *)
Theorem order_numbers_continue_after_reload (now now' : Z) (pst : Pos.State) :
  (Pos.firstName (Pos.customerInfo pst) <> "" ->
   Pos.lastInitial (Pos.customerInfo pst) <> "" ->
   let pst' := Pos.confirmOrder now pst in
   let reloaded :=
     Pos.mount now' (Pos.ls_orders pst') (Pos.ls_lastOrderNumber pst') in
   Pos.ls_orders pst'
   = Some (Pos.newOrder now pst :: readOrders (Pos.ls_orders pst)) /\
   id (Pos.newOrder now pst) = Pos.orderNumber pst /\
   Pos.orderNumber pst' = (Pos.orderNumber pst + 1)%Z /\
   Pos.orderNumber reloaded = Pos.orderNumber pst' /\
   Pos.ls_orders reloaded = Pos.ls_orders pst' /\
   Pos.cart pst' = [] /\ Pos.runningTotal pst' = 0%Q) /\
  (Pos.firstName (Pos.customerInfo pst) = "" \/
   Pos.lastInitial (Pos.customerInfo pst) = "" ->
   Pos.confirmOrder now pst = pst).
Proof.
  split.
  - intros Hfirst Hlast. unfold Pos.confirmOrder.
    apply String.eqb_neq in Hfirst, Hlast. rewrite Hfirst, Hlast.
    cbn. repeat split.
  - intros Hempty. unfold Pos.confirmOrder.
    destruct Hempty as [-> | ->]; cbn; [reflexivity |].
    now rewrite orb_true_r.
Qed.

Lemma order_numbers_continue_after_reload_witness :
  Pos.orderNumber
    (Pos.mount 5000
       (Pos.ls_orders (Pos.confirmOrder 2000 Examples.posAfterSession))
       (Pos.ls_lastOrderNumber (Pos.confirmOrder 2000 Examples.posAfterSession)))
  = Pos.orderNumber (Pos.confirmOrder 2000 Examples.posAfterSession).
Proof.
  destruct (order_numbers_continue_after_reload 2000 5000
              Examples.posAfterSession) as [Hplaced _].
  assert (Hfirst : Pos.firstName (Pos.customerInfo Examples.posAfterSession)
                   <> "") by (vm_compute; discriminate).
  assert (Hlast : Pos.lastInitial (Pos.customerInfo Examples.posAfterSession)
                  <> "") by (vm_compute; discriminate).
  exact (proj1 (proj2 (proj2 (proj2 (Hplaced Hfirst Hlast))))).
Defined.

(** ** The list on display (orders page) *)

(** Inequalities between rationals built from [+], [-] and [inject_Z], read
    as inequalities between integers. *)
Ltac q_order :=
  unfold Qle, Qlt, Qminus, Qplus, Qopp, inject_Z; cbn [Qnum Qden];
  rewrite ?Pos2Z.inj_mul; lia.

Section SortProperties.
Context {A : Type} (compareFn : A -> A -> Q).

Lemma sort_insert_Permutation (x : A) (l : list A) :
  Permutation (sort_insert compareFn x l) (x :: l).
Proof.
  induction l as [| y l IH]; cbn [sort_insert]; [reflexivity |].
  destruct (Qle_bool (compareFn x y) 0); [reflexivity |].
  rewrite IH. apply perm_swap.
Qed.

Lemma Array_sort_Permutation (l : list A) :
  Permutation (Array_sort compareFn l) l.
Proof.
  induction l as [| x l IH]; cbn; [reflexivity |].
  rewrite sort_insert_Permutation. now constructor.
Qed.

(** A comparator that orders by a numeric key, larger keys first. *)
Variable key : A -> Q.
Hypothesis compare_key :
  forall a b : A, Qle_bool (compareFn a b) 0 = true <-> (key b <= key a)%Q.

Lemma sort_insert_descending (x : A) (l : list A) :
  Sorted (fun a b => (key b <= key a)%Q) l ->
  Sorted (fun a b => (key b <= key a)%Q) (sort_insert compareFn x l).
Proof.
  induction 1 as [| y l Hl IH Hhd]; cbn [sort_insert].
  - repeat constructor.
  - destruct (Qle_bool (compareFn x y) 0) eqn:Hcmp.
    + repeat constructor; [assumption | assumption |].
      now apply compare_key.
    + constructor; [assumption |].
      assert (Hxy : (key x <= key y)%Q).
      { apply Qlt_le_weak, Qnot_le_lt. intros Hle.
        apply compare_key in Hle. congruence. }
      destruct Hhd as [| z l' Hz]; cbn [sort_insert].
      * now constructor.
      * destruct (Qle_bool (compareFn x z) 0); now constructor.
Qed.

Lemma Array_sort_descending (l : list A) :
  Sorted (fun a b => (key b <= key a)%Q) (Array_sort compareFn l).
Proof.
  induction l as [| x l IH]; cbn; [constructor |].
  now apply sort_insert_descending.
Qed.

Lemma sort_insert_stable (q : Q) (x : A) (l : list A) :
  List.filter (fun a => Qeq_bool (key a) q) (sort_insert compareFn x l)
  = List.filter (fun a => Qeq_bool (key a) q) (x :: l).
Proof.
  induction l as [| y l IH]; cbn [sort_insert]; [reflexivity |].
  destruct (Qle_bool (compareFn x y) 0) eqn:Hcmp; [reflexivity |].
  assert (Hxy : (key x < key y)%Q).
  { apply Qnot_le_lt. intros Hle. apply compare_key in Hle. congruence. }
  cbn [List.filter] in IH |- *. rewrite IH.
  destruct (Qeq_bool (key x) q) eqn:Hx, (Qeq_bool (key y) q) eqn:Hy;
    try reflexivity.
  apply Qeq_bool_iff in Hx, Hy. rewrite Hx, Hy in Hxy.
  now apply Qlt_irrefl in Hxy.
Qed.

Lemma Array_sort_stable (q : Q) (l : list A) :
  List.filter (fun a => Qeq_bool (key a) q) (Array_sort compareFn l)
  = List.filter (fun a => Qeq_bool (key a) q) l.
Proof.
  induction l as [| x l IH]; cbn [Array_sort fold_right]; [reflexivity |].
  change (fold_right (sort_insert compareFn) [] l)
    with (Array_sort compareFn l).
  rewrite sort_insert_stable. cbn [List.filter]. now rewrite IH.
Qed.

End SortProperties.

(** The number an order is sorted by under each criterion of the page; any
    other criterion leaves all orders tied. *)
Definition sortKey (criteria : string) (order : Order) : Q :=
  if (criteria =? "timestamp")%string then inject_Z (timestamp order)
  else if (criteria =? "preparationTime")%string
       then js_or (preparationTime order) 0
  else if (criteria =? "queueTime")%string then queueTime order
  else 0%Q.

Lemma compareOrders_sortKey (criteria : string) (a b : Order) :
  Qle_bool (Orders.compareOrders criteria a b) 0 = true
  <-> (sortKey criteria b <= sortKey criteria a)%Q.
Proof.
  rewrite Qle_bool_iff. unfold Orders.compareOrders, sortKey.
  destruct (criteria =? "timestamp")%string.
  { split; intros H; revert H; q_order. }
  destruct (criteria =? "preparationTime")%string.
  { generalize (js_or (preparationTime a) 0), (js_or (preparationTime b) 0).
    intros x y. split; intros H; revert H; q_order. }
  destruct (criteria =? "queueTime")%string.
  { generalize (queueTime a), (queueTime b).
    intros x y. split; intros H; revert H; q_order. }
  split; intros _; apply Qle_refl.
Qed.

(** What the reversal for ascending order does to a list sorted by the
    page's comparator. *)
Lemma sorted_display (criteria direction : string) (passing : list Order) :
  let sorted := Array_sort (Orders.compareOrders criteria) passing in
  let shown := if (direction =? "asc")%string then rev sorted else sorted in
  let key := sortKey criteria in
  Permutation shown passing /\
  (direction <> "asc" ->
   Sorted (fun a b => (key b <= key a)%Q) shown /\
   forall q : Q,
     List.filter (fun a => Qeq_bool (key a) q) shown
     = List.filter (fun a => Qeq_bool (key a) q) passing) /\
  (direction = "asc" ->
   Sorted (fun a b => (key a <= key b)%Q) shown /\
   forall q : Q,
     List.filter (fun a => Qeq_bool (key a) q) shown
     = rev (List.filter (fun a => Qeq_bool (key a) q) passing)).
Proof.
  intros sorted shown key. subst shown sorted.
  pose proof (Array_sort_Permutation (Orders.compareOrders criteria) passing)
    as Hperm.
  pose proof (Array_sort_descending _ key (compareOrders_sortKey criteria)
                passing)
    as Hsorted.
  pose proof (fun q => Array_sort_stable _ key (compareOrders_sortKey criteria)
                         q passing)
    as Hstable.
  split; [| split].
  - destruct (direction =? "asc")%string; [| assumption].
    now rewrite <- Permutation_rev.
  - intros Hdesc. apply String.eqb_neq in Hdesc. rewrite Hdesc. now split.
  - intros Hasc. apply String.eqb_eq in Hasc. rewrite Hasc. split.
    + rewrite rev_alt. now apply (Sorted_reverse _ _ Hsorted).
    + intros q. now rewrite List.filter_rev, Hstable.
Qed.

Lemma filter_when (enabled : bool) (p : Order -> bool) (l : list Order) :
  (if enabled then List.filter p l else l)
  = List.filter (fun order => negb enabled || p order) l.
Proof.
  destruct enabled; cbn [negb orb]; [reflexivity |].
  symmetry. apply forallb_filter_id. now apply forallb_forall.
Qed.

Lemma filter_filter {A : Type} (p q : A -> bool) (l : list A) :
  List.filter q (List.filter p l) = List.filter (fun x => p x && q x) l.
Proof.
  induction l as [| x l IH]; cbn [List.filter]; [reflexivity |].
  destruct (p x); cbn [List.filter andb]; [| assumption].
  destruct (q x); now rewrite IH.
Qed.

(** The orders the status filter lets through. *)
Definition passesStatusFilter (st : Orders.State) (order : Order) : bool :=
  (Orders.statusFilter st =? "All")%string
  || (status order =? Orders.statusFilter st)%string.

Section SearchResults.
Variable toLowerCase : string -> string.
Variable includes : string -> string -> bool.

(** The orders the search form lets through: each field that is filled in
    must match. *)
Definition passesSearch (searchFilters : Orders.SearchFilters) (order : Order)
  : bool :=
  ((Orders.search_customerName searchFilters =? "")%string
   || includes (toLowerCase (customerName order))
        (toLowerCase (Orders.search_customerName searchFilters)))
  && ((Orders.search_orderId searchFilters =? "")%string
      || includes (Z_toString (id order)) (Orders.search_orderId searchFilters))
  && ((Orders.search_itemName searchFilters =? "")%string
      || existsb
           (fun item =>
              includes (toLowerCase (name item))
                (toLowerCase (Orders.search_itemName searchFilters)))
           (items order))
  && match Orders.search_dateStart searchFilters,
           Orders.search_dateEnd searchFilters with
     | Some startDate, Some endDate =>
         (startDate <=? timestamp order)%Z && (timestamp order <=? endDate)%Z
     | _, _ => true
     end.

Lemma filterAndSortOrdersWithSearch_shown
    (searchFilters : Orders.SearchFilters) (st : Orders.State) :
  Orders.filteredOrders
    (Orders.filterAndSortOrdersWithSearch toLowerCase includes searchFilters st)
  = let sorted :=
      Array_sort (Orders.compareOrders (Orders.sortCriteria st))
        (List.filter
           (fun order =>
              passesStatusFilter st order && passesSearch searchFilters order)
           (Orders.orders st)) in
    if (Orders.sortDirection st =? "asc")%string then rev sorted else sorted.
Proof.
  unfold Orders.filterAndSortOrdersWithSearch.
  cbn [Orders.filteredOrders Orders.setFilteredOrders]. cbv zeta.
  match goal with
  | |- (if _ then rev (Array_sort _ ?l) else _) = _ =>
      assert (Hpassing :
                l = List.filter
                      (fun order =>
                         passesStatusFilter st order
                         && passesSearch searchFilters order)
                      (Orders.orders st));
        [| now rewrite Hpassing]
  end.
  rewrite !filter_when.
  assert (Hdates :
            forall l : list Order,
              match Orders.search_dateStart searchFilters,
                    Orders.search_dateEnd searchFilters with
              | Some startDate, Some endDate =>
                  List.filter
                    (fun order =>
                       (startDate <=? timestamp order)%Z
                       && (timestamp order <=? endDate)%Z)
                    l
              | _, _ => l
              end
              = List.filter
                  (fun order =>
                     match Orders.search_dateStart searchFilters,
                           Orders.search_dateEnd searchFilters with
                     | Some startDate, Some endDate =>
                         (startDate <=? timestamp order)%Z
                         && (timestamp order <=? endDate)%Z
                     | _, _ => true
                     end)
                  l).
  { intros l.
    destruct (Orders.search_dateStart searchFilters),
      (Orders.search_dateEnd searchFilters);
      try reflexivity;
      symmetry; apply forallb_filter_id; now apply forallb_forall. }
  rewrite Hdates, !filter_filter.
  apply filter_ext. intros order.
  unfold passesStatusFilter, passesSearch.
  rewrite !negb_involutive, !andb_assoc. reflexivity.
Qed.

(** X8.  On the orders page, the list on display is a rearrangement of the
    active orders that pass the status filter and every search field that
    is filled in, none lost and none repeated.  In descending order (the
    default) the sort keys never increase down the list and orders with
    equal keys keep the order they have in the active list; in ascending
    order the list is the descending one reversed, so keys never decrease
    and orders with equal keys come in reverse.  With an empty search form
    the list is the one the earlier copy of the page displays. *)
Theorem displayed_orders_are_sorted
    (searchFilters : Orders.SearchFilters) (st : Orders.State) :
  let shown :=
    Orders.filteredOrders
      (Orders.filterAndSortOrdersWithSearch toLowerCase includes searchFilters
         st) in
  let passing :=
    List.filter
      (fun order =>
         passesStatusFilter st order && passesSearch searchFilters order)
      (Orders.orders st) in
  let key := sortKey (Orders.sortCriteria st) in
  Permutation shown passing /\
  (Orders.sortDirection st <> "asc" ->
   Sorted (fun a b => (key b <= key a)%Q) shown /\
   forall q : Q,
     List.filter (fun a => Qeq_bool (key a) q) shown
     = List.filter (fun a => Qeq_bool (key a) q) passing) /\
  (Orders.sortDirection st = "asc" ->
   Sorted (fun a b => (key a <= key b)%Q) shown /\
   forall q : Q,
     List.filter (fun a => Qeq_bool (key a) q) shown
     = rev (List.filter (fun a => Qeq_bool (key a) q) passing)) /\
  (searchFilters = Orders.mkSearchFilters "" "" "" None None ->
   shown = Orders.filteredOrders (Orders.filterAndSortOrders st)).
Proof.
  intros shown passing key. subst shown.
  rewrite filterAndSortOrdersWithSearch_shown. cbv zeta. fold passing.
  destruct (sorted_display (Orders.sortCriteria st) (Orders.sortDirection st)
              passing) as (Hperm & Hdesc & Hasc).
  cbv zeta in Hperm, Hdesc, Hasc.
  split; [assumption |]. split; [assumption |]. split; [assumption |].
  intros Hempty.
  assert (Hsame :
            (if negb (Orders.statusFilter st =? "All")%string
             then List.filter
                    (fun order =>
                       (status order =? Orders.statusFilter st)%string)
                    (Orders.orders st)
             else Orders.orders st)
            = passing).
  { rewrite filter_when. subst passing. apply filter_ext. intros order.
    rewrite Hempty. unfold passesStatusFilter, passesSearch. cbn.
    now rewrite negb_involutive, andb_true_r. }
  unfold Orders.filterAndSortOrders.
  cbn [Orders.filteredOrders Orders.setFilteredOrders]. cbv zeta.
  now rewrite Hsame.
Qed.

End SearchResults.

(** ** What becomes of a cancelled order's record *)

Lemma updateOne_id (now orderId : Z) (newStatus : string) (order : Order) :
  id (Orders.updateOne now orderId newStatus order) = id order.
Proof.
  unfold Orders.updateOne.
  destruct (id order =? orderId)%Z; [| reflexivity].
  destruct (newStatus =? "Completed")%string; [| reflexivity].
  now destruct (startTime order).
Qed.

Lemma cancelOrder_active_ids (orderId : Z) (st : Orders.State) (o : Order) :
  In o (Orders.orders (Orders.cancelOrder true orderId st)) ->
  id o <> orderId.
Proof.
  cbn. intros Hin. apply filter_In in Hin. destruct Hin as [_ Hid].
  intros Heq. rewrite Heq, Z.eqb_refl in Hid. discriminate.
Qed.

(** X9.  A confirmed cancellation marks the order 'Cancelled' in the
    historical list and takes it out of the active list and of the
    persisted collection.  The mark does not last: the next status update,
    lead-interest record or notes update rebuilds the historical list from
    the active one, and a reload rebuilds it from the persisted
    collection, so after any of them no list of the page holds an order
    with the cancelled id. *)
Theorem cancelled_record_is_dropped_by_next_update
    (st : Orders.State) (cancelled : Z) :
  let st1 := Orders.cancelOrder true cancelled st in
  (forall o : Order,
      In o (Orders.allOrders st) -> id o = cancelled ->
      In (with_status o "Cancelled") (Orders.allOrders st1)) /\
  (forall o : Order,
      In o (Orders.orders st1) \/ In o (readOrders (Orders.ls_orders st1)) ->
      id o <> cancelled) /\
  (forall (now orderId : Z) (newStatus : string) (o : Order),
      In o (Orders.allOrders
              (Orders.updateOrderStatus now orderId newStatus st1)) ->
      id o <> cancelled) /\
  (forall (orderId : Z) (interested : bool) (o : Order),
      In o (Orders.allOrders
              (Orders.recordLeadInterest orderId interested st1)) ->
      id o <> cancelled) /\
  (forall (orderId : Z) (text : string) (o : Order),
      In o (Orders.allOrders (Orders.updateOrderNotes orderId text st1)) ->
      id o <> cancelled) /\
  (forall o : Order,
      In o (Orders.allOrders (Orders.loadOrders st1)) -> id o <> cancelled).
Proof.
  intros st1.
  assert (Hactive : forall o : Order,
             In o (Orders.orders st1) -> id o <> cancelled).
  { intros o. apply cancelOrder_active_ids. }
  split; [| split; [| split; [| split; [| split]]]].
  - intros o Hin Hid. subst st1. cbn. apply in_map_iff.
    exists o. split; [| assumption].
    apply Z.eqb_eq in Hid. now rewrite Hid.
  - intros o [Hin | Hin]; now apply Hactive.
  - intros now orderId newStatus o Hin.
    cbn [Orders.allOrders Orders.updateOrderStatus Orders.showMessage
         Orders.storeOrders Orders.setAllOrders] in Hin.
    apply in_map_iff in Hin. destruct Hin as [o' [<- Hin]].
    rewrite updateOne_id. now apply Hactive.
  - intros orderId interested o Hin.
    cbn [Orders.allOrders Orders.recordLeadInterest Orders.showMessage
         Orders.storeOrders Orders.setAllOrders] in Hin.
    apply in_map_iff in Hin. destruct Hin as [o' [<- Hin]].
    destruct (id o' =? orderId)%Z; cbn [id with_leadInterest];
      now apply Hactive.
  - intros orderId text o Hin.
    cbn [Orders.allOrders Orders.updateOrderNotes Orders.showMessage
         Orders.storeOrders Orders.setAllOrders] in Hin.
    apply in_map_iff in Hin. destruct Hin as [o' [<- Hin]].
    destruct (id o' =? orderId)%Z; cbn [id with_notes]; now apply Hactive.
  - intros o Hin. now apply Hactive.
Qed.

(** ** Restarting the ids, again *)

Lemma map_index_from_ids (l : list Order) :
  forall i : Z,
    map id (map_index_from (fun order index => with_id order (index + 1)%Z) i l)
    = map (fun k => (i + Z.of_nat k + 1)%Z) (seq 0 (length l)).
Proof.
  induction l as [| o l IH]; intros i; cbn [map_index_from map length seq].
  - reflexivity.
  - f_equal; [cbn; lia |].
    rewrite IH, <- seq_shift, map_map. apply map_ext. intros k. lia.
Qed.

Lemma map_index_from_again (l : list Order) :
  forall i : Z,
    map_index_from (fun order index => with_id order (index + 1)%Z) i
      (map_index_from (fun order index => with_id order (index + 1)%Z) i l)
    = map_index_from (fun order index => with_id order (index + 1)%Z) i l.
Proof.
  induction l as [| o l IH]; intros i; cbn [map_index_from].
  - reflexivity.
  - now rewrite IH.
Qed.

Lemma consecutive_NoDup (n : nat) :
  List.NoDup (map (fun k => (0 + Z.of_nat k + 1)%Z) (seq 0 n)).
Proof.
  rewrite (map_ext _ (fun k => (1 + Z.of_nat k)%Z)) by (intros k; lia).
  apply shifted_seq_NoDup.
Qed.

(** X10.  After the id restart the ids of the active list are 1, 2, ... in
    list order, so no two active orders share an id, and likewise in the
    historical list; restarting once more changes nothing. *)
Theorem restart_gives_distinct_ids (st : Orders.State) :
  let st' := Orders.confirmRestartOrderId st in
  List.NoDup (map id (Orders.orders st')) /\
  List.NoDup (map id (Orders.allOrders st')) /\
  map id (Orders.filteredOrders st') = map id (Orders.orders st') /\
  Orders.confirmRestartOrderId st' = st'.
Proof.
  intros st'. subst st'. unfold Orders.confirmRestartOrderId, Array_map_index.
  cbn [Orders.orders Orders.allOrders Orders.filteredOrders Orders.storeOrders
       Orders.setFilteredOrders Orders.setAllOrders Orders.setOrders].
  rewrite !map_index_from_ids, !map_index_from_again.
  repeat split; apply consecutive_NoDup.
Qed.

(** ** Saving through the edit form *)

(** X11.  Saving the edit form without touching it keeps every active
    order at its position and every order with another id as it was.
    Opened with the Modify button, the form holds the order's own lines:
    the orders with the chosen id are stored as the first of them, with
    its lines, customer, status and complimentary flag, its notes (the
    empty text for none), and as total the sum of price times quantity
    over its lines, also when the order is complimentary and its total was
    0.  Opened with the notes button instead, the form still holds the
    lines an earlier Modify left in it, none on a freshly loaded page, and
    saving stores the order with those lines and their sum: on a freshly
    loaded page the order loses its lines and gets total 0. *)
Theorem saving_unedited_order_recomputes_total
    (st : Orders.State) (orderId : Z) (o : Order) :
  find (fun order => (id order =? orderId)%Z) (Orders.orders st) = Some o ->
  let modified := Orders.saveModifiedOrder (Orders.modifyOrder orderId st) in
  let viaNotes :=
    Orders.saveModifiedOrder (Orders.toggleEditNotes orderId st) in
  let text := match notes o with Some n => n | None => "" end in
  let keptLines :=
    with_items_notes_total o (items o) text (itemsTotal (items o)) in
  let staleLines :=
    with_items_notes_total o (Orders.editedItems st) text
      (itemsTotal (Orders.editedItems st)) in
  Orders.ls_orders modified = Some (Orders.orders modified) /\
  Orders.ls_orders viaNotes = Some (Orders.orders viaNotes) /\
  (forall (n : nat) (order : Order),
      nth_error (Orders.orders st) n = Some order ->
      nth_error (Orders.orders modified) n
      = Some (if (id order =? orderId)%Z then keptLines else order) /\
      nth_error (Orders.orders viaNotes) n
      = Some (if (id order =? orderId)%Z then staleLines else order)) /\
  (total keptLines == sumQ (map lineAmount (items o)))%Q /\
  (total staleLines == sumQ (map lineAmount (Orders.editedItems st)))%Q /\
  (Orders.editedItems st = [] ->
   items staleLines = [] /\ (total staleLines == 0)%Q).
Proof.
  intros Hfind modified viaNotes text keptLines staleLines.
  destruct (find_some _ _ Hfind) as [_ Hid]. apply Z.eqb_eq in Hid.
  assert (Hmodify : Orders.selectedOrder (Orders.modifyOrder orderId st)
                    = Some o).
  { unfold Orders.modifyOrder. now rewrite Hfind. }
  assert (Hnotes : Orders.selectedOrder (Orders.toggleEditNotes orderId st)
                   = Some o).
  { unfold Orders.toggleEditNotes. now rewrite Hfind. }
  split; [| split; [| split; [| split; [| split]]]].
  - subst modified. unfold Orders.saveModifiedOrder. now rewrite Hmodify.
  - subst viaNotes. unfold Orders.saveModifiedOrder. now rewrite Hnotes.
  - intros n order Hnth. rewrite <- Hid. split.
    + subst modified.
      rewrite (saveModifiedOrder_at _ o order n Hmodify).
      * unfold Orders.modifyOrder. now rewrite Hfind.
      * unfold Orders.modifyOrder. now rewrite Hfind.
    + subst viaNotes.
      rewrite (saveModifiedOrder_at _ o order n Hnotes).
      * unfold Orders.toggleEditNotes. now rewrite Hfind.
      * unfold Orders.toggleEditNotes. now rewrite Hfind.
  - apply itemsTotal_sum.
  - apply itemsTotal_sum.
  - intros Hnone. subst staleLines. rewrite Hnone. now split.
Qed.

Lemma saving_unedited_order_recomputes_total_witness :
  exists saved stale : Order,
    nth_error
      (Orders.orders
         (Orders.saveModifiedOrder
            (Orders.modifyOrder 1
               (Examples.pageOf [Examples.complimentaryWithLines]
                  [Examples.complimentaryWithLines]))))
      0
    = Some saved /\
    (total saved == 7)%Q /\
    nth_error
      (Orders.orders
         (Orders.saveModifiedOrder
            (Orders.toggleEditNotes 1
               (Examples.pageOf [Examples.complimentaryWithLines]
                  [Examples.complimentaryWithLines]))))
      0
    = Some stale /\
    items stale = [] /\
    (total stale == 0)%Q.
Proof.
  destruct (saving_unedited_order_recomputes_total
              (Examples.pageOf [Examples.complimentaryWithLines]
                 [Examples.complimentaryWithLines])
              1 Examples.complimentaryWithLines eq_refl)
    as (_ & _ & Hat & _).
  destruct (Hat 0%nat Examples.complimentaryWithLines eq_refl)
    as [Hmodified Hnotes].
  do 2 eexists.
  split; [exact Hmodified |]. split; [vm_compute; reflexivity |].
  split; [exact Hnotes |]. split; vm_compute; reflexivity.
Defined.

(** ** Durations as text *)

Lemma Qfloor_unique (x : Q) (z : Z) :
  (inject_Z z <= x)%Q -> (x < inject_Z (z + 1))%Q -> Qfloor x = z.
Proof.
  intros Hle Hlt.
  pose proof (Qfloor_le x) as Hfloor. pose proof (Qlt_floor x) as Hnext.
  assert (H1 : (Qfloor x < z + 1)%Z).
  { rewrite Zlt_Qlt. now apply Qle_lt_trans with x. }
  assert (H2 : (z < Qfloor x + 1)%Z).
  { rewrite Zlt_Qlt. now apply Qle_lt_trans with x. }
  lia.
Qed.

Lemma whole_minutes_and_seconds (seconds : Q) :
  (0 <= seconds)%Q ->
  Qfloor (seconds / 60) = (Qfloor seconds / 60)%Z /\
  Qfloor (js_rem seconds 60) = (Qfloor seconds mod 60)%Z.
Proof.
  intros Hpos.
  pose proof (Qfloor_le seconds) as Hfloor.
  pose proof (Qlt_floor seconds) as Hnext.
  rewrite inject_Z_plus in Hnext. change (inject_Z 1) with 1%Q in Hnext.
  pose proof (Z.div_mod (Qfloor seconds) 60 ltac:(discriminate)) as Hdiv.
  pose proof (Z.mod_pos_bound (Qfloor seconds) 60 ltac:(reflexivity)) as Hmod.
  set (f := Qfloor seconds) in *.
  set (m := (f / 60)%Z) in *. set (s := (f mod 60)%Z) in *.
  assert (Hf : (inject_Z f == 60 * inject_Z m + inject_Z s)%Q).
  { rewrite Hdiv at 1. rewrite inject_Z_plus, inject_Z_mult. reflexivity. }
  assert (Hs0 : (0 <= inject_Z s)%Q).
  { change 0%Q with (inject_Z 0). rewrite <- Zle_Qle. lia. }
  assert (Hs1 : (inject_Z s + 1 <= 60)%Q).
  { change 1%Q with (inject_Z 1). change 60%Q with (inject_Z 60).
    rewrite <- inject_Z_plus, <- Zle_Qle. lia. }
  assert (Hminutes : Qfloor (seconds / 60) = m).
  { apply Qfloor_unique; rewrite ?inject_Z_plus.
    - apply Qle_shift_div_l; [reflexivity |]. lra.
    - apply Qlt_shift_div_r; [reflexivity |].
      change (inject_Z 1) with 1%Q. lra. }
  split; [assumption |].
  unfold js_rem, Qtruncate.
  assert (Hsign : Qle_bool 0 (seconds / 60) = true).
  { apply Qle_bool_iff. apply Qle_shift_div_l; [reflexivity |]. lra. }
  rewrite Hsign, Hminutes.
  apply Qfloor_unique; rewrite ?inject_Z_plus; change (inject_Z 1) with 1%Q;
    lra.
Qed.

Lemma two_digits (s : Z) :
  (0 <= s < 60)%Z -> String.length (padStart2 (Z_toString s)) = 2%nat.
Proof.
  intros Hs.
  assert (Hall : forallb
                   (fun k =>
                      Nat.eqb
                        (String.length (padStart2 (Z_toString (Z.of_nat k))))
                        2)
                   (seq 0 60) = true) by (vm_compute; reflexivity).
  rewrite forallb_forall in Hall.
  specialize (Hall (Z.to_nat s)). rewrite Z2Nat.id in Hall by lia.
  apply Nat.eqb_eq, Hall, in_seq. lia.
Qed.

(** X12.  For a duration of [seconds] >= 0, possibly fractional,
    [formatTime] writes the whole minutes, a colon and the remaining whole
    seconds: with [n] the duration rounded down to whole seconds, the text
    is [n / 60], ":" and [n mod 60], and the seconds part always has
    exactly two characters. *)
Theorem formatTime_minutes_and_seconds (seconds : Q) :
  (0 <= seconds)%Q ->
  let m := (Qfloor seconds / 60)%Z in
  let s := (Qfloor seconds mod 60)%Z in
  Orders.formatTime seconds
  = (Z_toString m ++ ":" ++ padStart2 (Z_toString s))%string /\
  (0 <= m)%Z /\ (0 <= s < 60)%Z /\ (60 * m + s = Qfloor seconds)%Z /\
  String.length (padStart2 (Z_toString s)) = 2%nat.
Proof.
  intros Hpos m s.
  destruct (whole_minutes_and_seconds seconds Hpos) as [Hm Hs].
  assert (Hfloor : (0 <= Qfloor seconds)%Z).
  { change 0%Z with (Qfloor 0). now apply Qfloor_resp_le. }
  assert (Hbound : (0 <= s < 60)%Z) by (apply Z.mod_pos_bound; reflexivity).
  split; [| split; [| split; [| split]]].
  - unfold Orders.formatTime. cbv zeta. now rewrite Hm, Hs.
  - now apply Z.div_pos.
  - assumption.
  - subst m s. symmetry. apply Z.div_mod. discriminate.
  - now apply two_digits.
Qed.

Lemma formatTime_minutes_and_seconds_witness :
  Orders.formatTime (125 # 2) = "1:02".
Proof.
  assert (Hpos : (0 <= 125 # 2)%Q) by (apply Qle_bool_iff; reflexivity).
  destruct (formatTime_minutes_and_seconds (125 # 2) Hpos) as [Htext _].
  rewrite Htext. reflexivity.
Defined.

(** ** The moving average *)

(** X13.  [calculateMovingAverage] keeps the length of the series.  Its
    entry at index [n] is the mean of a window of [min (n + 1) periods]
    values, the ones at indices [n + 1 - w] to [n]: the window ends at the
    entry's own index, holds at most [periods] values and never reaches
    before the start of the series. *)
Theorem moving_average_window (data : list Q) (periods : Z) (n : nat) :
  (1 <= periods)%Z ->
  (n < length data)%nat ->
  let w := Nat.min (n + 1) (Z.to_nat periods) in
  let window := firstn w (skipn (n + 1 - w) data) in
  length (Reports.calculateMovingAverage data periods) = length data /\
  length window = w /\
  (forall j : nat,
      (j < w)%nat -> nth_error window j = nth_error data (n + 1 - w + j)) /\
  exists avg : Q,
    nth_error (Reports.calculateMovingAverage data periods) n = Some avg /\
    (avg == sumQ window / inject_Z (Z.of_nat w))%Q.
Proof.
  intros Hperiods Hn w window.
  assert (Hw : (1 <= w <= n + 1)%nat) by (subst w; lia).
  destruct (nth_error data n) as [x |] eqn:Hx;
    [| apply nth_error_None in Hx; lia].
  assert (Hlen : length window = w).
  { subst window. rewrite length_take, length_drop. lia. }
  split; [| split; [| split]].
  - apply map_index_from_length.
  - assumption.
  - intros j Hj. subst window. rewrite nth_error_firstn.
    destruct (Nat.ltb_spec j w); [| lia]. now rewrite nth_error_skipn.
  - exists (fold_left Qplus window 0%Q
            / inject_Z (Z.of_nat (length window)))%Q.
    split.
    + unfold Reports.calculateMovingAverage.
      rewrite (Array_map_index_nth _ data n x Hx). cbv zeta.
      unfold Reports.slice.
      replace (Z.to_nat (Z.max 0 (Z.of_nat n - periods + 1)))
        with (n + 1 - w)%nat by lia.
      replace (Z.to_nat (Z.of_nat n + 1)) with (n + 1)%nat by lia.
      replace (n + 1 - (n + 1 - w))%nat with w by lia.
      reflexivity.
    + rewrite Hlen.
      pose proof (fold_left_sum_acc (fun q : Q => q) window 0%Q) as Hsum.
      rewrite map_id in Hsum.
      change (fold_left Qplus window 0%Q)
        with (fold_left (fun sum q : Q => (sum + q)%Q) window 0%Q).
      rewrite Hsum, Qplus_0_l. reflexivity.
Qed.

Lemma moving_average_window_witness :
  exists avg : Q,
    nth_error (Reports.calculateMovingAverage [10; 20; 30; 60]%Q 2) 3
    = Some avg /\
    (avg == 45)%Q.
Proof.
  destruct (moving_average_window [10; 20; 30; 60]%Q 2 3 ltac:(lia)
              ltac:(cbn; lia))
    as (_ & _ & _ & avg & Hnth & Havg).
  exists avg. split; [exact Hnth |]. rewrite Havg. reflexivity.
Defined.

(** ** Orders by hour of the day *)

Lemma getHours_range (t : Z) : (0 <= Reports.getHours t < 24)%Z.
Proof.
  unfold Reports.getHours, Reports.msPerDay, Reports.msPerHour.
  pose proof (Z.mod_pos_bound t 86400000 ltac:(reflexivity)) as Hmod.
  split.
  - apply Z.div_pos; lia.
  - apply Z.div_lt_upper_bound; lia.
Qed.

Definition ordersOfHour (h : Z) (l : list Order) : list Order :=
  List.filter (fun order => (Reports.getHours (timestamp order) =? h)%Z) l.

Lemma ordersOfHour_app (h : Z) (l l' : list Order) :
  ordersOfHour h (l ++ l') = ordersOfHour h l ++ ordersOfHour h l'.
Proof. apply List.filter_app. Qed.

Lemma ordersOfHour_one (h : Z) (order : Order) :
  ordersOfHour h [order]
  = if (Reports.getHours (timestamp order) =? h)%Z then [order] else [].
Proof. reflexivity. Qed.

Lemma js_or_Z_some (v : Z) : js_or_Z (Some v) 0 = v.
Proof. cbn. now destruct (Z.eqb_spec v 0). Qed.

Lemma js_or_some (v : Q) : (js_or (Some v) 0 == v)%Q.
Proof.
  cbn. destruct (Qeq_bool v 0) eqn:Hv; [| reflexivity].
  apply Qeq_bool_iff in Hv. now rewrite Hv.
Qed.

Lemma hourlyOrders_snoc (l : list Order) (order : Order) :
  Reports.hourlyOrders (l ++ [order])
  = <[Reports.getHours (timestamp order) :=
        (js_or_Z (Reports.hourlyOrders l
                  !! Reports.getHours (timestamp order)) 0 + 1)%Z]>
      (Reports.hourlyOrders l).
Proof. unfold Reports.hourlyOrders. now rewrite fold_left_app. Qed.

Lemma hourlyOrders_count (h : Z) (l : list Order) :
  js_or_Z (Reports.hourlyOrders l !! h) 0
  = Z.of_nat (length (ordersOfHour h l)).
Proof.
  induction l as [| order l IH] using rev_ind.
  - reflexivity.
  - rewrite hourlyOrders_snoc, ordersOfHour_app, length_app, ordersOfHour_one.
    destruct (Z.eqb_spec (Reports.getHours (timestamp order)) h) as [-> | Hne].
    + rewrite lookup_insert_eq, js_or_Z_some, IH. cbn [length]. lia.
    + rewrite lookup_insert_ne by assumption. rewrite IH. cbn [length]. lia.
Qed.

Definition sumZ (l : list Z) : Z := fold_right Z.add 0%Z l.

Lemma indicator_sum (h : Z) (n : nat) :
  forall s : nat,
    sumZ (map (fun i => if (h =? Z.of_nat i)%Z then 1%Z else 0%Z) (seq s n))
    = if ((Z.of_nat s <=? h)%Z && (h <? Z.of_nat (s + n))%Z)%bool
      then 1%Z else 0%Z.
Proof.
  induction n as [| n IH]; intros s; cbn [seq map sumZ fold_right].
  - destruct (Z.leb_spec (Z.of_nat s) h), (Z.ltb_spec h (Z.of_nat (s + 0)));
      cbn; lia.
  - fold (sumZ (map (fun i => if (h =? Z.of_nat i)%Z then 1%Z else 0%Z)
                  (seq (S s) n))).
    rewrite IH.
    destruct (Z.eqb_spec h (Z.of_nat s)),
      (Z.leb_spec (Z.of_nat (S s)) h), (Z.ltb_spec h (Z.of_nat (S s + n))),
      (Z.leb_spec (Z.of_nat s) h), (Z.ltb_spec h (Z.of_nat (s + S n)));
      cbn; lia.
Qed.

Lemma hour_counts_sum (l : list Order) :
  sumZ (map (fun i => Z.of_nat (length (ordersOfHour (Z.of_nat i) l)))
          (seq 0 24))
  = Z.of_nat (length l).
Proof.
  induction l as [| order l IH].
  - reflexivity.
  - transitivity
      (sumZ (map (fun i =>
                    if (Reports.getHours (timestamp order) =? Z.of_nat i)%Z
                    then 1%Z else 0%Z)
               (seq 0 24))
       + sumZ (map (fun i => Z.of_nat (length (ordersOfHour (Z.of_nat i) l)))
                 (seq 0 24)))%Z.
    + generalize (seq 0 24). intros hours.
      induction hours as [| i hours IHh]; [reflexivity |].
      cbn [map sumZ fold_right] in IHh |- *.
      unfold sumZ in IHh. rewrite IHh.
      unfold ordersOfHour at 1. cbn [List.filter].
      fold (ordersOfHour (Z.of_nat i) l).
      destruct (Reports.getHours (timestamp order) =? Z.of_nat i)%Z;
        cbn [length]; lia.
    + rewrite IH, indicator_sum.
      pose proof (getHours_range (timestamp order)) as Hrange.
      destruct (Z.leb_spec (Z.of_nat 0) (Reports.getHours (timestamp order))),
        (Z.ltb_spec (Reports.getHours (timestamp order)) (Z.of_nat (0 + 24)));
        cbn [andb length]; lia.
Qed.

(** X14.  [ordersByHour] has one entry for each hour 0 to 23, in order;
    the entry of an hour counts the orders placed in that hour of the day,
    and the 24 counts add up to the number of orders in the range: every
    order is counted once. *)
Theorem ordersByHour_counts_every_order (filtered : list Order) :
  map Reports.hour (Reports.ordersByHour filtered) = map Z.of_nat (seq 0 24) /\
  (forall p : Reports.HourPoint,
      In p (Reports.ordersByHour filtered) ->
      Reports.hour_orders p
      = Z.of_nat (length (ordersOfHour (Reports.hour p) filtered))) /\
  sumZ (map Reports.hour_orders (Reports.ordersByHour filtered))
  = Reports.totalOrders filtered.
Proof.
  unfold Reports.ordersByHour. split; [| split].
  - rewrite map_map. reflexivity.
  - intros p Hin. apply in_map_iff in Hin. destruct Hin as [i [<- _]].
    cbn [Reports.hour Reports.hour_orders]. apply hourlyOrders_count.
  - rewrite map_map. cbn [Reports.hour_orders].
    rewrite (map_ext _ (fun i =>
                          Z.of_nat (length (ordersOfHour (Z.of_nat i) filtered))))
      by (intros i; apply hourlyOrders_count).
    apply hour_counts_sum.
Qed.

(** ** The peak hour *)

(** The revenue of the orders placed in hour [h] of the day. *)
Definition hourRevenue (h : Z) (l : list Order) : Q :=
  sumQ (map Reports.revenue (ordersOfHour h l)).

Lemma hourlyData_snoc (l : list Order) (order : Order) :
  Reports.hourlyData (l ++ [order])
  = <[Reports.getHours (timestamp order) :=
        (js_or (Reports.hourlyData l !! Reports.getHours (timestamp order)) 0
         + Reports.revenue order)%Q]>
      (Reports.hourlyData l).
Proof. unfold Reports.hourlyData. now rewrite fold_left_app. Qed.

Lemma hourlyData_lookup (h : Z) (l : list Order) :
  match Reports.hourlyData l !! h with
  | Some v => (v == hourRevenue h l)%Q /\ ordersOfHour h l <> []
  | None => ordersOfHour h l = []
  end.
Proof.
  induction l as [| order l IH] using rev_ind.
  - reflexivity.
  - rewrite hourlyData_snoc. unfold hourRevenue in *.
    rewrite ordersOfHour_app, ordersOfHour_one.
    destruct (Z.eqb_spec (Reports.getHours (timestamp order)) h) as [-> | Hne].
    + rewrite lookup_insert_eq. split.
      * rewrite map_app, sumQ_app. cbn [map]. rewrite sumQ_cons.
        destruct (Reports.hourlyData l !! h) as [v |].
        -- destruct IH as [IHv _]. rewrite js_or_some, IHv.
           cbn [sumQ fold_right]. ring.
        -- rewrite IH. cbn. ring.
      * intros Habs. apply app_eq_nil in Habs. destruct Habs; discriminate.
    + rewrite lookup_insert_ne by assumption. rewrite app_nil_r. exact IH.
Qed.

Lemma hourEntries_from {V : Type} (o : gmap Z V) (n : nat) :
  forall s : nat,
    let entries :=
      flat_map
        (fun i =>
           match o !! Z.of_nat i with
           | Some v => [(Z.of_nat i, v)]
           | None => []
           end)
        (seq s n) in
    StronglySorted (fun a b : Z * V => (fst a < fst b)%Z) entries /\
    forall (h : Z) (v : V),
      In (h, v) entries
      <-> (Z.of_nat s <= h < Z.of_nat (s + n))%Z /\ o !! h = Some v.
Proof.
  induction n as [| n IH]; intros s; cbn [seq flat_map].
  - split; [constructor |]. intros h v. cbn. split; [tauto | lia].
  - destruct (IH (S s)) as [IHsorted IHin]. cbv zeta in IHsorted, IHin.
    destruct (o !! Z.of_nat s) as [v0 |] eqn:Hs; cbn [app].
    + split.
      * constructor; [assumption |].
        apply List.Forall_forall. intros [h v] Hin.
        apply IHin in Hin. cbn [fst]. lia.
      * intros h v. cbn [In]. rewrite IHin. split.
        -- intros [[= <- <-] | [Hrange Hv]]; split; try assumption; lia.
        -- intros [Hrange Hv].
           destruct (Z.eq_dec h (Z.of_nat s)) as [-> | Hne].
           ++ left. congruence.
           ++ right. split; [lia | assumption].
    + split; [assumption |].
      intros h v. rewrite IHin. split.
      * intros [Hrange Hv]. split; [lia | assumption].
      * intros [Hrange Hv]. split; [| assumption].
        destruct (Z.eq_dec h (Z.of_nat s)) as [-> | Hne]; [congruence | lia].
Qed.

(** Folding [a[1] > b[1] ? a : b] over entries in ascending key order
    ends on the largest value, and among the entries that reach it on the
    last one. *)
Lemma peak_fold (rest : list (Z * Q)) :
  forall first : Z * Q,
    StronglySorted (fun a b : Z * Q => (fst a < fst b)%Z) (first :: rest) ->
    let r :=
      fold_left (fun a b => if negb (Qle_bool (snd a) (snd b)) then a else b)
        rest first in
    In r (first :: rest) /\
    forall x : Z * Q,
      In x (first :: rest) ->
      (snd x <= snd r)%Q /\ ((snd x == snd r)%Q -> (fst x <= fst r)%Z).
Proof.
  induction rest as [| b rest IH]; intros first Hsorted; cbn [fold_left].
  - split; [now left |].
    intros x [<- | []]. split; [apply Qle_refl | lia].
  - inversion Hsorted as [| ? ? Hrest Hall]; subst.
    inversion Hrest as [| ? ? Hrest' Hall']; subst.
    inversion Hall as [| ? ? Hb Hall'']; subst.
    destruct (Qle_bool (snd first) (snd b)) eqn:Hcmp; cbn [negb].
    + apply Qle_bool_iff in Hcmp.
      destruct (IH b Hrest) as [Hin Hmax]. cbv zeta in Hin, Hmax.
      split; [now right |].
      intros x [<- | Hx]; [| now apply Hmax].
      destruct (Hmax b (or_introl eq_refl)) as [Hle _].
      split; [lra |]. intros _.
      assert (Hlater : (fst first < fst (fold_left
                 (fun a b0 => if negb (Qle_bool (snd a) (snd b0)) then a else b0)
                 rest b))%Z).
      { now apply (proj1 (List.Forall_forall _ _) Hall). }
      lia.
    + assert (Hgt : (snd b < snd first)%Q).
      { apply Qnot_le_lt. intros Hle. apply Qle_bool_iff in Hle. congruence. }
      assert (Hsorted' :
                StronglySorted (fun a b0 : Z * Q => (fst a < fst b0)%Z)
                  (first :: rest)) by now constructor.
      destruct (IH first Hsorted') as [Hin Hmax]. cbv zeta in Hin, Hmax.
      split.
      * destruct Hin as [Hin | Hin]; [now left | right; now right].
      * destruct (Hmax first (or_introl eq_refl)) as [Hle _].
        intros x [<- | [<- | Hx]].
        -- now apply Hmax; left.
        -- split; [lra | intros Heq; lra].
        -- apply Hmax. now right.
Qed.

Lemma ordersOfHour_own (order : Order) (l : list Order) :
  In order l -> In order (ordersOfHour (Reports.getHours (timestamp order)) l).
Proof.
  intros Hin. apply filter_In. split; [assumption | apply Z.eqb_refl].
Qed.

(** On totals that are numbers, which is how [Reports] reads them:
    [peakHourSales] names the latest of the hours with the largest
    revenue. *)
Lemma peakHour_of_numbers (filtered : list Order) :
  (filtered = [] ->
   Reports.peakHourSales filtered = Reports.mkPeakHour None 0) /\
  (filtered <> [] ->
   exists h : Z,
     Reports.peak_hour (Reports.peakHourSales filtered) = Some h /\
     (exists order : Order,
         In order filtered /\ Reports.getHours (timestamp order) = h) /\
     (Reports.peak_sales (Reports.peakHourSales filtered)
      == hourRevenue h filtered)%Q /\
     forall order : Order,
       In order filtered ->
       let h' := Reports.getHours (timestamp order) in
       (hourRevenue h' filtered
        <= Reports.peak_sales (Reports.peakHourSales filtered))%Q /\
       ((hourRevenue h' filtered
         == Reports.peak_sales (Reports.peakHourSales filtered))%Q ->
        (h' <= h)%Z)).
Proof.
  split; [now intros -> |].
  intros Hsome.
  destruct (hourEntries_from (Reports.hourlyData filtered) 24 0)
    as [Hsorted Hentries].
  cbv zeta in Hsorted, Hentries.
  change (flat_map _ (seq 0 24))
    with (Reports.hourEntries (Reports.hourlyData filtered))
    in Hsorted, Hentries.
  assert (Hown : forall order : Order,
             In order filtered ->
             exists v : Q,
               In (Reports.getHours (timestamp order), v)
                 (Reports.hourEntries (Reports.hourlyData filtered)) /\
               (v == hourRevenue (Reports.getHours (timestamp order)) filtered)%Q).
  { intros order Hin.
    pose proof (hourlyData_lookup (Reports.getHours (timestamp order)) filtered)
      as Hlookup.
    destruct (Reports.hourlyData filtered
              !! Reports.getHours (timestamp order)) as [v |] eqn:Hv.
    - exists v. split; [| apply Hlookup].
      apply Hentries. split; [| assumption].
      pose proof (getHours_range (timestamp order)). lia.
    - apply ordersOfHour_own in Hin. rewrite Hlookup in Hin. contradiction. }
  unfold Reports.peakHourSales.
  destruct (Reports.hourEntries (Reports.hourlyData filtered))
    as [| first rest] eqn:Hlist.
  { destruct filtered as [| order l]; [contradiction |].
    destruct (Hown order (or_introl eq_refl)) as [v [[] _]]. }
  destruct (peak_fold rest first Hsorted) as [Hin Hmax].
  cbv zeta in Hin, Hmax.
  set (r := fold_left _ rest first) in *.
  cbn [Reports.peak_hour Reports.peak_sales].
  exists (fst r).
  assert (Hr : In (fst r, snd r) (first :: rest)) by now destruct r.
  apply Hentries in Hr. destruct Hr as [_ Hr].
  pose proof (hourlyData_lookup (fst r) filtered) as Hlookup.
  rewrite Hr in Hlookup. destruct Hlookup as [Hvalue Hplaced].
  split; [reflexivity |]. split; [| split; [assumption |]].
  - destruct (ordersOfHour (fst r) filtered) as [| order l] eqn:Hhour;
      [contradiction |].
    assert (Hin' : In order (ordersOfHour (fst r) filtered))
      by (rewrite Hhour; now left).
    apply filter_In in Hin'. destruct Hin' as [Hin' Heq].
    exists order. split; [assumption | now apply Z.eqb_eq].
  - intros order Hin'.
    destruct (Hown order Hin') as [v [Hentry Hv]].
    destruct (Hmax _ Hentry) as [Hle Htie]. cbn [fst snd] in Hle, Htie.
    rewrite <- Hv. split; [assumption |]. exact Htie.
Qed.

(** On a store whose totals are numbers the report code computes the
    hourly revenues and the peak hour that [Reports] says. *)
Lemma or_zero_of_number (x : option Q) :
  js_or_value (liftQ <$> x) (JsNum (Finite 0)) = liftQ (js_or x 0).
Proof.
  destruct x as [v |]; cbn; [| reflexivity].
  now destruct (Qeq_bool v 0).
Qed.

Lemma stored_hourlyData_fold (Number_toString : Q -> string)
    (l : list StoredOrder) :
  List.Forall numericTotal l ->
  forall acc : gmap Z Q,
    fold_left
      (fun acc order =>
         let hour_ := Reports.getHours (timestamp (typed order)) in
         <[hour_ := StoredReports.js_plus Number_toString
                      (js_or_value (acc !! hour_) (JsNum (Finite 0)))
                      (StoredReports.revenue order)]> acc)
      l (liftQ <$> acc)
    = liftQ <$>
        fold_left
          (fun acc order =>
             let hour_ := Reports.getHours (timestamp order) in
             <[hour_ := (js_or (acc !! hour_) 0 + Reports.revenue order)%Q]> acc)
          (map typed l) acc.
Proof.
  induction 1 as [| order l Hnum _ IH]; intros acc; cbn [fold_left map].
  - reflexivity.
  - cbv zeta. rewrite lookup_fmap, or_zero_of_number.
    rewrite (revenue_of_number order Hnum).
    cbn [StoredReports.js_plus liftQ num_add].
    rewrite <- IH. f_equal. now rewrite fmap_insert.
Qed.

Lemma stored_hourlyData_of_numbers (Number_toString : Q -> string)
    (l : list StoredOrder) :
  List.Forall numericTotal l ->
  StoredReports.hourlyData Number_toString l
  = liftQ <$> Reports.hourlyData (map typed l).
Proof.
  intros Hnum. unfold StoredReports.hourlyData, Reports.hourlyData.
  rewrite <- (stored_hourlyData_fold Number_toString l Hnum ∅).
  now rewrite fmap_empty.
Qed.

Definition liftEntry (entry : Z * Q) : Z * JsValue :=
  (fst entry, liftQ (snd entry)).

Lemma hourEntries_of_numbers (o : gmap Z Q) :
  Reports.hourEntries (liftQ <$> o) = map liftEntry (Reports.hourEntries o).
Proof.
  unfold Reports.hourEntries.
  induction (seq 0 24) as [| i hours IH]; cbn [flat_map]; [reflexivity |].
  rewrite map_app, IH, lookup_fmap.
  now destruct (o !! Z.of_nat i).
Qed.

Lemma peak_fold_of_numbers (rest : list (Z * Q)) :
  forall first : Z * Q,
    fold_left (fun a b => if js_gt (snd a) (snd b) then a else b)
      (map liftEntry rest) (liftEntry first)
    = liftEntry
        (fold_left
           (fun a b => if negb (Qle_bool (snd a) (snd b)) then a else b)
           rest first).
Proof.
  induction rest as [| b rest IH]; intros first; cbn [fold_left map].
  - reflexivity.
  - cbn [liftEntry snd js_gt liftQ ToNumber num_gt].
    destruct (negb (Qle_bool (snd first) (snd b))); apply IH.
Qed.

Lemma stored_peakHourSales_of_numbers (Number_toString : Q -> string)
    (l : list StoredOrder) :
  List.Forall numericTotal l ->
  StoredReports.peakHourSales Number_toString l
  = StoredReports.mkPeakHour
      (Reports.peak_hour (Reports.peakHourSales (map typed l)))
      (liftQ (Reports.peak_sales (Reports.peakHourSales (map typed l)))).
Proof.
  intros Hnum. unfold StoredReports.peakHourSales, Reports.peakHourSales.
  rewrite (stored_hourlyData_of_numbers Number_toString l Hnum).
  rewrite hourEntries_of_numbers.
  destruct (Reports.hourEntries (Reports.hourlyData (map typed l)))
    as [| first rest]; cbn [map]; [reflexivity |].
  now rewrite peak_fold_of_numbers.
Qed.

(** X15.  [peakHourSales] on a store whose totals are numbers (as the
    edit form of the orders page writes them; complimentary orders count
    for 0 whatever they hold).  It answers 'N/A' with sales 0 when there
    is no order in the range.  Otherwise it names an hour of the day in
    which an order was placed; the sales it reports are the revenue of
    that hour, no hour with an order has a larger revenue, and when
    several hours reach that revenue it names the latest of them. *)
Theorem peakHourSales_is_latest_best_hour
    (Number_toString : Q -> string) (filtered : list StoredOrder) :
  List.Forall numericTotal filtered ->
  let peak := StoredReports.peakHourSales Number_toString filtered in
  (filtered = [] -> peak = StoredReports.mkPeakHour None (JsNum (Finite 0))) /\
  (filtered <> [] ->
   exists (h : Z) (v : Q),
     StoredReports.peak_hour peak = Some h /\
     StoredReports.peak_sales peak = JsNum (Finite v) /\
     (exists order : StoredOrder,
         In order filtered /\
         Reports.getHours (timestamp (typed order)) = h) /\
     (v == hourRevenue h (map typed filtered))%Q /\
     forall order : StoredOrder,
       In order filtered ->
       let h' := Reports.getHours (timestamp (typed order)) in
       (hourRevenue h' (map typed filtered) <= v)%Q /\
       ((hourRevenue h' (map typed filtered) == v)%Q -> (h' <= h)%Z)).
Proof.
  intros Hnum peak. subst peak.
  split; [now intros -> |].
  intros Hsome.
  rewrite (stored_peakHourSales_of_numbers Number_toString filtered Hnum).
  cbn [StoredReports.peak_hour StoredReports.peak_sales].
  destruct (peakHour_of_numbers (map typed filtered)) as [_ Hpeak].
  destruct Hpeak as (h & Hhour & (placed & Hplaced & Hat) & Hvalue & Hbest).
  { intros Hnil. apply map_eq_nil in Hnil. contradiction. }
  exists h, (Reports.peak_sales (Reports.peakHourSales (map typed filtered))).
  split; [exact Hhour |]. split; [reflexivity |].
  split; [| split; [exact Hvalue |]].
  - apply in_map_iff in Hplaced. destruct Hplaced as (order & <- & Hin).
    now exists order.
  - intros order Hin. apply (Hbest (typed order)). now apply in_map.
Qed.

Lemma peakHourSales_is_latest_best_hour_witness :
  exists v : Q,
    StoredReports.peakHourSales Examples.Number_toString
      [Examples.storedEdited; Examples.storedGift]
    = StoredReports.mkPeakHour (Some 0%Z) (JsNum (Finite v)) /\
    (v == 10)%Q.
Proof.
  destruct (peakHourSales_is_latest_best_hour Examples.Number_toString
              [Examples.storedEdited; Examples.storedGift])
    as [_ Hpeak].
  - apply List.Forall_cons; [right; reflexivity |].
    apply List.Forall_cons; [left; reflexivity | apply List.Forall_nil].
  - destruct Hpeak as (h & v & Hhour & Hsales & _ & Hvalue & _);
      [discriminate |].
    exists v.
    assert (Hh : h = 0%Z).
    { vm_compute in Hhour. now injection Hhour. }
    subst h. split.
    + destruct (StoredReports.peakHourSales Examples.Number_toString
                  [Examples.storedEdited; Examples.storedGift])
        as [hour sales].
      cbn in Hhour, Hsales. now subst.
    + rewrite Hvalue. reflexivity.
Defined.

(** ** Averages *)

(** The preparation times recorded on the orders of a list. *)
Definition preparationTimes (l : list Order) : list Q :=
  flat_map
    (fun order =>
       match preparationTime order with
       | Some p => [p]
       | None => []
       end)
    l.

Lemma timed_orders (l : list Order) :
  let timed :=
    List.filter
      (fun order =>
         match preparationTime order with Some _ => true | None => false end)
      l in
  length timed = length (preparationTimes l) /\
  (fold_left (fun sum order => sum + js_or (preparationTime order) 0) timed 0
   == sumQ (preparationTimes l))%Q.
Proof.
  cbv zeta. rewrite fold_left_sum_acc, Qplus_0_l.
  induction l as [| order l [IHlen IHsum]]; [now split |].
  cbn [List.filter preparationTimes flat_map].
  fold (preparationTimes l).
  destruct (preparationTime order) as [p |] eqn:Hp; cbn [app length map].
  - split; [now rewrite IHlen |].
    rewrite !sumQ_cons, IHsum, Hp, js_or_some. reflexivity.
  - now split.
Qed.

(** X16.  [averagePreparationTime] is 0 when no order of the range has a
    preparation time.  Otherwise it is a whole number of seconds within
    half a second of the mean of the recorded preparation times, orders
    without one being left out of the mean. *)
Theorem averagePreparationTime_rounds_the_mean (filtered : list Order) :
  let times := preparationTimes filtered in
  (times = [] -> Reports.averagePreparationTime filtered = 0%Z) /\
  (times <> [] ->
   let mean := (sumQ times / inject_Z (Z.of_nat (length times)))%Q in
   (mean - (1 # 2) < inject_Z (Reports.averagePreparationTime filtered))%Q /\
   (inject_Z (Reports.averagePreparationTime filtered) <= mean + (1 # 2))%Q).
Proof.
  intros times. unfold Reports.averagePreparationTime. cbv zeta.
  destruct (timed_orders filtered) as [Hlen Hsum]. cbv zeta in Hlen, Hsum.
  rewrite Hlen. fold times in Hlen, Hsum |- *.
  split.
  - intros ->. reflexivity.
  - intros Hsome.
    destruct (Z.eqb_spec (Z.of_nat (length times)) 0) as [Hzero | _].
    { destruct times; [contradiction | discriminate]. }
    unfold Math_round.
    set (x := (fold_left _ _ _ / _)%Q).
    assert (Hx : (x == sumQ times / inject_Z (Z.of_nat (length times)))%Q).
    { subst x. now rewrite Hsum. }
    pose proof (Qfloor_le (x + (1 # 2))) as Hlow.
    pose proof (Qlt_floor (x + (1 # 2))) as Hhigh.
    rewrite inject_Z_plus in Hhigh. change (inject_Z 1) with 1%Q in Hhigh.
    rewrite <- Hx. split; lra.
Qed.

Lemma sumZ_cons (x : Z) (l : list Z) : sumZ (x :: l) = (x + sumZ l)%Z.
Proof. reflexivity. Qed.

Lemma fold_left_sumZ {A : Type} (f : A -> Z) (l : list A) :
  forall acc : Z,
    fold_left (fun sum x => (sum + f x)%Z) l acc = (acc + sumZ (map f l))%Z.
Proof.
  induction l as [| x l IH]; intros acc; cbn [fold_left map].
  - cbn. lia.
  - rewrite IH, sumZ_cons. lia.
Qed.

Lemma sumZ_app (l l' : list Z) : sumZ (l ++ l') = (sumZ l + sumZ l')%Z.
Proof.
  induction l as [| x l IH]; cbn [app]; [reflexivity |].
  rewrite !sumZ_cons, IH. lia.
Qed.

(** X17.  [averageItemsPerOrder] is 0 when the range has no order, and
    otherwise the number of items sold, the quantities of all lines of all
    orders added up, divided by the number of orders. *)
Theorem averageItemsPerOrder_is_items_per_order (filtered : list Order) :
  (filtered = [] -> Reports.averageItemsPerOrder filtered = 0%Q) /\
  (filtered <> [] ->
   Reports.averageItemsPerOrder filtered
   = (inject_Z (sumZ (map quantity (flat_map items filtered)))
      / inject_Z (Reports.totalOrders filtered))%Q).
Proof.
  split; [now intros -> |].
  intros Hsome. unfold Reports.averageItemsPerOrder. cbv zeta.
  destruct (Z.ltb_spec 0 (Reports.totalOrders filtered)) as [_ | Hnone].
  - do 2 f_equal.
    rewrite (fold_left_sumZ
               (fun order =>
                  fold_left (fun itemSum item => (itemSum + quantity item)%Z)
                    (items order) 0%Z)).
    rewrite Z.add_0_l. clear Hsome.
    induction filtered as [| order l IH]; [reflexivity |].
    cbn [map flat_map]. rewrite sumZ_cons, map_app, sumZ_app, IH.
    f_equal. now rewrite fold_left_sumZ, Z.add_0_l.
  - unfold Reports.totalOrders in Hnone.
    destruct filtered; [contradiction | cbn in Hnone; lia].
Qed.

(** ** The sales trend *)







(** ** The inventory page *)

Lemma inventory_step_stored (st : Inventory.State) (e : Inventory.Event) :
  Inventory.inventory st = Inventory.readInventory (Inventory.ls_inventory st) ->
  Inventory.inventory (Inventory.step st e)
  = Inventory.readInventory (Inventory.ls_inventory (Inventory.step st e)).
Proof.
  intros Hstored.
  destruct e as [| item | item | | | form | nowText nowISO |]; cbn;
    try assumption.
  - unfold Inventory.confirmDelete.
    destruct (Inventory.selectedItem st); [reflexivity | assumption].
  - unfold Inventory.handleSaveItem.
    destruct (_ || _); [assumption | reflexivity].
Qed.

(** X19.  Through any session of adds, edits, deletions and form input
    on the inventory page, the inventory it holds is the one in the
    [inventory] slot of [localStorage]: every handler that changes the
    list stores it, so a reload shows the same inventory. *)
Theorem inventory_on_screen_is_stored
    (slot : option (list Inventory.InventoryItem))
    (events : list Inventory.Event) :
  let st := fold_left Inventory.step events (Inventory.mount slot) in
  Inventory.inventory st = Inventory.readInventory (Inventory.ls_inventory st) /\
  Inventory.inventory (Inventory.mount (Inventory.ls_inventory st))
  = Inventory.inventory st.
Proof.
  intros st.
  assert (Hstored : Inventory.inventory st
                    = Inventory.readInventory (Inventory.ls_inventory st)).
  { subst st.
    assert (Hmount : Inventory.inventory (Inventory.mount slot)
                     = Inventory.readInventory
                         (Inventory.ls_inventory (Inventory.mount slot)))
      by reflexivity.
    revert Hmount. generalize (Inventory.mount slot).
    induction events as [| e events IH]; intros st0 Hst0; cbn [fold_left].
    - assumption.
    - apply IH. now apply inventory_step_stored. }
  split; [assumption |]. now rewrite Hstored.
Qed.

Lemma filter_map_NoDup {A B : Type} (g : A -> B) (p : A -> bool) (l : list A) :
  List.NoDup (map g l) -> List.NoDup (map g (List.filter p l)).
Proof.
  induction l as [| x l IH]; cbn [map List.filter]; intros Hnodup.
  - constructor.
  - inversion Hnodup as [| ? ? Hfresh Hrest]; subst.
    destruct (p x); cbn [map]; [| now apply IH].
    constructor; [| now apply IH].
    intros Hin. apply Hfresh.
    apply in_map_iff in Hin. destruct Hin as [y [Hy Hin]].
    apply filter_In in Hin. apply in_map_iff. exists y. tauto.
Qed.

(** Renaming the entries equal to [a] into [b] keeps a list of distinct
    texts distinct, when [b] is [a] itself or occurs nowhere in it. *)
Lemma rename_NoDup (a b : string) (l : list string) :
  List.NoDup l ->
  b = a \/ ~ In b l ->
  List.NoDup (map (fun i => if (i =? a)%string then b else i) l).
Proof.
  intros Hnodup [-> | Hfresh].
  - rewrite (map_ext _ (fun i => i)); [now rewrite map_id |].
    intros i. now destruct (String.eqb_spec i a).
  - induction Hnodup as [| x l Hx Hl IH]; cbn [map]; constructor.
    + intros Hin. apply in_map_iff in Hin. destruct Hin as [y [Hy Hin]].
      destruct (String.eqb_spec x a) as [Hxa | Hxa];
        destruct (String.eqb_spec y a) as [Hya | Hya].
      * apply Hx. congruence.
      * apply Hfresh. right. congruence.
      * apply Hfresh. left. congruence.
      * apply Hx. congruence.
    + apply IH. intros Hin. apply Hfresh. now right.
Qed.

Lemma inventory_step_ids (st : Inventory.State) (e : Inventory.Event) :
  List.NoDup (map Inventory.id (Inventory.inventory st)) ->
  Inventory.freshClock st e ->
  List.NoDup (map Inventory.id (Inventory.inventory (Inventory.step st e))).
Proof.
  intros Hnodup Hfresh.
  destruct e as [| item | item | | | form | nowText nowISO |]; cbn;
    try assumption.
  - unfold Inventory.confirmDelete.
    destruct (Inventory.selectedItem st) as [sel |]; [| assumption].
    cbn. now apply filter_map_NoDup.
  - cbn in Hfresh. destruct Hfresh as [_ Hfresh].
    unfold Inventory.handleSaveItem.
    destruct (_ || _); [assumption |]. cbn.
    destruct (Inventory.selectedItem st) as [sel |] eqn:Hsel.
    + match goal with
      | |- List.NoDup (map Inventory.id (map ?g ?l)) =>
          assert (Hids :
                    map Inventory.id (map g l)
                    = map (fun i =>
                             if (i =? Inventory.id sel)%string
                             then Inventory.js_or_text (Inventory.id sel) nowText
                             else i)
                        (map Inventory.id l))
      end.
      { rewrite !map_map. apply map_ext. intros item.
        destruct (Inventory.id item =? Inventory.id sel)%string;
          [| reflexivity].
        unfold Inventory.newItem. cbn. now rewrite Hsel. }
      rewrite Hids. apply rename_NoDup; [assumption |].
      unfold Inventory.js_or_text.
      destruct (Inventory.id sel =? "")%string; [now right | now left].
    + rewrite map_app. cbn [map].
      apply NoDup_ListNoDup, NoDup_app.
      split; [now apply NoDup_ListNoDup |]. split.
      * intros i Hi Hlast. apply list_elem_of_In in Hi.
        apply list_elem_of_In in Hlast. destruct Hlast as [<- | []].
        apply Hfresh. revert Hi. unfold Inventory.newItem. cbn.
        now rewrite Hsel.
      * apply NoDup_ListNoDup. repeat constructor. intros [].
Qed.

(** X20.  On the inventory page, item ids that are distinct stay
    distinct through any session of adds, edits and deletions, as long as
    the clock text a save takes for a new id is not the id of an item
    already there (two saves within the same millisecond would share
    one). *)
Theorem inventory_ids_stay_distinct (events : list Inventory.Event) :
  forall st : Inventory.State,
    List.NoDup (map Inventory.id (Inventory.inventory st)) ->
    Inventory.freshSession st events ->
    List.NoDup
      (map Inventory.id
         (Inventory.inventory (fold_left Inventory.step events st))).
Proof.
  induction events as [| e events IH]; intros st Hnodup Hfresh;
    cbn [fold_left].
  - assumption.
  - destruct Hfresh as [He Hrest].
    apply IH; [| assumption]. now apply inventory_step_ids.
Qed.

Lemma inventory_ids_stay_distinct_witness :
  List.NoDup
    (map Inventory.id
       (Inventory.inventory
          (fold_left Inventory.step Examples.inventorySession
             (Inventory.mount None)))).
Proof.
  apply (inventory_ids_stay_distinct Examples.inventorySession
           (Inventory.mount None)).
  - constructor.
  - cbn. repeat split; try discriminate; cbn; intuition discriminate.
Defined.

Lemma filter_other_ids (i : string) (l : list Inventory.InventoryItem) :
  ~ In i (map Inventory.id l) ->
  List.filter (fun item => negb (Inventory.id item =? i)%string) l = l.
Proof.
  intros Hfresh. apply forallb_filter_id, forallb_forall. intros item Hin.
  destruct (String.eqb_spec (Inventory.id item) i) as [<- | _];
    [| reflexivity].
  exfalso. apply Hfresh. now apply in_map.
Qed.

(** X21.  Adding an item and then deleting it gives back the inventory
    and the stored list as they were, when the form has a name and a
    category and the new id is not the id of an item already there.  The
    new item goes to the end of the list under the clock text as its id;
    fields left blank or unparsable in the form are saved as 0. *)
Theorem inventory_add_then_delete
    (st : Inventory.State) (form : Inventory.FormData)
    (nowText nowISO : string) :
  Inventory.form_name form <> "" ->
  Inventory.form_category form <> "" ->
  ~ In nowText (map Inventory.id (Inventory.inventory st)) ->
  let opened := Inventory.setFormData form (Inventory.handleAddItem st) in
  let added := Inventory.handleSaveItem nowText nowISO opened in
  let item := Inventory.newItem nowText nowISO opened in
  let deleted :=
    Inventory.confirmDelete (Inventory.handleDeleteItem item added) in
  Inventory.inventory added = Inventory.inventory st ++ [item] /\
  Inventory.ls_inventory added = Some (Inventory.inventory added) /\
  Inventory.id item = nowText /\
  (Inventory.form_quantity form = None -> Inventory.quantity item = 0%Q) /\
  Inventory.inventory deleted = Inventory.inventory st /\
  Inventory.ls_inventory deleted = Some (Inventory.inventory st) /\
  Inventory.selectedItem deleted = None.
Proof.
  intros Hname Hcategory Hfresh opened added item deleted.
  apply String.eqb_neq in Hname, Hcategory.
  assert (Hadded : Inventory.inventory added = Inventory.inventory st ++ [item]).
  { subst added opened item. unfold Inventory.handleSaveItem. cbn.
    now rewrite Hname, Hcategory. }
  assert (Hstored : Inventory.ls_inventory added
                    = Some (Inventory.inventory added)).
  { subst added opened. unfold Inventory.handleSaveItem. cbn.
    now rewrite Hname, Hcategory. }
  assert (Hdeleted : Inventory.inventory deleted = Inventory.inventory st).
  { subst deleted. unfold Inventory.confirmDelete. cbn. rewrite Hadded.
    rewrite List.filter_app, filter_other_ids by assumption.
    cbn. now rewrite String.eqb_refl, app_nil_r. }
  split; [assumption |]. split; [assumption |]. split; [reflexivity |].
  split; [intros Hq; subst item opened; cbn; now rewrite Hq |].
  split; [assumption |].
  split; [| reflexivity].
  subst deleted. unfold Inventory.confirmDelete in Hdeleted |- *.
  cbn in Hdeleted |- *. now rewrite Hdeleted.
Qed.

Lemma inventory_add_then_delete_witness :
  Inventory.inventory
    (Inventory.confirmDelete
       (Inventory.handleDeleteItem
          (Inventory.newItem "1700000000001" "2023-11-14T22:13:20.001Z"
             (Inventory.setFormData Examples.beansForm
                (Inventory.handleAddItem (Inventory.mount None))))
          (Inventory.handleSaveItem "1700000000001" "2023-11-14T22:13:20.001Z"
             (Inventory.setFormData Examples.beansForm
                (Inventory.handleAddItem (Inventory.mount None))))))
  = Inventory.inventory (Inventory.mount None).
Proof.
  assert (Hname : Inventory.form_name Examples.beansForm <> "")
    by discriminate.
  assert (Hcategory : Inventory.form_category Examples.beansForm <> "")
    by discriminate.
  assert (Hfresh : ~ In "1700000000001"
                       (map Inventory.id
                          (Inventory.inventory (Inventory.mount None))))
    by (intros []).
  exact (proj1 (proj2 (proj2 (proj2 (proj2
           (inventory_add_then_delete (Inventory.mount None)
              Examples.beansForm "1700000000001" "2023-11-14T22:13:20.001Z"
              Hname Hcategory Hfresh)))))).
Defined.

(** X22.  A save with an empty name or an empty category is refused: the
    inventory, the stored list and the open form stay as they are and the
    error message is shown. *)
Theorem inventory_save_requires_name_and_category
    (st : Inventory.State) (nowText nowISO : string) :
  Inventory.form_name (Inventory.formData st) = "" \/
  Inventory.form_category (Inventory.formData st) = "" ->
  let st' := Inventory.handleSaveItem nowText nowISO st in
  st' = Inventory.showMessage "Name and category are required"
          Inventory.error st /\
  Inventory.inventory st' = Inventory.inventory st /\
  Inventory.ls_inventory st' = Inventory.ls_inventory st /\
  Inventory.isModalOpen st' = Inventory.isModalOpen st /\
  Inventory.formData st' = Inventory.formData st.
Proof.
  intros Hempty st'. subst st'. unfold Inventory.handleSaveItem.
  assert (Hrefused :
            ((Inventory.form_name (Inventory.formData st) =? "")%string
             || (Inventory.form_category (Inventory.formData st) =? "")%string)
            = true).
  { destruct Hempty as [-> | ->]; cbn; [reflexivity | apply orb_true_r]. }
  rewrite Hrefused. repeat split.
Qed.

Lemma inventory_save_requires_name_and_category_witness :
  Inventory.inventory
    (Inventory.handleSaveItem "1700000000001" "2023-11-14T22:13:20.001Z"
       (Inventory.handleAddItem (Inventory.mount None)))
  = Inventory.inventory (Inventory.handleAddItem (Inventory.mount None)).
Proof.
  exact (proj1 (proj2
           (inventory_save_requires_name_and_category
              (Inventory.handleAddItem (Inventory.mount None))
              "1700000000001" "2023-11-14T22:13:20.001Z"
              (or_introl eq_refl)))).
Defined.

(** ** Export followed by import *)

(** X23.  Importing a file that [exportData] wrote puts the exporting
    page's historical list, with its cancelled and cleared orders, into
    the [orders] slot and, through the reload, into the active list of
    the importing page; the preferences and the inventory of the exporting
    store are written to their slots, and the success message is shown.
    [JSON.parse] is taken to give back the exported document from its
    indented text and the historical list from its text, which is not
    empty. *)
Theorem export_then_import_restores_history
    (JSON_parse : string -> option DataImport.json)
    (JSON_stringify JSON_stringify_indented : DataImport.json -> string)
    (allOrders preferences inventory : DataImport.json)
    (exporting importing : DataImport.State) :
  JSON_parse (DataImport.slotText "systemPreferences" "{}"
                (DataImport.localStorage exporting)) = Some preferences ->
  JSON_parse (DataImport.slotText "inventory" "[]"
                (DataImport.localStorage exporting)) = Some inventory ->
  (let document :=
     DataImport.JObject [ ("orders", allOrders);
                          ("preferences", preferences);
                          ("inventory", inventory) ] in
   JSON_parse (JSON_stringify_indented document) = Some document) ->
  JSON_parse (JSON_stringify allOrders) = Some allOrders ->
  JSON_stringify allOrders <> "" ->
  exists file : string,
    DataImport.exportData JSON_parse JSON_stringify_indented allOrders
      exporting
    = Some file /\
    let st' :=
      DataImport.importData JSON_parse JSON_stringify (Some file) importing in
    DataImport.localStorage st' !! "orders" = Some (JSON_stringify allOrders) /\
    DataImport.localStorage st' !! "systemPreferences"
    = Some (JSON_stringify preferences) /\
    DataImport.localStorage st' !! "inventory"
    = Some (JSON_stringify inventory) /\
    DataImport.loaded st' = Some allOrders /\
    DataImport.loadError st' = None /\
    DataImport.message st'
    = Some ("Data imported successfully", DataImport.success).
Proof.
  intros Hpreferences Hinventory Hfile Horders Htext. cbv zeta in Hfile.
  eexists. split.
  { unfold DataImport.exportData. rewrite Hpreferences, Hinventory.
    reflexivity. }
  cbv zeta.
  unfold DataImport.importData, DataImport.tryImport. rewrite Hfile.
  cbn [DataImport.property DataImport.member String.eqb Ascii.eqb Bool.eqb
       DataImport.storedText].
  assert (Hread :
            DataImport.ordersText
              (DataImport.localStorage
                 (DataImport.setItem "inventory" (JSON_stringify inventory)
                    (DataImport.setItem "systemPreferences"
                       (JSON_stringify preferences)
                       (DataImport.setItem "orders" (JSON_stringify allOrders)
                          importing))))
            = JSON_stringify allOrders).
  { unfold DataImport.ordersText, DataImport.setItem.
    cbn [DataImport.localStorage].
    rewrite lookup_insert_ne by discriminate.
    rewrite lookup_insert_ne by discriminate.
    rewrite lookup_insert_eq.
    apply String.eqb_neq in Htext. now rewrite Htext. }
  unfold DataImport.loadOrders. rewrite Hread, Horders.
  cbn [DataImport.localStorage DataImport.loaded DataImport.loadError
       DataImport.message DataImport.showMessage DataImport.setItem].
  split; [| split; [| split; [| split; [| split]]]]; try reflexivity.
  - rewrite lookup_insert_ne by discriminate.
    rewrite lookup_insert_ne by discriminate.
    apply lookup_insert_eq.
  - rewrite lookup_insert_ne by discriminate. apply lookup_insert_eq.
  - apply lookup_insert_eq.
Qed.

Lemma export_then_import_restores_history_witness :
  exists file : string,
    DataImport.exportData Examples.parseExport Examples.indentedExport
      Examples.historyOfOne Examples.importPage
    = Some file /\
    DataImport.loaded
      (DataImport.importData Examples.parseExport Examples.stringifyExport
         (Some file) Examples.importPage)
    = Some Examples.historyOfOne.
Proof.
  destruct (export_then_import_restores_history
              Examples.parseExport Examples.stringifyExport
              Examples.indentedExport Examples.historyOfOne
              (DataImport.JObject []) (DataImport.JArray [])
              Examples.importPage Examples.importPage
              eq_refl eq_refl eq_refl eq_refl ltac:(discriminate))
    as (file & Hexport & _ & _ & _ & Hloaded & _).
  exists file. split; [exact Hexport | exact Hloaded].
Defined.

(** ** The date range of a report *)

Lemma startOfDay_le (d t : Z) :
  (Reports.startOfDay d <= t)%Z <-> (Reports.dayOf d <= Reports.dayOf t)%Z.
Proof.
  unfold Reports.startOfDay, Reports.dayOf, Reports.msPerDay.
  Z.to_euclidean_division_equations. lia.
Qed.

Lemma le_endOfDay (d t : Z) :
  (t <= Reports.endOfDay d)%Z <-> (Reports.dayOf t <= Reports.dayOf d)%Z.
Proof.
  unfold Reports.endOfDay, Reports.startOfDay, Reports.dayOf, Reports.msPerDay.
  Z.to_euclidean_division_equations. lia.
Qed.

(** X24.  The 'day' range selects exactly the orders placed on the
    calendar day of [now].  The 'custom' range selects exactly the orders
    whose calendar day lies between the day of the chosen start date and
    the day of the chosen end date, both days included in full, whatever
    the time of day the chosen dates carry; a date that is not chosen
    counts as today. *)
Theorem date_ranges_cover_whole_days
    (orders_ : list Order) (now : Z) (customStartDate customEndDate : option Z)
    (order : Order) :
  (In order (Reports.filteredOrders orders_ (Reports.todayRange now))
   <-> In order orders_ /\
       Reports.dayOf (timestamp order) = Reports.dayOf now) /\
  (In order
     (Reports.filteredOrders orders_
        (Reports.customRange customStartDate customEndDate now))
   <-> In order orders_ /\
       (Reports.dayOf (match customStartDate with Some d => d | None => now end)
        <= Reports.dayOf (timestamp order)
        <= Reports.dayOf (match customEndDate with Some d => d | None => now end))%Z).
Proof.
  unfold Reports.filteredOrders, Reports.inRange.
  split; rewrite filter_In, andb_true_iff, !Z.leb_le;
    cbn [Reports.start Reports.end_ Reports.todayRange Reports.customRange].
  - rewrite startOfDay_le, le_endOfDay. intuition lia.
  - destruct customStartDate, customEndDate;
      rewrite startOfDay_le, le_endOfDay; intuition lia.
Qed.

(** ** Day-over-day growth after the first point *)

Lemma Qle_bool_false (x y : Q) : Qle_bool x y = false -> (y < x)%Q.
Proof.
  intros Hb. apply Qnot_le_lt. intros Hle.
  apply Qle_bool_iff in Hle. congruence.
Qed.

Lemma js_index_previous {A : Type} (l : list A) (n : nat) :
  js_index l (Z.of_nat (S n) - 1) = nth_error l n.
Proof.
  unfold js_index.
  destruct (Z.ltb_spec (Z.of_nat (S n) - 1) 0) as [Hneg | _]; [lia |].
  f_equal. lia.
Qed.

(** X26.  In the trend series, a point after the first is compared with
    the point before it.  When the sales of both days are numbers: if the
    previous day's sales are not 0, the sales growth is
    (sales - previous) / previous * 100, and the trend is 'up' above 1,
    'down' below -1 and 'stable' in between; if the previous day's sales
    are 0 the point is compared with itself instead, so the growth is 0
    and the trend 'stable' if the day has sales, and the growth is NaN
    (trend 'stable') if it has none: a day after a day without sales never
    shows as growing.  When the sales of the day are a text that writes no
    number (two paid orders stored by the order-entry page give
    '07.003.50'), the growth is NaN and the trend 'stable'. *)
Theorem day_over_day_growth
    (Number_toString : Q -> string) (series : list StoredReports.DayPoint)
    (n : nat) (prev cur : StoredReports.DayPoint) :
  nth_error series n = Some prev ->
  nth_error series (S n) = Some cur ->
  exists m : StoredReports.TrendMetrics,
    nth_error (StoredReports.enhancedSalesTrend Number_toString series) (S n)
    = Some m /\
    (forall a b : Q,
       StoredReports.sales prev = JsNum (Finite a) ->
       StoredReports.sales cur = JsNum (Finite b) ->
       (~ (a == 0)%Q ->
        let g := ((b - a) / a * 100)%Q in
        StoredReports.salesGrowth m = Finite g /\
        ((1 < g)%Q -> StoredReports.trend m = Reports.up) /\
        ((g < -1)%Q -> StoredReports.trend m = Reports.down) /\
        ((-1 <= g)%Q -> (g <= 1)%Q -> StoredReports.trend m = Reports.stable)) /\
       ((a == 0)%Q ->
        StoredReports.trend m = Reports.stable /\
        (~ (b == 0)%Q ->
         exists q : Q, StoredReports.salesGrowth m = Finite q /\ (q == 0)%Q) /\
        ((b == 0)%Q -> StoredReports.salesGrowth m = NaN))) /\
    (ToNumber (StoredReports.sales cur) = NaN ->
     StoredReports.salesGrowth m = NaN /\
     StoredReports.trend m = Reports.stable).
Proof.
  intros Hprev Hcur.
  unfold StoredReports.enhancedSalesTrend.
  rewrite (Array_map_index_nth _ series (S n) cur Hcur).
  eexists. split; [reflexivity |].
  cbn [StoredReports.salesGrowth StoredReports.trend].
  rewrite !js_index_previous, nth_error_map, Hprev.
  cbn [option_map js_or_value].
  split.
  - intros a b Ha Hb. rewrite Ha, Hb.
    cbn [js_truthy ToNumber].
    split.
    + intros Hnonzero.
      assert (Hz : Qeq_bool a 0 = false).
      { apply not_true_is_false. intros Hz. now apply Qeq_bool_iff in Hz. }
      rewrite Hz. cbn [negb ToNumber num_sub num_neg num_add num_div].
      unfold js_div. rewrite Hz.
      cbn [js_scale Reports.js_gt_one Reports.js_lt_minus_one].
      change (b + - a)%Q with (b - a)%Q.
      set (g := ((b - a) / a * 100)%Q).
      split; [reflexivity |].
      destruct (Qle_bool g 1) eqn:Hup; cbn [negb];
        [apply Qle_bool_iff in Hup | apply Qle_bool_false in Hup];
        (destruct (Qle_bool (-1) g) eqn:Hdown; cbn [negb];
         [apply Qle_bool_iff in Hdown | apply Qle_bool_false in Hdown]);
        repeat split; intros; first [reflexivity | exfalso; lra].
    + intros Hzero.
      assert (Hz : Qeq_bool a 0 = true) by now apply Qeq_bool_iff.
      rewrite Hz. cbn [negb ToNumber num_sub num_neg num_add num_div].
      change (b + - b)%Q with (b - b)%Q.
      fold (Reports.growth b b).
      destruct (Qeq_bool b 0) eqn:Hc.
      * rewrite (growth_self_zero _ Hc). cbn.
        split; [reflexivity |]. split; [| reflexivity].
        intros Hne. exfalso. apply Hne. now apply Qeq_bool_iff.
      * destruct (growth_self_nonzero _ Hc) as (q & Hq & Hq0).
        rewrite Hq. cbn [Reports.js_gt_one Reports.js_lt_minus_one].
        assert (Hup : Qle_bool q 1 = true)
          by (apply Qle_bool_iff; rewrite Hq0; discriminate).
        assert (Hdown : Qle_bool (-1) q = true)
          by (apply Qle_bool_iff; rewrite Hq0; discriminate).
        rewrite Hup, Hdown. cbn [negb].
        split; [reflexivity |]. split.
        -- intros _. now exists q.
        -- intros Hc0. apply Qeq_bool_iff in Hc0. congruence.
  - intros Hnan. rewrite Hnan. cbn. split; reflexivity.
Qed.

Lemma day_over_day_growth_witness :
  exists m : StoredReports.TrendMetrics,
    nth_error
      (StoredReports.enhancedSalesTrend Examples.Number_toString
         [StoredReports.mkDayPoint 0 (JsNum (Finite 0)) 0;
          StoredReports.mkDayPoint 1 (JsNum (Finite 20)) 1])
      1
    = Some m /\
    StoredReports.trend m = Reports.stable.
Proof.
  destruct (day_over_day_growth Examples.Number_toString
              [StoredReports.mkDayPoint 0 (JsNum (Finite 0)) 0;
               StoredReports.mkDayPoint 1 (JsNum (Finite 20)) 1] 0
              (StoredReports.mkDayPoint 0 (JsNum (Finite 0)) 0)
              (StoredReports.mkDayPoint 1 (JsNum (Finite 20)) 1)
              eq_refl eq_refl)
    as (m & Hnth & Hnumbers & _).
  exists m. split; [exact Hnth |].
  destruct (Hnumbers 0%Q 20%Q eq_refl eq_refl) as [_ Hzero].
  exact (proj1 (Hzero ltac:(reflexivity))).
Defined.

(** ** From the order-entry page to a completed order *)

(** X27.  An order placed on the order-entry page arrives on the orders
    page, once that page loads the store, as the first active order, with
    status 'Pending' and every button of its card enabled.  Start and then
    Complete leave it 'Completed' with a preparation time counted from
    the instant the order was placed, whenever Start was pressed, and with
    every button of its card disabled. *)
Theorem placed_order_lifecycle
    (now t1 t2 : Z) (pst : Pos.State) (st0 : Orders.State) :
  Pos.firstName (Pos.customerInfo pst) <> "" ->
  Pos.lastInitial (Pos.customerInfo pst) <> "" ->
  Orders.ls_orders st0 = Pos.ls_orders (Pos.confirmOrder now pst) ->
  let placed := Pos.newOrder now pst in
  let page := Orders.loadOrders st0 in
  let started := Orders.clickButton t1 false placed Orders.StartButton page in
  let inProgress := with_status placed "In Progress" in
  let completed :=
    Orders.clickButton t2 false inProgress Orders.CompleteButton started in
  hd_error (Orders.orders page) = Some placed /\
  (forall b : Orders.CardButton, Orders.buttonEnabled placed b = true) /\
  hd_error (Orders.orders started) = Some inProgress /\
  exists done : Order,
    hd_error (Orders.orders completed) = Some done /\
    status done = "Completed" /\
    preparationTime done = Some (inject_Z (t2 - now) / 1000)%Q /\
    forall b : Orders.CardButton, Orders.buttonEnabled done b = false.
Proof.
  intros Hfirst Hlast Hstore placed page started inProgress completed.
  assert (Hslot : Orders.ls_orders st0
                  = Some (placed :: readOrders (Pos.ls_orders pst))).
  { rewrite Hstore. unfold Pos.confirmOrder.
    apply String.eqb_neq in Hfirst, Hlast. now rewrite Hfirst, Hlast. }
  assert (Hpage : Orders.orders page = placed :: readOrders (Pos.ls_orders pst)).
  { subst page. unfold Orders.loadOrders. now rewrite Hslot. }
  assert (Hstarted :
            Orders.orders started
            = inProgress
              :: map (Orders.updateOne t1 (id placed) "In Progress")
                   (readOrders (Pos.ls_orders pst))).
  { subst started. unfold Orders.clickButton.
    change (Orders.buttonEnabled placed Orders.StartButton) with true.
    cbv iota. unfold Orders.updateOrderStatus.
    cbn [Orders.orders Orders.showMessage Orders.storeOrders
         Orders.setAllOrders Orders.setOrders].
    rewrite Hpage. cbn [map]. f_equal.
    unfold Orders.updateOne. now rewrite Z.eqb_refl. }
  split; [now rewrite Hpage |].
  split; [now intros [] |].
  split; [now rewrite Hstarted |].
  exists (with_preparationTime (with_status inProgress "Completed")
            (inject_Z (t2 - now) / 1000)%Q).
  split; [| split; [reflexivity | split; [reflexivity | now intros []]]].
  subst completed. unfold Orders.clickButton.
  change (Orders.buttonEnabled inProgress Orders.CompleteButton) with true.
  cbv iota. unfold Orders.updateOrderStatus.
  cbn [Orders.orders Orders.showMessage Orders.storeOrders
       Orders.setAllOrders Orders.setOrders].
  rewrite Hstarted. cbn [map hd_error]. f_equal.
  unfold Orders.updateOne.
  change (id inProgress) with (id placed). now rewrite Z.eqb_refl.
Qed.

Lemma placed_order_lifecycle_witness :
  exists done : Order,
    hd_error
      (Orders.orders
         (Orders.clickButton 90000 false
            (with_status (Pos.newOrder 2000 Examples.posAfterSession)
               "In Progress")
            Orders.CompleteButton
            (Orders.clickButton 60000 false
               (Pos.newOrder 2000 Examples.posAfterSession)
               Orders.StartButton
               (Orders.loadOrders
                  (Orders.storeOrders
                     (Pos.newOrder 2000 Examples.posAfterSession
                      :: [Examples.orderPending])
                     (Examples.pageOf [] []))))))
    = Some done /\
    preparationTime done = Some (inject_Z (90000 - 2000) / 1000)%Q.
Proof.
  assert (Hfirst : Pos.firstName (Pos.customerInfo Examples.posAfterSession)
                   <> "") by (vm_compute; discriminate).
  assert (Hlast : Pos.lastInitial (Pos.customerInfo Examples.posAfterSession)
                  <> "") by (vm_compute; discriminate).
  assert (Hstore :
            Orders.ls_orders
              (Orders.storeOrders
                 (Pos.newOrder 2000 Examples.posAfterSession
                  :: [Examples.orderPending])
                 (Examples.pageOf [] []))
            = Pos.ls_orders (Pos.confirmOrder 2000 Examples.posAfterSession))
    by (vm_compute; reflexivity).
  destruct (placed_order_lifecycle 2000 60000 90000 Examples.posAfterSession
              (Orders.storeOrders
                 (Pos.newOrder 2000 Examples.posAfterSession
                  :: [Examples.orderPending])
                 (Examples.pageOf [] []))
              Hfirst Hlast Hstore)
    as (_ & _ & _ & done & Hdone & _ & Htime & _).
  exists done. split; [exact Hdone | exact Htime].
Defined.

(** ** Queue time *)

Definition notConfirmation (e : Pos.Event) : Prop :=
  match e with
  | Pos.ClickConfirmOrder _ => False
  | _ => True
  end.

Lemma step_queueStartTime (pst : Pos.State) (e : Pos.Event) :
  notConfirmation e ->
  Pos.queueStartTime (Pos.step pst e) = Pos.queueStartTime pst.
Proof.
  destruct e as [item | f | | index | index | | info | | now]; cbn;
    intros He; try reflexivity.
  - unfold Pos.addToCart. now destruct (category item =? "Coffee")%string.
  - unfold Pos.confirmFlavorSelection.
    now destruct (Pos.selectedCoffeeItem pst).
  - unfold Pos.removeFromCart.
    now destruct (nth_error (Pos.cart pst) index).
  - unfold Pos.increaseQuantity.
    now destruct (nth_error (Pos.cart pst) index).
  - unfold Pos.handlePlaceOrder. now destruct (Pos.cart pst).
  - contradiction.
Qed.

Lemma session_queueStartTime (events : list Pos.Event) :
  forall pst : Pos.State,
    List.Forall notConfirmation events ->
    Pos.queueStartTime (fold_left Pos.step events pst)
    = Pos.queueStartTime pst.
Proof.
  induction events as [| e events IH]; intros pst Hevents; cbn [fold_left].
  - reflexivity.
  - inversion Hevents as [| ? ? He Hrest]; subst.
    rewrite (IH _ Hrest). now apply step_queueStartTime.
Qed.

(** X28.  The queue time of an order is the time, in seconds, since the
    previous order was placed on the page, or since the page was mounted
    for the first order, whatever was done on the page in between; it is
    not negative when the clock does not run backwards. *)
Theorem queue_time_is_time_since_last_order
    (earlier now : Z) (pst : Pos.State) (events : list Pos.Event) :
  List.Forall notConfirmation events ->
  (forall (slot : OrdersSlot) (lastOrderNumber : option Z),
      queueTime
        (Pos.newOrder now
           (fold_left Pos.step events (Pos.mount earlier slot lastOrderNumber)))
      = (inject_Z (now - earlier) / 1000)%Q) /\
  (Pos.firstName (Pos.customerInfo pst) <> "" ->
   Pos.lastInitial (Pos.customerInfo pst) <> "" ->
   queueTime
     (Pos.newOrder now
        (fold_left Pos.step events (Pos.confirmOrder earlier pst)))
   = (inject_Z (now - earlier) / 1000)%Q) /\
  ((earlier <= now)%Z -> (0 <= inject_Z (now - earlier) / 1000)%Q).
Proof.
  intros Hevents. split; [| split].
  - intros slot lastOrderNumber. cbn [queueTime Pos.newOrder].
    now rewrite (session_queueStartTime events _ Hevents).
  - intros Hfirst Hlast. cbn [queueTime Pos.newOrder].
    rewrite (session_queueStartTime events _ Hevents).
    unfold Pos.confirmOrder.
    apply String.eqb_neq in Hfirst, Hlast. now rewrite Hfirst, Hlast.
  - intros Hclock. apply Qle_shift_div_l; [reflexivity |].
    rewrite Qmult_0_l. change 0%Q with (inject_Z 0).
    rewrite <- Zle_Qle. lia.
Qed.

Lemma queue_time_is_time_since_last_order_witness :
  queueTime (Pos.newOrder 2000 Examples.posAfterSession)
  = (inject_Z (2000 - 400) / 1000)%Q.
Proof.
  assert (Hevents : List.Forall notConfirmation Examples.posSession)
    by (repeat constructor).
  exact (proj1
           (queue_time_is_time_since_last_order 400 2000
              Examples.posAfterSession Examples.posSession Hevents)
           (Some [Examples.orderPending]) (Some 7%Z)).
Defined.

(** ** What a status or lead-interest update leaves alone *)

(** The fields of an order that neither update writes. *)
Definition orderCore (order : Order)
  : Z * string * Z * list OrderItem * Q * bool * Q * option Z
    * option string * option string * option string :=
  (id order, customerName order, timestamp order, items order, total order,
   isComplimentary order, queueTime order, startTime order, notes order,
   customerEmail order, customerPhone order).

Lemma updateOne_core (now orderId : Z) (newStatus : string) (order : Order) :
  orderCore (Orders.updateOne now orderId newStatus order) = orderCore order /\
  leadInterest (Orders.updateOne now orderId newStatus order)
  = leadInterest order.
Proof.
  unfold Orders.updateOne.
  destruct (id order =? orderId)%Z; [| now split].
  destruct (newStatus =? "Completed")%string; [| now split].
  destruct (startTime order); now split.
Qed.

(** X29.  A status update and a lead-interest record keep the active
    orders in place and in number, and change nothing of an order but
    their own fields: a status update leaves id, customer, timestamp,
    lines, total, complimentary flag, queue time, start time, notes and
    lead interest of every order as they were, a lead-interest record
    leaves these and the status and preparation time as they were, and
    both leave every order with another id untouched. *)
Theorem updates_change_only_their_field
    (now orderId : Z) (newStatus : string) (interested : bool)
    (st : Orders.State) :
  let statusUpdated := Orders.updateOrderStatus now orderId newStatus st in
  let leadRecorded := Orders.recordLeadInterest orderId interested st in
  map orderCore (Orders.orders statusUpdated)
  = map orderCore (Orders.orders st) /\
  map leadInterest (Orders.orders statusUpdated)
  = map leadInterest (Orders.orders st) /\
  map orderCore (Orders.orders leadRecorded)
  = map orderCore (Orders.orders st) /\
  map (fun order => (status order, preparationTime order))
    (Orders.orders leadRecorded)
  = map (fun order => (status order, preparationTime order)) (Orders.orders st) /\
  forall (n : nat) (order : Order),
    nth_error (Orders.orders st) n = Some order ->
    id order <> orderId ->
    nth_error (Orders.orders statusUpdated) n = Some order /\
    nth_error (Orders.orders leadRecorded) n = Some order.
Proof.
  intros statusUpdated leadRecorded. subst statusUpdated leadRecorded.
  cbn [Orders.orders Orders.updateOrderStatus Orders.recordLeadInterest
       Orders.showMessage Orders.storeOrders Orders.setAllOrders
       Orders.setOrders].
  rewrite !map_map.
  split; [| split; [| split; [| split]]].
  - apply map_ext. intros order. apply updateOne_core.
  - apply map_ext. intros order. apply updateOne_core.
  - apply map_ext. intros order. now destruct (id order =? orderId)%Z.
  - apply map_ext. intros order. now destruct (id order =? orderId)%Z.
  - intros n order Hnth Hother.
    rewrite !nth_error_map, Hnth. cbn [option_map].
    unfold Orders.updateOne.
    apply Z.eqb_neq in Hother. now rewrite Hother.
Qed.
